(** * Projet_agricole: the dashboard and map transforms, verified

    A shallow embedding of the computational parts of the two programs of
    the repository:

    - the Bokeh dashboard ([AgriculturalDashboard]): the data sources built
      from the feature table, the JavaScript callbacks that re-filter a
      source when the selected parcel changes, and the stress matrix;
    - the Folium map ([AgriculturalMap]): the yield trend, the recent-crop
      list of the popup, the weights of the risk heat map and the layer
      construction with its error handling.

    Numbers are modelled as the code has them.  Values that the code only
    moves around or bins (temperatures, stress indices, risk indices) are
    IEEE-754 binary64 numbers, Rocq's primitive [float]; time stamps and row
    labels are integers; the regression of the trend is carried out in exact
    rational arithmetic, of which the floating-point result of the library
    is the rounding. *)

From Stdlib Require Import ZArith QArith Qabs Lia Lqa String Ascii List Bool.
From Stdlib Require Import Permutation Sorted DecimalString OrderedTypeEx.
From Stdlib Require Import Uint63 PrimFloat SpecFloat FloatOps.
From stdpp Require Import base option list strings.

Set Warnings "-inexact-float".

(** ** Binary64 arithmetic *)

Module F64.

(** [x != x], the test behind [isnan] and pandas' [dropna]. *)
Definition is_nan (x : float) : bool := negb (PrimFloat.eqb x x).

(** C truthiness of a double: every value but the two zeros, NaN included. *)
Definition nonzero (x : float) : bool := negb (PrimFloat.eqb x 0%float).

Definition signbit (x : float) : bool :=
  match Prim2SF x with
  | S754_zero s | S754_infinity s | S754_finite s _ _ => s
  | S754_nan => false
  end.

Definition with_sign (s : bool) (x : float) : float :=
  if s then PrimFloat.opp x else x.

(** Exact for |n| < 2^53, the only use below. *)
Definition of_Z (n : Z) : float :=
  match n with
  | Z0 => 0%float
  | Zpos p => PrimFloat.of_uint63 (Uint63.of_Z (Zpos p))
  | Zneg p => PrimFloat.opp (PrimFloat.of_uint63 (Uint63.of_Z (Zpos p)))
  end.

Definition of_nat (n : nat) : float := of_Z (Z.of_nat n).

(** [floor]: the largest integral double below [x]. *)
Definition floor (x : float) : float :=
  match Prim2SF x with
  | S754_finite s m e =>
      if (0 <=? e)%Z then x
      else
        let q := Z.shiftr (Zpos m) (- e) in
        if (Zpos m =? Z.shiftl q (- e))%Z then x
        else if s then of_Z (- (q + 1)) else of_Z q
  | _ => x
  end.

(** C's [fmod]: the remainder of the truncated division, which is always
    representable and therefore computed exactly, with the sign of [a]. *)
Definition fmod (a b : float) : float :=
  match Prim2SF a, Prim2SF b with
  | S754_nan, _ | _, S754_nan | S754_infinity _, _ | _, S754_zero _ =>
      PrimFloat.nan
  | S754_zero _, _ | S754_finite _ _ _, S754_infinity _ => a
  | S754_finite sa ma ea, S754_finite _ mb eb =>
      let e := Z.min ea eb in
      let r := Z.rem (Z.shiftl (Zpos ma) (ea - e)) (Z.shiftl (Zpos mb) (eb - e)) in
      with_sign sa (Z.ldexp (of_Z r) e)
  end.

(** The [//] of Python floats and of NumPy's [floor_divide] on doubles
    (the routine [npy_divmod]): the quotient is rebuilt from [fmod], moved
    down by one when the remainder and the divisor differ in sign, and
    snapped to the nearest integral value. *)
Definition floor_divide (a b : float) : float :=
  if negb (nonzero b) then PrimFloat.div a b
  else
    let md := fmod a b in
    let dv := PrimFloat.div (PrimFloat.sub a md) b in
    let dv :=
      if nonzero md && negb (Bool.eqb (PrimFloat.ltb b 0) (PrimFloat.ltb md 0))
      then PrimFloat.sub dv 1 else dv in
    if nonzero dv then
      let fl := floor dv in
      if PrimFloat.ltb 0.5 (PrimFloat.sub dv fl) then PrimFloat.add fl 1 else fl
    else with_sign (signbit (PrimFloat.div a b)) 0%float.

(** The integral part of a finite double, [None] for NaN and infinities. *)
Definition trunc (x : float) : option Z :=
  match Prim2SF x with
  | S754_zero _ => Some 0%Z
  | S754_finite s m e =>
      let q := if (0 <=? e)%Z then Z.shiftl (Zpos m) e else Z.shiftr (Zpos m) (- e) in
      Some (if s then (- q)%Z else q)
  | _ => None
  end.

(** The value of a double that is not NaN as a multiple of 2^-1074, the
    spacing of the subnormals; the infinities lie beyond every finite
    value.  Two doubles are equal as numbers (0.0 and -0.0 included)
    exactly when their grid values are equal. *)
Definition grid (x : float) : option Z :=
  match Prim2SF x with
  | S754_nan => None
  | S754_zero _ => Some 0%Z
  | S754_infinity s => Some (if s then - 2 ^ 2100 else 2 ^ 2100)%Z
  | S754_finite s m e =>
      let v := Z.shiftl (Zpos m) (e + 1074) in
      Some (if s then (- v)%Z else v)
  end.

(** [x == y] for two doubles that are not NaN. *)
Definition same_number (x y : float) : bool :=
  match grid x, grid y with
  | Some a, Some b => (a =? b)%Z
  | _, _ => false
  end.


(** The rational number that a finite double is. *)
Definition value (x : float) : option Q :=
  match Prim2SF x with
  | S754_nan | S754_infinity _ => None
  | _ => g ← grid x; Some (Qmake g (Pos.pow 2 1074))
  end.

Definition min (x y : float) : float := if PrimFloat.ltb y x then y else x.
Definition max (x y : float) : float := if PrimFloat.ltb x y then y else x.

(** Minimum and maximum of a column without NaN; NaN for an empty one. *)
Definition min_list (l : list float) : float :=
  match l with
  | [] => PrimFloat.nan
  | x :: l' => fold_left min l' x
  end.

Definition max_list (l : list float) : float :=
  match l with
  | [] => PrimFloat.nan
  | x :: l' => fold_left max l' x
  end.

(** The mean of the numbers of a column, NaN skipped (pandas' [mean]);
    NaN when nothing is left.  The sum runs from left to right. *)
Definition mean (l : list float) : float :=
  let l' := List.filter (λ x, negb (is_nan x)) l in
  PrimFloat.div (fold_left PrimFloat.add l' 0%float) (of_nat (length l')).

End F64.

(** ** Sorting and duplicates *)

Section ListOps.
Context {A : Type}.

(** Insertion of [x] before the first element that does not come before
    it under the comparator [cmp] (negative: first argument first). *)
Fixpoint insert_by (cmp : A → A → Z) (x : A) (l : list A) : list A :=
  match l with
  | [] => [x]
  | y :: l' => if (cmp x y <=? 0)%Z then x :: l else y :: insert_by cmp x l'
  end.

(** A stable sort: elements that compare equal keep their order. *)
Definition sort_by (cmp : A → A → Z) (l : list A) : list A :=
  foldr (insert_by cmp) [] l.

(** pandas' [drop_duplicates] (keep the first of each class of [same]). *)
Fixpoint drop_duplicates_from (same : A → A → bool) (seen l : list A) : list A :=
  match l with
  | [] => []
  | x :: l' =>
      if existsb (same x) seen then drop_duplicates_from same seen l'
      else x :: drop_duplicates_from same (x :: seen) l'
  end.

Definition drop_duplicates (same : A → A → bool) (l : list A) : list A :=
  drop_duplicates_from same [] l.
End ListOps.

(** The order of strings that Python's [sorted] and pandas' [groupby]
    use (code points, which is the order of the bytes), as a comparator. *)
Definition string_cmp (a b : string) : Z :=
  match String.compare a b with
  | Lt => (-1)%Z
  | Eq => 0%Z
  | Gt => 1%Z
  end.

(** ** The browser side: column data and the callbacks *)

Module Js.

(** The cells of a column.  JavaScript has one number type; the model keeps
    integral numbers (row labels, time stamps in milliseconds) apart from
    the other doubles. *)
Inductive value : Type :=
  | Undefined
  | Num (n : Z)
  | Real (x : float)
  | Str (s : string).

Abbreviation array := (list value) (only parsing).
Abbreviation ref := nat (only parsing).

(** Arrays live in a heap and are named by reference, so that two columns
    may share one array. *)
Abbreviation heap := (list array) (only parsing).

(** An object whose properties are arrays: its keys in insertion order. *)
Abbreviation object := (list (string * ref)) (only parsing).

(** What a callback sees: [source.data], [full_source.data] and the arrays. *)
Record state := State {
  arrays : heap;
  source_data : object;
  full_data : object
}.

(** A column data source as it is shipped to the browser. *)
Abbreviation column_data := (list (string * array)) (only parsing).

Definition get (o : object) (k : string) : option ref :=
  snd <$> List.find (λ e, String.eqb (fst e) k) o.

(** [o[k] = r] *)
Fixpoint put (o : object) (k : string) (r : ref) : object :=
  match o with
  | [] => [(k, r)]
  | (k', r') :: o' =>
      if String.eqb k' k then (k, r) :: o' else (k', r') :: put o' k r
  end.

(** [a[i]]: [undefined] out of range. *)
Definition index (a : array) (i : nat) : value := default Undefined (a !! i).

(** [o[k]] as an array; [None] stands for [undefined], on which any use
    ([.length], [[i]], [.push]) throws a TypeError. *)
Definition read (h : heap) (o : object) (k : string) : option array :=
  r ← get o k; h !! r.

(** [v === s] for a string [s]. *)
Definition strict_eq_str (v : value) (s : string) : bool :=
  match v with
  | Str t => String.eqb t s
  | _ => false
  end.

Definition max_time : Z := 8640000000000000.

Definition time_clip (n : Z) : option Z :=
  if (Z.abs n <=? max_time)%Z then Some n else None.

(** The time value of [new Date(v)] for a number [v]: its integral part
    when it ixs within 8.64e15 ms of the epoch, otherwise an invalid date
    ([None]).  Date columns hold numbers; a string would be parsed, which
    is not modelled and counts as invalid. *)
Definition Date (v : value) : option Z :=
  match v with
  | Num n => time_clip n
  | Real x => F64.trunc x ≫= time_clip
  | _ => None
  end.

(** [new Date(dates[a]) - new Date(dates[b])]; the difference is NaN when
    a date is invalid, and [sort] reads a NaN from its comparator as 0. *)
Definition by_date (dates : array) (a b : nat) : Z :=
  match Date (index dates a), Date (index dates b) with
  | Some x, Some y => (x - y)%Z
  | _, _ => 0%Z
  end.

(** [for (let key in o) o[key] = []]: every property gets a new array. *)
Fixpoint reset_entries (o : object) (h : heap) : object * heap :=
  match o with
  | [] => ([], h)
  | (k, _) :: o' =>
      let '(o'', h') := reset_entries o' (h ++ [[]]) in
      ((k, length h) :: o'', h')
  end.

(** [o[k] = []] for one key, which is added when the object lacks it. *)
Definition reset_key (k : string) (oh : object * heap) : object * heap :=
  (put oh.1 k (length oh.2), oh.2 ++ [[]]).

(** [a.push(v)], in place. *)
Definition push (h : heap) (r : ref) (v : value) : option heap :=
  a ← h !! r; Some (<[r := a ++ [v]]> h).

(** [filtered[key].push(full_data[key][i])] *)
Definition copy_cell (full : object) (k : string) (r : ref) (h : heap) (i : nat)
  : option heap :=
  col ← read h full k; push h r (index col i).

Fixpoint copy_cells (full : object) (k : string) (r : ref) (ixs : list nat) (h : heap)
  : option heap :=
  match ixs with
  | [] => Some h
  | i :: ixs' => h' ← copy_cell full k r h i; copy_cells full k r ixs' h'
  end.

(** [for (let key in filtered) for (let i of indices) ...] *)
Fixpoint fill_entries (o full : object) (ixs : list nat) (h : heap) : option heap :=
  match o with
  | [] => Some h
  | (k, r) :: o' => h' ← copy_cells full k r ixs h; fill_entries o' full ixs h'
  end.

(** The positions [i] with [col[i] === selected], in increasing order. *)
Definition matching (col : array) (selected : string) : list nat :=
  List.filter (λ i, strict_eq_str (index col i) selected) (seq 0 (length col)).

(** [indices.sort((a, b) => new Date(full_data['date'][a]) - ...)].  The
    comparator runs only when there are two indices to compare, and it is
    then that a missing date column throws.  [Array.prototype.sort] is
    stable. *)
Definition sort_indices (h : heap) (full : object) (ixs : list nat) : option (list nat) :=
  match ixs with
  | [] | [_] => Some ixs
  | _ => dates ← read h full "date"; Some (sort_by (by_date dates) ixs)
  end.

(** The callback of the yield history plot. *)
Definition yield_callback (selected : string) (st : state) : option state :=
  let '(filtered, h) := reset_entries (source_data st) (arrays st) in
  parcels ← read h (full_data st) "parcelle_id";
  indices ← sort_indices h (full_data st) (matching parcels selected);
  h' ← fill_entries filtered (full_data st) indices h;
  Some (State h' filtered (full_data st)).

(** [filtered[k].push(data[k][i])] on the current object. *)
Definition push_from (data : object) (k : string) (i : nat) (oh : object * heap)
  : option (object * heap) :=
  r ← get oh.1 k;
  col ← read oh.2 data k;
  h' ← push oh.2 r (index col i);
  Some (oh.1, h').

Definition stress_columns : list string :=
  ["temp_bin"; "stress_bin"; "normalized_count"].

Definition stress_step (data : object) (selected : string) (oh : object * heap) (i : nat)
  : option (object * heap) :=
  parcels ← read oh.2 data "parcelle_id";
  if strict_eq_str (index parcels i) selected then
    oh1 ← push_from data "temp_bin" i oh;
    oh2 ← push_from data "stress_bin" i oh1;
    push_from data "normalized_count" i oh2
  else Some oh.

Fixpoint stress_loop (data : object) (selected : string) (ixs : list nat) (oh : object * heap)
  : option (object * heap) :=
  match ixs with
  | [] => Some oh
  | i :: ixs' => oh' ← stress_step data selected oh i; stress_loop data selected ixs' oh'
  end.

(** The callback of the stress matrix: only three columns are reset and
    refilled, by parcel and without sorting. *)
Definition stress_callback (selected : string) (st : state) : option state :=
  let oh := reset_key "normalized_count"
              (reset_key "stress_bin"
                 (reset_key "temp_bin" (source_data st, arrays st))) in
  parcels ← read oh.2 (full_data st) "parcelle_id";
  oh' ← stress_loop (full_data st) selected (seq 0 (length parcels)) oh;
  Some (State oh'.2 oh'.1 (full_data st)).

(** [for (let key in filtered) filtered[key].push(full_data[key][i])] *)
Fixpoint push_row (full o : object) (i : nat) (h : heap) : option heap :=
  match o with
  | [] => Some h
  | (k, r) :: o' => h' ← copy_cell full k r h i; push_row full o' i h'
  end.

Fixpoint ndvi_loop (full : object) (selected : string) (o : object) (ixs : list nat)
  (h : heap) : option heap :=
  match ixs with
  | [] => Some h
  | i :: ixs' =>
      parcels ← read h full "parcelle_id";
      h' ← (if strict_eq_str (index parcels i) selected
            then push_row full o i h else Some h);
      ndvi_loop full selected o ixs' h'
  end.

(** The callback of the NDVI plot: every column is reset, then the rows of
    the selected parcel are copied one by one, in the order of the data. *)
Definition ndvi_callback (selected : string) (st : state) : option state :=
  let '(filtered, h) := reset_entries (source_data st) (arrays st) in
  parcels ← read h (full_data st) "parcelle_id";
  h' ← ndvi_loop (full_data st) selected filtered (seq 0 (length parcels)) h;
  Some (State h' filtered (full_data st)).

(** [filtered[k].push(v)] on the current object. *)
Definition push_value (k : string) (v : value) (oh : object * heap)
  : option (object * heap) :=
  r ← get oh.1 k;
  h' ← push oh.2 r v;
  Some (oh.1, h').

(** [actual * (1 + 0.05 * (u - 0.5))] for a draw [u] of [Math.random()]. *)
Definition perturbed (actual u : float) : float :=
  PrimFloat.mul actual
    (PrimFloat.add 1 (PrimFloat.mul 0.05 (PrimFloat.sub u 0.5))).

(** The callback of the yield prediction plot.  [to_number] is JavaScript's
    conversion of a cell to a number and [random n] the [n]-th draw of
    [Math.random()]; the state carries the number of draws made. *)
Section Prediction.
Variable to_number : value → float.
Variable random : nat → float.

Definition prediction_step (data : object) (selected : string)
  (ohn : object * heap * nat) (i : nat) : option (object * heap * nat) :=
  let '(oh, n) := ohn in
  parcels ← read oh.2 data "parcelle_id";
  if strict_eq_str (index parcels i) selected then
    oh1 ← (dates ← read oh.2 data "date"; push_value "date" (index dates i) oh);
    oh2 ← (yields ← read oh1.2 data "rendement_estime";
           push_value "actual_yield" (index yields i) oh1);
    yields ← read oh2.2 data "rendement_estime";
    oh3 ← push_value "predicted_yield"
            (Real (perturbed (to_number (index yields i)) (random n))) oh2;
    Some (oh3, S n)
  else Some ohn.

Fixpoint prediction_loop (data : object) (selected : string) (ixs : list nat)
  (ohn : object * heap * nat) : option (object * heap * nat) :=
  match ixs with
  | [] => Some ohn
  | i :: ixs' =>
      ohn' ← prediction_step data selected ohn i;
      prediction_loop data selected ixs' ohn'
  end.

(** The predictions pushed for the rows [ixs] when [n] draws were made
    before: one draw per row, in the order of the rows. *)
Definition predictions (yields : array) (n : nat) (ixs : list nat) : array :=
  zip_with (λ i j, Real (perturbed (to_number (index yields i)) (random j)))
    ixs (seq n (length ixs)).

Definition prediction_callback (selected : string) (draws : nat) (st : state)
  : option (state * nat) :=
  let oh := reset_key "predicted_yield"
              (reset_key "actual_yield"
                 (reset_key "date" (source_data st, arrays st))) in
  parcels ← read oh.2 (full_data st) "parcelle_id";
  ohn ← prediction_loop (full_data st) selected (seq 0 (length parcels)) (oh, draws);
  Some (State ohn.1.2 ohn.1.1 (full_data st), ohn.2).
End Prediction.

(** Loading a data source: one new array per column. *)
Fixpoint load (d : column_data) (h : heap) : object * heap :=
  match d with
  | [] => ([], h)
  | (k, a) :: d' =>
      let '(o, h') := load d' (h ++ [a]) in
      ((k, length h) :: o, h')
  end.

(** The page after loading: the full source, then the plotted one. *)
Definition init (full source : column_data) : state :=
  let '(fo, h1) := load full [] in
  let '(so, h2) := load source h1 in
  State h2 so fo.

(** The content of an object, column by column; [None] when a reference
    dangles, which no object of a page does. *)
Fixpoint contents (h : heap) (o : object) : option column_data :=
  match o with
  | [] => Some []
  | (k, r) :: o' => a ← h !! r; d ← contents h o'; Some ((k, a) :: d)
  end.

Definition keys (o : object) : list string := List.map fst o.

(** *** What the callbacks compute, on plain column data *)

Definition lookup_col (d : column_data) (k : string) : option array :=
  snd <$> List.find (λ e, String.eqb (fst e) k) d.

Definition pick (col : array) (ixs : list nat) : array := List.map (index col) ixs.

Definition select_sorted (d : column_data) (selected : string) : option (list nat) :=
  parcels ← lookup_col d "parcelle_id";
  match matching parcels selected with
  | ([] | [_]) as m => Some m
  | m => dates ← lookup_col d "date"; Some (sort_by (by_date dates) m)
  end.

Definition gather (d : column_data) (ixs : list nat) (k : string) : option (string * array) :=
  match ixs with
  | [] => Some (k, [])
  | _ => col ← lookup_col d k; Some (k, pick col ixs)
  end.

Definition filtered_columns (d : column_data) (ks : list string) (selected : string)
  : option column_data :=
  ixs ← select_sorted d selected; mapM (gather d ixs) ks.

Definition stress_filtered (d : column_data) (selected : string)
  : option (array * array * array) :=
  parcels ← lookup_col d "parcelle_id";
  match matching parcels selected with
  | [] => Some ([], [], [])
  | m =>
      t ← lookup_col d "temp_bin";
      s ← lookup_col d "stress_bin";
      n ← lookup_col d "normalized_count";
      Some (pick t m, pick s m, pick n m)
  end.

(** The column [k] of the plotted source. *)
Definition shown (st : state) (k : string) : option array :=
  read (arrays st) (source_data st) k.

(** Every array of [h] is in [h'], at its place and as it was. *)
Definition unchanged (h h' : heap) : Prop :=
  ∀ r a, h !! r = Some a → h' !! r = Some a.

End Js.

(** ** Python: exceptions and what is printed *)

Module Py.

Inductive exn : Type :=
  | KeyError (what : string)
  | ValueError (what : string)
  | AttributeError (what : string)
  | TypeError (what : string).

(** What one [print] writes to standard output: a fixed message; the
    diagnostic [print(f"<context>{e}")] of an [except Exception as e]
    handler; the dump [print(df.head())] of a table, of which the columns
    and the number of rows shown are kept; or a message that ends with a
    pair of coordinates, [print(f"<context>({lat}, {lon})")]. *)
Inductive event : Type :=
  | Printed (line : string)
  | Report (context : string) (e : exn)
  | Head (columns : list string) (rows : nat)
  | Position (context : string) (lat lon : float).

End Py.

(** ** The dashboard *)

Module Dashboard.
Import Py.

(** A row of the feature table.  [label] is the row's index label; [date]
    is the time stamp in milliseconds, as Bokeh ships it; a missing number
    is NaN. *)
Record feature_row := FeatureRow {
  label : Z;
  parcelle_id : string;
  date : Z;
  rendement_estime : float;
  ndvi : float;
  temperature : float;
  stress_hydrique : float
}.

(** A table: the names of the columns it has, and its rows.  A field of a
    row means something only when its column is listed. *)
Record DataFrame := Frame {
  columns : list string;
  rows : list feature_row
}.

Definition has (c : string) (df : DataFrame) : bool :=
  existsb (String.eqb c) (columns df).

(** [df[[c1, ..., cn]]]: raises [KeyError] on the first absent column. *)
Definition select (cols : list string) (df : DataFrame) : exn + DataFrame :=
  match List.find (λ c, negb (has c df)) cols with
  | Some c => inl (KeyError c)
  | None => inr (Frame cols (rows df))
  end.

(** [df['c'] = ...]: the column is added when it is new. *)
Definition set_column (c : string) (df : DataFrame) : DataFrame :=
  if has c df then df else Frame (columns df ++ [c]) (rows df).

(** The collaborator, reduced to what the dashboard asks of it:
    [load_data] raises or not, [prepare_features] raises or returns the
    feature table, [monitoring_data] is [None] or the parcel column. *)
Record DataManager := Manager {
  load_data : option exn;
  prepare_features : exn + DataFrame;
  monitoring_data : option (list string)
}.

Definition yield_columns : list string := ["parcelle_id"; "date"; "rendement_estime"].
Definition ndvi_columns : list string := ["parcelle_id"; "date"; "ndvi"].

(** [features[[...]].dropna()] for the yield and for the NDVI series. *)
Definition yield_data (features : DataFrame) : exn + DataFrame :=
  match select yield_columns features with
  | inl e => inl e
  | inr df => inr (Frame (columns df)
                     (List.filter (λ r, negb (F64.is_nan (rendement_estime r))) (rows df)))
  end.

Definition ndvi_data (features : DataFrame) : exn + DataFrame :=
  match select ndvi_columns features with
  | inl e => inl e
  | inr df => inr (Frame (columns df)
                     (List.filter (λ r, negb (F64.is_nan (ndvi r))) (rows df)))
  end.

Definition cell (c : string) (r : feature_row) : Js.value :=
  if String.eqb c "parcelle_id" then Js.Str (parcelle_id r)
  else if String.eqb c "date" then Js.Num (date r)
  else if String.eqb c "rendement_estime" then Js.Real (rendement_estime r)
  else if String.eqb c "ndvi" then Js.Real (ndvi r)
  else if String.eqb c "temperature" then Js.Real (temperature r)
  else if String.eqb c "stress_hydrique" then Js.Real (stress_hydrique r)
  else Js.Undefined.

Definition column (c : string) (rs : list feature_row) : string * Js.array :=
  (c, List.map (cell c) rs).

(** [ColumnDataSource(df)]: the index, then the columns of the table. *)
Definition ColumnDataSource (df : DataFrame) : Js.column_data :=
  ("index", List.map (λ r, Js.Num (label r)) (rows df))
    :: List.map (λ c, column c (rows df)) (columns df).

(** [ColumnDataSource(data={key: [] for key in df.columns})] *)
Definition empty_source (df : DataFrame) : Js.column_data :=
  List.map (λ c, (c, [])) (columns df).

Record sources := Sources {
  full_yield_source : Js.column_data;
  full_ndvi_source : Js.column_data;
  yield_source : Js.column_data;
  ndvi_source : Js.column_data
}.

(** The fields of the dashboard object; the sources are [None] until
    [create_data_sources] has set them.  [features_data] is the table
    object that [prepare_features] returned: an assignment to one of its
    columns changes that object in place, for whoever holds it, and shows
    here as a new value of the field. *)
Record dashboard := Dash {
  data_manager : DataManager;
  features_data : option DataFrame;
  data_sources : option sources
}.

Definition new (dm : DataManager) : dashboard := Dash dm None None.

Definition create_data_sources_body (self : dashboard) : dashboard * (exn + unit) :=
  match load_data (data_manager self) with
  | Some e => (self, inl e)
  | None =>
      match prepare_features (data_manager self) with
      | inl e => (self, inl e)
      | inr features =>
          let self1 := Dash (data_manager self) (Some features) (data_sources self) in
          match yield_data features with
          | inl e => (self1, inl e)
          | inr yd =>
              match ndvi_data features with
              | inl e => (self1, inl e)
              | inr nd =>
                  (Dash (data_manager self) (Some features)
                     (Some (Sources (ColumnDataSource yd) (ColumnDataSource nd)
                              (empty_source yd) (empty_source nd))),
                   inr ())
              end
          end
      end
  end.

(** [create_data_sources]: the body under [try], the handler printing. *)
Definition create_data_sources (self : dashboard) : dashboard * list event :=
  match create_data_sources_body self with
  | (self', inr _) => (self', [Printed "Data sources successfully prepared."])
  | (self', inl e) => (self', [Report "Error preparing data sources: " e])
  end.

(** [sorted(monitoring_data["parcelle_id"].unique())]: each parcel once,
    in the order of the strings. *)
Definition sorted_unique (ids : list string) : list string :=
  sort_by string_cmp (drop_duplicates String.eqb ids).

Definition get_parcelle_options (self : dashboard) : list string * list event :=
  match monitoring_data (data_manager self) with
  | None =>
      ([], [Report "Error retrieving parcel options: "
              (ValueError "Monitoring data is not loaded.")])
  | Some ids => (sorted_unique ids, [])
  end.

(** The source of the prediction plot before any selection. *)
Definition prediction_source : Js.column_data :=
  [("date", []); ("actual_yield", []); ("predicted_yield", [])].

(** *** The stress matrix *)

Definition temp_bin (temperature : float) : float :=
  PrimFloat.mul (F64.floor_divide temperature 5) 5.

Definition stress_bin (stress_hydrique : float) : float :=
  PrimFloat.mul (F64.floor_divide stress_hydrique 0.1) 0.1.

(** The key of a row in [groupby(['parcelle_id', 'temp_bin', 'stress_bin'])]:
    bins are compared as numbers, and a row with a NaN bin has no key
    (pandas drops it). *)
Definition key : Type := string * Z * Z.

Definition group_key (r : feature_row) : option key :=
  t ← F64.grid (temp_bin (temperature r));
  s ← F64.grid (stress_bin (stress_hydrique r));
  Some (parcelle_id r, t, s).

Definition of_comparison (c : comparison) : Z :=
  match c with
  | Lt => (-1)%Z
  | Eq => 0%Z
  | Gt => 1%Z
  end.

(** The order of the groups: by parcel, then by the two bins. *)
Definition key_cmp (a b : key) : Z :=
  match String.compare a.1.1 b.1.1 with
  | Eq =>
      match Z.compare a.1.2 b.1.2 with
      | Eq => of_comparison (Z.compare a.2 b.2)
      | c => of_comparison c
      end
  | c => of_comparison c
  end.

Definition key_eqb (a b : key) : bool :=
  String.eqb a.1.1 b.1.1 && Z.eqb a.1.2 b.1.2 && Z.eqb a.2 b.2.

(** The same order as a relation: first the parcels as strings, then the
    temperature bins, then the stress bins. *)
Definition key_lt (a b : key) : Prop :=
  String_as_OT.lt a.1.1 b.1.1 ∨
  (a.1.1 = b.1.1 ∧ ((a.1.2 < b.1.2)%Z ∨ (a.1.2 = b.1.2 ∧ (a.2 < b.2)%Z))).

Definition in_group (k : key) (r : feature_row) : bool :=
  match group_key r with
  | Some k' => key_eqb k k'
  | None => false
  end.

(** The rows that [groupby] counts: those with a key, that is with two
    bins that are numbers. *)
Definition binned (r : feature_row) : bool :=
  match group_key r with
  | Some _ => true
  | None => false
  end.

(** One line of the stress matrix. *)
Record StressBin := Bin {
  bin_parcelle_id : string;
  bin_temp : float;
  bin_stress : float;
  count : nat;
  normalized_count : Q
}.

(** The key that the bins of a line stand for. *)
Definition bin_key (b : StressBin) : option key :=
  t ← F64.grid (bin_temp b);
  s ← F64.grid (bin_stress b);
  Some (bin_parcelle_id b, t, s).

(** [groupby(...).size().reset_index(name='count')]: one entry per key that
    occurs, in key order, with a row of the group (which gives the parcel
    and the numbers of the bins) and the number of rows of the group. *)
Definition group_sizes (rs : list feature_row) : list (feature_row * nat) :=
  let keys := sort_by key_cmp (drop_duplicates key_eqb (omap group_key rs)) in
  omap (λ k, match List.filter (in_group k) rs with
             | [] => None
             | r :: g => Some (r, S (length g))
             end) keys.

(** [stress_matrix['count'].max()] *)
Definition max_count (g : list (feature_row * nat)) : nat :=
  foldr Nat.max 0 (List.map snd g).

(** [count / max_count], as the exact fraction in lowest terms. *)
Definition normalize (c m : nat) : Q :=
  Qred (inject_Z (Z.of_nat c) / inject_Z (Z.of_nat m)).

(** The label of a group in a key column: for each number pandas keeps
    the first cell of the whole column that equals it, so that a zero bin
    has the sign of the first zero of its column. *)
Definition group_label (column : list float) (v : float) : float :=
  default v (List.find (λ u, F64.same_number u v) column).

Definition stress_matrix (rs : list feature_row) : list StressBin :=
  let g := group_sizes rs in
  let m := max_count g in
  let temps := List.map (λ r, temp_bin (temperature r)) rs in
  let stresses := List.map (λ r, stress_bin (stress_hydrique r)) rs in
  List.map (λ rc, Bin (parcelle_id rc.1)
                    (group_label temps (temp_bin (temperature rc.1)))
                    (group_label stresses (stress_bin (stress_hydrique rc.1)))
                    rc.2 (normalize rc.2 m)) g.

(** The double that the fraction rounds to, [float(count) / float(max)]. *)
Definition to_float (q : Q) : float :=
  PrimFloat.div (F64.of_Z (Qnum q)) (F64.of_Z (Zpos (Qden q))).

Definition stress_source (m : list StressBin) : Js.column_data :=
  [("index", List.map (λ i, Js.Num (Z.of_nat i)) (seq 0 (length m)));
   ("parcelle_id", List.map (λ b, Js.Str (bin_parcelle_id b)) m);
   ("temp_bin", List.map (λ b, Js.Real (bin_temp b)) m);
   ("stress_bin", List.map (λ b, Js.Real (bin_stress b)) m);
   ("count", List.map (λ b, Js.Num (Z.of_nat (count b))) m);
   ("normalized_count", List.map (λ b, Js.Real (to_float (normalized_count b))) m)].

(** What [create_stress_matrix] hands to the page: the figure with its
    two sources, both holding the whole matrix at first. *)
Record stress_plot := StressPlot {
  plot_source : Js.column_data;
  plot_full_source : Js.column_data
}.

Definition missing_stress_columns : string :=
  "Les colonnes 'temperature' et 'stress_hydrique' sont nécessaires pour la matrice de stress.".

Definition create_stress_matrix (self : dashboard)
  : option stress_plot * dashboard * list event :=
  let failed e :=
    Report "Erreur lors de la création de la matrice de stress : " e in
  match features_data self with
  | None => (None, self, [failed (AttributeError "features_data")])
  | Some features =>
      if negb (has "temperature" features) || negb (has "stress_hydrique" features)
      then (None, self, [Printed missing_stress_columns])
      else
        let features' := set_column "stress_bin" (set_column "temp_bin" features) in
        let self' := Dash (data_manager self) (Some features') (data_sources self) in
        if negb (has "parcelle_id" features')
        then (None, self', [failed (KeyError "parcelle_id")])
        else
          let m := stress_source (stress_matrix (rows features')) in
          (Some (StressPlot m m), self', [])
  end.

End Dashboard.

(** ** The map *)

Module AgriculturalMap.
Import Py.

(** *** The yield history of the data manager *)

(** A cell of the [date] column: a time stamp, or the integer that
    [_calculate_yield_trend] puts in its place. *)
Inductive date_cell : Type :=
  | Timestamp (year month day : Z)
  | Year (n : Z).

(** A row of [data_manager.yield_history]; yields are exact rationals. *)
Record yield_record := YieldRecord {
  yh_parcelle_id : string;
  yh_date : date_cell;
  yh_rendement_estime : Q
}.

Abbreviation table := (list yield_record) (only parsing).
Abbreviation ref := nat (only parsing).

(** Tables are objects: they live in a store and are reached by reference. *)
Abbreviation store := (list table) (only parsing).

Record TrendResult := Trend {
  slope : Q;
  intercept : Q;
  variation_moyenne : Q
}.

Definition zero_trend : TrendResult := Trend 0%Q 0%Q 0%Q.

(** Computations that read and write the store and may raise. *)
Definition M (A : Type) : Type := store → (exn + A) * store.

Definition ret {A} (a : A) : M A := λ s, (inr a, s).
Definition raise {A} (e : exn) : M A := λ s, (inl e, s).
Definition bind {A B} (m : M A) (k : A → M B) : M B :=
  λ s, match m s with
       | (inr a, s') => k a s'
       | (inl e, s') => (inl e, s')
       end.

Notation "'let*' x ':=' m 'in' k" := (bind m (λ x, k))
  (at level 10, x name, m at level 100, k at level 200, only parsing).

(** A new table object. *)
Definition alloc (t : table) : M ref := λ s, (inr (length s), s ++ [t]).

Definition deref (r : ref) : M table :=
  λ s, match s !! r with
       | Some t => (inr t, s)
       | None => (inl (TypeError "'NoneType' object is not subscriptable"), s)
       end.

(** Assignment into the table object [r], in place. *)
Definition assign (r : ref) (t : table) : M unit := λ s, (inr (), <[r := t]> s).

Definition attribute (r : option ref) : M table :=
  match r with
  | Some r => deref r
  | None => raise (TypeError "'NoneType' object is not subscriptable")
  end.

Definition lift {A} (o : option A) (e : exn) : M A :=
  match o with
  | Some a => ret a
  | None => raise e
  end.

(** [len(set(values))] up to equality of numbers. *)
Definition nunique (l : list Q) : nat := length (drop_duplicates Qeq_bool l).

(** [.dt.year] of one cell; the accessor exists for time stamps only. *)
Definition dt_year (c : date_cell) : option Z :=
  match c with
  | Timestamp y _ _ => Some y
  | Year _ => None
  end.

Definition set_date (r : yield_record) (y : Z) : yield_record :=
  YieldRecord (yh_parcelle_id r) (Year y) (yh_rendement_estime r).

(** The order of the cells of a date column. *)
Definition date_key (c : date_cell) : Z :=
  match c with
  | Timestamp y m d => ((y * 12 + (m - 1)) * 31 + (d - 1))%Z
  | Year n => n
  end.

Definition same_cell (a b : date_cell) : bool :=
  match a, b with
  | Timestamp y m d, Timestamp y' m' d' => Z.eqb y y' && Z.eqb m m' && Z.eqb d d'
  | Year n, Year n' => Z.eqb n n'
  | _, _ => false
  end.

Definition same_date (a b : yield_record) : bool := same_cell (yh_date a) (yh_date b).

Definition sort_values (t : table) : table :=
  sort_by (λ a b, date_key (yh_date a) - date_key (yh_date b))%Z t.

(** The number in a cell, as [.values] hands it to the regression. *)
Definition numeric (c : date_cell) : option Z :=
  match c with
  | Year n => Some n
  | Timestamp _ _ _ => None
  end.

Definition sum (l : list Q) : Q := foldr Qplus 0%Q l.
Definition mean (l : list Q) : Q := (sum l / inject_Z (Z.of_nat (length l)))%Q.
Definition centered (l : list Q) : list Q := List.map (λ v, v - mean l)%Q l.
Definition dot (a b : list Q) : Q := sum (zip_with Qmult a b).

(** [LinearRegression().fit(X, y)] for one predictor on exact rationals,
    the idealisation of the code's doubles in which the guards, the
    failures and the effects on the store are studied ([Binary64] below
    keeps the doubles and leaves the fit to the library): both variables
    are centred, the coefficient is the least-squares
    solution of the centred system (the one of least norm, 0, when the
    predictor is constant), and the intercept puts the line through the
    means.  Returns [(coef_[0], intercept_)]. *)
Definition LinearRegression_fit (X : list Z) (y : list Q) : Q * Q :=
  let x := List.map inject_Z X in
  let xc := centered x in
  let yc := centered y in
  let coef := if Qeq_bool (dot xc xc) 0 then 0%Q else (dot xc yc / dot xc xc)%Q in
  (coef, (mean y - mean x * coef)%Q).

Definition calculate_yield_trend_body (yield_history : option ref) (parcelle_id : string)
  : M TrendResult :=
  let* history := attribute yield_history in
  let* selected := alloc (List.filter (λ r, String.eqb (yh_parcelle_id r) parcelle_id) history) in
  let* rows := deref selected in
  let* ph := alloc rows in
  if Nat.eqb (length rows) 0 || Nat.ltb (nunique (List.map yh_rendement_estime rows)) 2
  then ret zero_trend
  else
    let* years := lift (mapM dt_year (List.map yh_date rows))
                    (AttributeError "Can only use .dt accessor with datetimelike values") in
    let* _ := assign ph (zip_with set_date rows years) in
    let* rows := deref ph in
    let* unique := alloc (drop_duplicates same_date rows) in
    let* rows := deref unique in
    let* ph := alloc (sort_values rows) in
    let* rows := deref ph in
    let* X := lift (mapM numeric (List.map yh_date rows))
                (TypeError "float() argument must be a string or a real number") in
    let y := List.map yh_rendement_estime rows in
    let '(slope, intercept) := LinearRegression_fit X y in
    let variation := if negb (Qeq_bool (mean y) 0) then (slope / mean y)%Q else 0%Q in
    ret (Trend slope intercept variation).

(** [_calculate_yield_trend]: the body under [try]; the handler prints and
    returns the zero trend. *)
Definition calculate_yield_trend (yield_history : option ref) (parcelle_id : string)
  (s : store) : TrendResult * store * list event :=
  match calculate_yield_trend_body yield_history parcelle_id s with
  | (inr t, s') => (t, s', [])
  | (inl e, s') =>
      (zero_trend, s',
       [Report ("Error calculating yield trend for parcelle " ++ parcelle_id ++ ": ") e])
  end.



(** *** The feature table and the popups *)

(** A row of the feature table as the map uses it.  [date] is the calendar
    date of the observation, a time stamp at midnight, kept as the number
    of days since 1970-01-01. *)
Record feature_row := FeatureRow {
  parcelle_id : string;
  date : Z;
  culture : string;
  latitude : float;
  longitude : float;
  rendement_estime : float
}.

Record DataFrame := Frame {
  columns : list string;
  rows : list feature_row
}.

Definition has (c : string) (df : DataFrame) : bool :=
  existsb (String.eqb c) (columns df).

(** [df.empty]: no row or no column. *)
Definition empty (df : DataFrame) : bool :=
  Nat.eqb (length (rows df)) 0 || Nat.eqb (length (columns df)) 0.

(** [str] of an integer. *)
Definition str (n : Z) : string := NilZero.string_of_int (Z.to_int n).

(** [sort_values(by='date', ascending=False)]: pandas reverses the column,
    sorts it upwards and reverses the outcome.  The order among rows of
    one date is that of a stable sort; the default [quicksort] of pandas
    does not fix it, and nothing below is stated about it. *)
Definition sort_values_descending (l : list feature_row) : list feature_row :=
  rev (sort_by (λ a b, date a - date b)%Z (rev l)).

Definition same_crop (a b : feature_row) : bool :=
  String.eqb (culture a) (culture b) && Z.eqb (date a) (date b).

(** The day number of a civil date and back, in the Gregorian calendar. *)
Definition day (y m d : Z) : Z :=
  (let y := if m <=? 2 then y - 1 else y in
   let era := y / 400 in
   let yoe := y - era * 400 in
   let doy := (153 * (if 2 <? m then m - 3 else m + 9) + 2) / 5 + d - 1 in
   let doe := yoe * 365 + yoe / 4 - yoe / 100 + doy in
   era * 146097 + doe - 719468)%Z.

Definition civil (z : Z) : Z * Z * Z :=
  (let z := z + 719468 in
   let era := z / 146097 in
   let doe := z - era * 146097 in
   let yoe := (doe - doe / 1460 + doe / 36524 - doe / 146096) / 365 in
   let doy := doe - (365 * yoe + yoe / 4 - yoe / 100) in
   let mp := (5 * doy + 2) / 153 in
   let d := doy - (153 * mp + 2) / 5 + 1 in
   let m := if mp <? 10 then mp + 3 else mp - 9 in
   (yoe + era * 400 + (if m <=? 2 then 1 else 0), m, d))%Z.

(** A number in decimal, with zeros in front up to [width] digits. *)
Definition pad (width : nat) (n : Z) : string :=
  let s := str n in
  String.concat "" (replicate (width - String.length s) "0") ++ s.

(** [str] of a time stamp at midnight: [YYYY-MM-DD 00:00:00]. *)
Definition str_timestamp (z : Z) : string :=
  let '(y, m, d) := civil z in
  pad 4 y ++ "-" ++ pad 2 m ++ "-" ++ pad 2 d ++ " 00:00:00".

(** [f"{x['date']}: {x['culture']}"]: the date cell is printed as it is. *)
Definition crop_line (x : feature_row) : string :=
  str_timestamp (date x) ++ ": " ++ culture x.

Definition format_recent_crops (history : DataFrame) : list string * list event :=
  if empty history || negb (has "culture" history) || negb (has "date" history)
  then ([], [Report "Error formatting recent crops: "
               (ValueError "The history DataFrame must include 'culture' and 'date'.")])
  else
    (List.map crop_line (sort_values_descending (drop_duplicates same_crop (rows history))),
     []).

(** *** The weights of the risk heat map *)

Record risk_metric := Risk {
  risk_parcelle_id : string;
  avg_risk_index : float
}.

(** A row of [merged_data]: a risk metric with the coordinates of one
    feature row of its parcel, NaN when the parcel has none. *)
Record merged_row := Merged {
  m_latitude : float;
  m_longitude : float;
  m_avg_risk_index : float
}.

(** [pd.merge(risk_metrics, features[[...]], on='parcelle_id', how='left')] *)
Definition merge (risk : list risk_metric) (features : list feature_row) : list merged_row :=
  concat (List.map (λ r,
    match List.filter (λ f, String.eqb (parcelle_id f) (risk_parcelle_id r)) features with
    | [] => [Merged PrimFloat.nan PrimFloat.nan (avg_risk_index r)]
    | fs => List.map (λ f, Merged (latitude f) (longitude f) (avg_risk_index r)) fs
    end) risk).

(** A feature row with both coordinates. *)
Definition located (f : feature_row) : bool :=
  negb (F64.is_nan (latitude f) || F64.is_nan (longitude f)).

Definition dropna (l : list merged_row) : list merged_row :=
  List.filter (λ r, negb (F64.is_nan (m_latitude r) || F64.is_nan (m_longitude r)
                          || F64.is_nan (m_avg_risk_index r))) l.

(** [0.1 + (v - min_risk) / (max_risk - min_risk) * 0.9] *)
Definition normalized_risk (min_risk max_risk v : float) : float :=
  PrimFloat.add 0.1
    (PrimFloat.mul (PrimFloat.div (PrimFloat.sub v min_risk) (PrimFloat.sub max_risk min_risk))
       0.9).

(** The rows [latitude, longitude, normalized_risk] handed to the heat map.
    [jitter i] is the [i]-th draw of [np.random.uniform(-0.0001, 0.0001)]:
    the first batch moves the latitudes, the second the longitudes. *)
Definition heat_data (jitter : nat → float) (risk : list risk_metric)
  (features : list feature_row) : list (float * float * float) :=
  let data := dropna (merge risk features) in
  let n := length data in
  let lat := zip_with (λ r i, PrimFloat.add (m_latitude r) (jitter i)) data (seq 0 n) in
  let lon := zip_with (λ r i, PrimFloat.add (m_longitude r) (jitter i)) data (seq n n) in
  let risks := List.map m_avg_risk_index data in
  let min_risk := F64.min_list risks in
  let max_risk := F64.max_list risks in
  zip_with (λ ll v, (ll.1, ll.2, normalized_risk min_risk max_risk v))
    (zip_with pair lat lon) risks.

(** *** The yield history layer *)

(** The popup of a marker: the values that the HTML template shows, or
    the placeholder of a failed construction. *)
Inductive popup : Type :=
  | ErrorPopup
  | YieldPopup (parcelle : string) (mean_yield : float) (trend : TrendResult)
      (recent_crops : list string) (yields : list (Z * float)).

Definition create_yield_popup (history : DataFrame) (mean_yield : float) (trend : TrendResult)
  : popup * list event :=
  let failed e := Report "Error creating yield popup: " e in
  if empty history
  then (ErrorPopup, [failed (ValueError "The history DataFrame is empty.")])
  else
    let '(recent_crops, out) := format_recent_crops history in
    match List.find (λ c, negb (has c history)) ["parcelle_id"; "date"; "rendement_estime"],
          rows history with
    | Some c, _ => (ErrorPopup, out ++ [failed (KeyError c)])
    | None, [] => (ErrorPopup, out ++ [failed (ValueError "The history DataFrame is empty.")])
    | None, first :: _ =>
        let unique_history :=
          sort_by (λ a b, date a - date b)%Z
            (drop_duplicates (λ a b, Z.eqb (date a) (date b)) (rows history)) in
        (YieldPopup (parcelle_id first) mean_yield trend recent_crops
           (List.map (λ r, (date r, rendement_estime r)) unique_history),
         out)
    end.

(** What is added to the Folium map. *)
Inductive layer : Type :=
  | CircleMarker (location : float * float) (color : string) (content : popup)
  | HeatMap (data : list (float * float * float))
  | LayerControl.

(** The table of risk metrics that the data manager computes. *)
Record RiskFrame := RiskTable {
  risk_columns : list string;
  risk_rows : list risk_metric
}.

(** The collaborator, reduced to what the map asks of it: [load_data]
    raises or not, [prepare_features] raises or returns the feature table,
    [yield_history] is [None] or a table of the store, and
    [calculate_risk_metrics] raises, returns [None] or returns a table. *)
Record DataManager := Manager {
  load_data : option exn;
  prepare_features : exn + DataFrame;
  yield_history : option ref;
  calculate_risk_metrics : DataFrame → exn + option RiskFrame
}.

(** The map object: the collaborator, the Folium map, [None] until
    [create_base_map] has run, with the layers added so far, and the
    colour map of the yields, a [LinearColormap] of branca: the colour of
    a value, or the exception that the call raises. *)
Record agricultural_map := Self {
  data_manager : DataManager;
  map : option (list layer);
  yield_colormap : float → exn + string
}.

Definition required_columns : list string :=
  ["parcelle_id"; "latitude"; "longitude"; "rendement_estime"; "date"].

Definition set_column (c : string) (df : DataFrame) : DataFrame :=
  if has c df then df else Frame (columns df ++ [c]) (rows df).

(** The parcels of a table in the order of [groupby]. *)
Definition parcels (rs : list feature_row) : list string :=
  sort_by (λ a b, match String.compare a b with Lt => -1 | Eq => 0 | Gt => 1 end)%Z
    (drop_duplicates String.eqb (List.map parcelle_id rs)).

Definition valid_coordinates (lat lon : float) : bool :=
  PrimFloat.leb (-90) lat && PrimFloat.leb lat 90
  && PrimFloat.leb (-180) lon && PrimFloat.leb lon 180.

(** [create_base_map].  [folium_Map location] is the exception that
    [folium.Map] raises for the location, if it raises one. *)
Definition create_base_map (folium_Map : float * float → option exn)
  (self : agricultural_map) : agricultural_map * list event :=
  let failed e := Report "Erreur lors de la création de la carte de base : " e in
  match load_data (data_manager self) with
  | Some e => (self, [failed e])
  | None =>
      match prepare_features (data_manager self) with
      | inl e => (self, [failed e])
      | inr features =>
          match List.find (λ c, negb (has c features)) ["latitude"; "longitude"] with
          | Some c => (self, [failed (KeyError c)])
          | None =>
              let location := (F64.mean (List.map latitude (rows features)),
                               F64.mean (List.map longitude (rows features))) in
              match folium_Map location with
              | Some e => (self, [failed e])
              | None =>
                  (Self (data_manager self) (Some []) (yield_colormap self),
                   [Printed "Carte de base créée avec succès."])
              end
          end
      end
  end.

(** One turn of the loop over the groups.  The last component is the
    exception that has ended the loop, if one has: the turns after it do
    nothing.  The trend that goes into the popup is that of the estimator
    on exact rationals. *)
Definition add_marker (self : agricultural_map) (features : DataFrame)
  (acc : list layer * store * list event * option exn) (parcelle : string)
  : list layer * store * list event * option exn :=
  let '(layers, s, out, raised) := acc in
  match raised with
  | Some _ => acc
  | None =>
      let group :=
        Frame (columns features)
          (List.filter (λ r, String.eqb (parcelle_id r) parcelle) (rows features)) in
      if empty group || negb (has "latitude" group) || negb (has "longitude" group)
      then (layers, s,
            out ++ [Printed ("Skipping parcelle_id " ++ parcelle ++ " due to missing data.")],
            None)
      else
        let mean_yield := F64.mean (List.map rendement_estime (rows group)) in
        let '(trend, s', out1) :=
          calculate_yield_trend (yield_history (data_manager self)) parcelle s in
        let '(content, out2) := create_yield_popup group mean_yield trend in
        let lat := F64.mean (List.map latitude (rows group)) in
        let lon := F64.mean (List.map longitude (rows group)) in
        if negb (valid_coordinates lat lon)
        then (layers, s',
              out ++ out1 ++ out2
                ++ [Position ("Skipping parcelle_id " ++ parcelle
                              ++ " due to invalid coordinates: ") lat lon],
              None)
        else
          match yield_colormap self mean_yield with
          | inl e => (layers, s', out ++ out1 ++ out2, Some e)
          | inr color =>
              (layers ++ [CircleMarker (lat, lon) color content], s',
               out ++ out1 ++ out2, None)
          end
  end.

(** [add_yield_history_layer]: the layers of the map after the call, the
    store and what was printed.  Nothing is raised to the caller: the
    whole body is under [try], and the handler prints. *)
Definition add_yield_history_layer (self : agricultural_map) (s : store)
  : agricultural_map * store * list event :=
  let failed e := Report "Error adding yield history layer: " e in
  match map self with
  | None =>
      (self, s, [failed (ValueError "Base map not initialized. Call create_base_map first.")])
  | Some layers =>
      match prepare_features (data_manager self) with
      | inl e => (self, s, [failed e])
      | inr features =>
          let out := [Printed "Features DataFrame (first rows):";
                      Head (columns features) (Nat.min 5 (length (rows features)))] in
          match List.find (λ c, negb (has c features)) required_columns with
          | Some c => (self, s, out ++ [failed (KeyError ("Missing required column: " ++ c))])
          | None =>
              let '(features, out) :=
                if has "annee" features then (features, out)
                else (set_column "annee" features,
                      out ++ [Printed "Creating 'annee' column from 'date'."]) in
              let groups := parcels (rows features) in
              let out := out ++ [Printed ("Number of parcels: " ++ str (Z.of_nat (length groups)))] in
              let '(layers', s', out', raised) :=
                fold_left (add_marker self features) groups (layers, s, out, None) in
              let self' := Self (data_manager self) (Some layers') (yield_colormap self) in
              match raised with
              | Some e => (self', s', out' ++ [failed e])
              | None => (self', s', out' ++ [Printed "Yield history layer added successfully."])
              end
          end
      end
  end.

(** *** The NDVI layer and the heat map *)

Definition ndvi_required_columns : list string :=
  ["parcelle_id"; "latitude"; "longitude"; "ndvi"; "culture"].

(** [add_current_ndvi_layer].  The feature rows of the model carry no NDVI
    cell, so what follows the checks is a parameter: [markers features]
    gives the markers that the loop over the rows adds to the map, what it
    prints, and the exception that ends it, if one does (the colour map is
    branca's, the markers are folium's). *)
Definition add_current_ndvi_layer
  (markers : DataFrame → list layer * list event * option exn)
  (self : agricultural_map) : agricultural_map * list event :=
  let failed e := Report "Error adding current NDVI layer: " e in
  match map self with
  | None =>
      (self, [failed (ValueError "Base map not initialized. Call create_base_map first.")])
  | Some layers =>
      match prepare_features (data_manager self) with
      | inl e => (self, [failed e])
      | inr features =>
          match List.find (λ c, negb (has c features)) ndvi_required_columns with
          | Some c => (self, [failed (KeyError ("Missing required column: " ++ c))])
          | None =>
              let '(added, out, raised) := markers features in
              let self' :=
                Self (data_manager self) (Some (layers ++ added)) (yield_colormap self) in
              match raised with
              | Some e => (self', out ++ [failed e])
              | None => (self', out ++ [Printed "Current NDVI layer added successfully."])
              end
          end
      end
  end.

(** [features.rename(columns={...}, errors='ignore')], on the names. *)
Definition rename_columns (df : DataFrame) : DataFrame :=
  Frame (List.map (λ c, if String.eqb c "lat" then "latitude"
                        else if String.eqb c "lon" then "longitude"
                        else if String.eqb c "yield" then "rendement_estime"
                        else if String.eqb c "year" then "annee"
                        else c)%string (columns df))
    (rows df).

Definition missing_risk_columns : string :=
  "Colonnes manquantes : latitude, longitude, avg_risk_index".

(** [add_risk_heatmap].  [jitter] gives the draws of NumPy, [heat_map data]
    the exception that folium's [HeatMap] raises on the data, if it raises
    one, and [not_in_index cols] the exception of pandas for a selection
    that names the columns [cols], which the table lacks.  The merge
    raises [KeyError] when the risk table has no key column, and renames a
    coordinate column that both tables have, so that the merged table
    then lacks it. *)
Definition add_risk_heatmap (jitter : nat → float)
  (heat_map : list (float * float * float) → option exn)
  (not_in_index : list string → exn)
  (self : agricultural_map) : agricultural_map * list event :=
  let failed e :=
    Report "Erreur lors de l'ajout de la carte de chaleur des risques : " e in
  match map self with
  | None =>
      (self, [failed (ValueError
                "La carte de base n'est pas initialisée. Appelez create_base_map d'abord.")])
  | Some layers =>
      match prepare_features (data_manager self) with
      | inl e => (self, [failed e])
      | inr features =>
          let features := rename_columns features in
          match calculate_risk_metrics (data_manager self) features with
          | inl e => (self, [failed e])
          | inr None =>
              (self, [failed (ValueError
                 "Les métriques de risque ou les données de caractéristiques manquent.")])
          | inr (Some risk) =>
              let in_risk c := existsb (String.eqb c) (risk_columns risk) in
              match List.filter (λ c, negb (has c features))
                      ["parcelle_id"; "latitude"; "longitude"] with
              | c :: missing => (self, [failed (not_in_index (c :: missing))])
              | [] =>
                  if negb (in_risk "parcelle_id")
                  then (self, [failed (KeyError "parcelle_id")])
                  else if negb (in_risk "avg_risk_index")
                          || in_risk "latitude" || in_risk "longitude"
                  then (self, [failed (KeyError missing_risk_columns)])
                  else
                    let data := heat_data jitter (risk_rows risk) (rows features) in
                    match heat_map data with
                    | Some e => (self, [failed e])
                    | None =>
                        (Self (data_manager self)
                           (Some (layers ++ [HeatMap data; LayerControl]))
                           (yield_colormap self),
                         [Printed "Carte de chaleur des risques ajoutée avec succès."])
                    end
              end
          end
      end
  end.

End AgriculturalMap.

(** ** The trend in binary64 *)

(** [_calculate_yield_trend] on doubles.  The yield history is a table
    with a column of time stamps at midnight, kept as day numbers.  The
    fit and the mean are computed outside the repository, by scikit-learn
    (which hands the system to LAPACK) and by NumPy: [fit X y] stands for
    [LinearRegression().fit(X, y)], with its [coef_[0]] and [intercept_]
    or the exception it raises, and [np_mean y] for [y.mean()]. *)
Module Binary64.
Import Py.

Record yield_record := YieldRecord {
  parcelle_id : string;
  date : Z;
  rendement_estime : float
}.

Record TrendResult := Trend {
  slope : float;
  intercept : float;
  variation_moyenne : float
}.

Definition zero_trend : TrendResult := Trend 0 0 0.

(** [.dt.year] *)
Definition year (r : yield_record) : Z := (AgriculturalMap.civil (date r)).1.1.

(** [nunique()]: the different numbers of a column, NaN left out. *)
Definition nunique (l : list float) : nat :=
  length (drop_duplicates F64.same_number (List.filter (λ v, negb (F64.is_nan v)) l)).

(** The points of the regression: one per year, the first record of the
    year, in the order of the years. *)
Definition yearly_points (ph : list yield_record) : list (Z * float) :=
  sort_by (λ a b, a.1 - b.1)%Z
    (drop_duplicates (λ a b, Z.eqb a.1 b.1)
       (List.map (λ r, (year r, rendement_estime r)) ph)).

Section Libraries.
Variable fit : list Z → list float → exn + (float * float).
Variable np_mean : list float → float.

Definition calculate_yield_trend_body (yield_history : option (list yield_record))
  (parcelle : string) : exn + TrendResult :=
  match yield_history with
  | None => inl (TypeError "'NoneType' object is not subscriptable")
  | Some history =>
      let ph := List.filter (λ r, String.eqb (parcelle_id r) parcelle) history in
      if Nat.eqb (length ph) 0 || Nat.ltb (nunique (List.map rendement_estime ph)) 2
      then inr zero_trend
      else
        let points := yearly_points ph in
        let y := List.map snd points in
        match fit (List.map fst points) y with
        | inl e => inl e
        | inr (coef, icpt) =>
            let variation :=
              if negb (PrimFloat.eqb (np_mean y) 0) then PrimFloat.div coef (np_mean y)
              else 0%float in
            inr (Trend coef icpt variation)
        end
  end.

Definition calculate_yield_trend (yield_history : option (list yield_record))
  (parcelle : string) : TrendResult * list event :=
  match calculate_yield_trend_body yield_history parcelle with
  | inr t => (t, [])
  | inl e =>
      (zero_trend,
       [Report ("Error calculating yield trend for parcelle " ++ parcelle ++ ": ") e])
  end.
End Libraries.

End Binary64.

(** ** Facts about sorting and duplicates *)

Section SortFacts.
Context {A : Type}.
Implicit Types (cmp : A → A → Z) (l : list A).

Lemma insert_by_perm cmp x l : insert_by cmp x l ≡ₚ x :: l.
Proof.
  induction l as [|y l IH]; simpl; [done|].
  destruct (cmp x y <=? 0)%Z; [done|].
  rewrite IH. apply perm_swap.
Qed.

Lemma sort_by_perm cmp l : sort_by cmp l ≡ₚ l.
Proof.
  induction l as [|x l IH]; simpl; [done|].
  rewrite insert_by_perm. by constructor.
Qed.

Lemma sort_by_In cmp l x : In x (sort_by cmp l) ↔ In x l.
Proof.
  split; apply Permutation_in; [|symmetry]; apply sort_by_perm.
Qed.

(** Sorting by the difference of an integer key sorts by that key. *)
Section ByKey.
Variable key : A → Z.

Lemma insert_by_sorted x l :
  StronglySorted (λ a b, key a ≤ key b)%Z l →
  StronglySorted (λ a b, key a ≤ key b)%Z (insert_by (λ a b, key a - key b)%Z x l).
Proof.
  induction 1 as [|y l Hl IH Hy]; simpl.
  - repeat constructor.
  - destruct (Z.leb_spec (key x - key y) 0).
    + constructor; [by constructor|].
      constructor; [lia|].
      eapply Forall_impl; [exact Hy|]. simpl. intros; lia.
    + constructor; [done|].
      apply List.Forall_forall. intros z Hz.
      apply (Permutation_in _ (insert_by_perm _ x l)) in Hz.
      destruct Hz as [<-|Hz]; [lia|].
      rewrite List.Forall_forall in Hy. by apply Hy.
Qed.

Lemma sort_by_sorted l :
  StronglySorted (λ a b, key a ≤ key b)%Z (sort_by (λ a b, key a - key b)%Z l).
Proof.
  induction l as [|x l IH]; simpl; [constructor|]. by apply insert_by_sorted.
Qed.
End ByKey.
End SortFacts.

Section SortMap.
Context {A B : Type}.

(** Sorting commutes with a partial reading [f] of the elements that
    carries one comparator to the other. *)
Lemma insert_by_omap (f : A → option B) cmp cmp' x y l :
  f x = Some y →
  (∀ a, In a l → ∃ b, f a = Some b ∧ cmp x a = cmp' y b) →
  omap f (insert_by cmp x l) = insert_by cmp' y (omap f l).
Proof.
  intros Hx. induction l as [|a l IH]; simpl; intros H.
  - by rewrite Hx.
  - destruct (H a) as (b & Hb & Hc); [auto|]. rewrite Hb. simpl. rewrite Hc.
    destruct (cmp' y b <=? 0)%Z; simpl.
    + by rewrite Hx, Hb.
    + rewrite Hb. f_equal. apply IH. auto.
Qed.

Lemma sort_by_omap (f : A → option B) cmp cmp' l :
  (∀ a, In a l → is_Some (f a)) →
  (∀ a a' b b', In a l → In a' l → f a = Some b → f a' = Some b' →
                cmp a a' = cmp' b b') →
  omap f (sort_by cmp l) = sort_by cmp' (omap f l).
Proof.
  induction l as [|x l IH]; intros Hs Hc; [done|].
  destruct (Hs x) as [y Hy]; [by left|].
  change (sort_by cmp (x :: l)) with (insert_by cmp x (sort_by cmp l)).
  change (omap f (x :: l)) with (match f x with Some y => y :: omap f l | None => omap f l end).
  rewrite Hy.
  change (sort_by cmp' (y :: omap f l)) with (insert_by cmp' y (sort_by cmp' (omap f l))).
  rewrite <- IH.
  - apply insert_by_omap; [done|].
    intros a Ha. apply sort_by_In in Ha.
    destruct (Hs a) as [b Hb]; [by right|]. exists b. split; [done|].
    apply Hc; auto using in_eq, in_cons.
  - intros a Ha. apply Hs. by right.
  - intros a a' b b' Ha Ha'. apply Hc; by right.
Qed.

Lemma drop_duplicates_from_map (f : A → B) same eqb seen l :
  (∀ a b, same a b = eqb (f a) (f b)) →
  List.map f (drop_duplicates_from same seen l)
  = drop_duplicates_from eqb (List.map f seen) (List.map f l).
Proof.
  intros H. revert seen. induction l as [|x l IH]; intros seen; simpl; [done|].
  replace (existsb (eqb (f x)) (List.map f seen)) with (existsb (same x) seen).
  - destruct (existsb (same x) seen); simpl; [apply IH|].
    f_equal. apply (IH (x :: seen)).
  - induction seen as [|s seen IHs]; simpl; [done|]. by rewrite H, IHs.
Qed.
End SortMap.

Section DropDuplicates.
Context {A : Type} (eqb : A → A → bool).
Hypothesis eqb_eq : ∀ a b, eqb a b = true ↔ a = b.

Lemma existsb_eqb x l : existsb (eqb x) l = true ↔ In x l.
Proof.
  rewrite existsb_exists. split.
  - intros (y & Hy & He). apply eqb_eq in He. by subst.
  - intros H. exists x. split; [done|]. by apply eqb_eq.
Qed.

Lemma drop_duplicates_from_In seen l x :
  In x (drop_duplicates_from eqb seen l) ↔ In x l ∧ ¬ In x seen.
Proof.
  revert seen. induction l as [|y l IH]; intros seen; simpl; [tauto|].
  destruct (existsb (eqb y) seen) eqn:E.
  - apply existsb_eqb in E. rewrite IH. split; [tauto|].
    intros [[->|H] Hn]; tauto.
  - assert (¬ In y seen) as Hy by (rewrite <- existsb_eqb, E; done).
    simpl. rewrite IH. simpl. split.
    + intros [->|[H Hn]]; tauto.
    + intros [[->|H] Hn]; [tauto|].
      destruct (eqb y x) eqn:E'; [apply eqb_eq in E'; tauto|].
      right. split; [done|]. intros [->|?]; [|done].
      assert (eqb x x = true) by (by apply eqb_eq). congruence.
Qed.

Lemma drop_duplicates_from_NoDup seen l : NoDup (drop_duplicates_from eqb seen l).
Proof.
  revert seen. induction l as [|y l IH]; intros seen; simpl; [constructor|].
  destruct (existsb (eqb y) seen); [apply IH|].
  constructor; [|apply IH].
  rewrite list_elem_of_In, drop_duplicates_from_In. simpl. tauto.
Qed.

Lemma drop_duplicates_In l x : In x (drop_duplicates eqb l) ↔ In x l.
Proof. unfold drop_duplicates. rewrite drop_duplicates_from_In. simpl. tauto. Qed.

Lemma drop_duplicates_NoDup l : NoDup (drop_duplicates eqb l).
Proof. apply drop_duplicates_from_NoDup. Qed.
End DropDuplicates.

(** ** Facts about the heap and the callbacks *)

Module JsFacts.
Import Js.

Lemma get_put_eq o k r : get (put o k r) k = Some r.
Proof.
  unfold get. induction o as [|[k' r'] o IH]; simpl.
  - by rewrite String.eqb_refl.
  - destruct (String.eqb_spec k' k) as [->|Hne]; simpl.
    + by rewrite String.eqb_refl.
    + apply String.eqb_neq in Hne. by rewrite Hne.
Qed.

Lemma get_put_ne o k k' r : k ≠ k' → get (put o k r) k' = get o k'.
Proof.
  intros Hne. unfold get. induction o as [|[k0 r0] o IH]; simpl.
  - apply String.eqb_neq in Hne. by rewrite Hne.
  - destruct (String.eqb_spec k0 k) as [->|Hne0]; simpl.
    + apply String.eqb_neq in Hne. by rewrite Hne.
    + destruct (String.eqb k0 k'); [done|apply IH].
Qed.

Lemma reset_entries_spec o h :
  reset_entries o h
  = (zip (keys o) (seq (length h) (length o)), h ++ replicate (length o) []).
Proof.
  revert h. induction o as [|[k r] o IH]; intros h; simpl.
  - by rewrite app_nil_r.
  - rewrite IH, length_app. simpl. rewrite Nat.add_1_r.
    by rewrite <- app_assoc.
Qed.

Lemma load_spec d h :
  load d h = (zip (List.map fst d) (seq (length h) (length d)), h ++ List.map snd d).
Proof.
  revert h. induction d as [|[k a] d IH]; intros h; simpl.
  - by rewrite app_nil_r.
  - rewrite IH, length_app. simpl. rewrite Nat.add_1_r.
    by rewrite <- app_assoc.
Qed.

Lemma contents_read h o d k : contents h o = Some d → read h o k = lookup_col d k.
Proof.
  unfold read, get, lookup_col. revert d.
  induction o as [|[k' r] o IH]; intros d; simpl.
  - by intros [= <-].
  - destruct (h !! r) as [a|] eqn:Ha; simpl; [|done].
    destruct (contents h o) as [d'|]; simpl; [|done].
    intros [= <-]. simpl.
    destruct (String.eqb k' k); simpl; [done|]. by apply IH.
Qed.

Lemma contents_app h t o d : contents h o = Some d → contents (h ++ t) o = Some d.
Proof.
  revert d. induction o as [|[k r] o IH]; intros d; simpl; [done|].
  destruct (h !! r) as [a|] eqn:Ha; simpl; [|done].
  rewrite (lookup_app_l_Some _ _ _ _ Ha). simpl.
  destruct (contents h o) as [d'|]; simpl; [|done].
  by rewrite (IH d').
Qed.

Lemma contents_bound h o d k r :
  contents h o = Some d → get o k = Some r → r < length h.
Proof.
  unfold get. revert d. induction o as [|[k' r'] o IH]; intros d; simpl; [done|].
  destruct (h !! r') as [a|] eqn:Ha; simpl; [|done].
  destruct (contents h o) as [d'|]; simpl; [|done]. intros _.
  destruct (String.eqb k' k); simpl.
  - intros [= <-]. by apply lookup_lt_Some in Ha.
  - by apply (IH d').
Qed.

Lemma contents_zip h cols ks :
  length ks = length cols →
  contents (h ++ cols) (zip ks (seq (length h) (length cols))) = Some (zip ks cols).
Proof.
  revert h ks. induction cols as [|a cols IH]; intros h [|k ks]; simpl; try done.
  intros [= Hl].
  rewrite (list_lookup_middle h cols a (length h) eq_refl). simpl.
  specialize (IH (h ++ [a]) ks Hl).
  rewrite length_app, <- app_assoc in IH. simpl in IH. rewrite Nat.add_1_r in IH.
  by rewrite IH.
Qed.

Lemma push_spec h r a v : h !! r = Some a → push h r v = Some (<[r := a ++ [v]]> h).
Proof. unfold push. by intros ->. Qed.

Lemma copy_cells_spec full k r ixs h fr col acc :
  get full k = Some fr → fr ≠ r → h !! fr = Some col → h !! r = Some acc →
  copy_cells full k r ixs h = Some (<[r := acc ++ pick col ixs]> h).
Proof.
  intros Hg Hne. revert h acc.
  induction ixs as [|i ixs IH]; intros h acc Hc Hr; simpl.
  - rewrite app_nil_r. by rewrite list_insert_id.
  - unfold copy_cell, read. rewrite Hg. simpl. rewrite Hc. simpl.
    rewrite (push_spec _ _ _ _ Hr). simpl.
    rewrite (IH _ (acc ++ [index col i])).
    + rewrite list_insert_insert_eq. by rewrite <- app_assoc.
    + by rewrite list_lookup_insert_ne.
    + apply list_lookup_insert_eq. by apply lookup_lt_Some in Hr.
Qed.

Lemma copy_cells_none full k r ixs h :
  read h full k = None → ixs ≠ [] → copy_cells full k r ixs h = None.
Proof.
  intros Hr. destruct ixs as [|i ixs]; [done|]. intros _. simpl.
  unfold copy_cell. by rewrite Hr.
Qed.

Lemma copy_cells_gather full fc h filled rest k ixs :
  contents h full = Some fc →
  copy_cells full k (length h + length filled) ixs (h ++ filled ++ [] :: rest)
  = c ← gather fc ixs k; Some (h ++ filled ++ c.2 :: rest).
Proof.
  intros Hc. destruct ixs as [|i ixs]; [done|].
  assert (read (h ++ filled ++ [] :: rest) full k = lookup_col fc k) as Hr
    by (by apply contents_read, contents_app).
  unfold gather. destruct (lookup_col fc k) as [col|].
  - unfold read in Hr. destruct (get full k) as [fr|] eqn:Hg; [|done].
    pose proof (contents_bound _ _ _ _ _ Hc Hg) as Hb.
    rewrite (copy_cells_spec full k _ (i :: ixs) _ fr col []); [|done|lia|done|].
    + cbn [mbind option_bind snd]. f_equal.
      rewrite insert_app_r_alt by lia.
      replace (length h + length filled - length h) with (length filled) by lia.
      rewrite insert_app_r_alt by lia. by rewrite Nat.sub_diag.
    + rewrite app_assoc.
      apply (list_lookup_middle (h ++ filled) rest []). by rewrite length_app.
  - by apply copy_cells_none.
Qed.

Lemma fill_entries_spec full fc h ks ixs filled :
  contents h full = Some fc →
  fill_entries (zip ks (seq (length h + length filled) (length ks))) full ixs
    (h ++ filled ++ replicate (length ks) [])
  = cols ← mapM (gather fc ixs) ks; Some (h ++ filled ++ List.map snd cols).
Proof.
  intros Hc. revert filled. induction ks as [|k ks IH]; intros filled; simpl; [done|].
  rewrite (copy_cells_gather full fc h filled _ k ixs Hc).
  destruct (gather fc ixs k) as [c|]; simpl; [|done].
  specialize (IH (filled ++ [c.2])).
  rewrite length_app in IH. simpl in IH.
  rewrite Nat.add_assoc, Nat.add_1_r, <- app_assoc in IH. simpl in IH.
  rewrite IH.
  destruct (mapM (gather fc ixs) ks) as [cols|]; simpl; [|done].
  by rewrite <- app_assoc.
Qed.

Lemma sort_indices_spec h full fc m :
  contents h full = Some fc →
  sort_indices h full m
  = match m with
    | ([] | [_]) as m => Some m
    | m => dates ← lookup_col fc "date"; Some (sort_by (by_date dates) m)
    end.
Proof.
  intros Hc. destruct m as [|a [|b m]]; try done.
  unfold sort_indices. by rewrite (contents_read _ _ _ _ Hc).
Qed.

(** The yield callback: when the full source holds [fc], the callback
    succeeds exactly when [filtered_columns] does, puts its columns in new
    arrays and points the source to them. *)
Lemma yield_callback_spec selected st fc :
  contents (arrays st) (full_data st) = Some fc →
  yield_callback selected st
  = cols ← filtered_columns fc (keys (source_data st)) selected;
    Some (State (arrays st ++ List.map snd cols)
            (zip (keys (source_data st))
               (seq (length (arrays st)) (length (source_data st))))
            (full_data st)).
Proof.
  intros Hc. unfold yield_callback, filtered_columns, select_sorted, keys.
  rewrite reset_entries_spec. unfold keys.
  assert (∀ ixs,
    (h' ← fill_entries
            (zip (List.map fst (source_data st))
               (seq (length (arrays st)) (length (source_data st))))
            (full_data st) ixs
            (arrays st ++ replicate (length (source_data st)) []);
     Some (State h' (zip (List.map fst (source_data st))
                       (seq (length (arrays st)) (length (source_data st))))
             (full_data st)))
    = cols ← mapM (gather fc ixs) (List.map fst (source_data st));
      Some (State (arrays st ++ List.map snd cols)
              (zip (List.map fst (source_data st))
                 (seq (length (arrays st)) (length (source_data st))))
              (full_data st))) as Hfill.
  { intros ixs.
    pose proof (fill_entries_spec (full_data st) fc (arrays st)
                  (List.map fst (source_data st)) ixs [] Hc) as H.
    rewrite length_map in H. cbn [length app] in H. rewrite Nat.add_0_r in H.
    rewrite H.
    by destruct (mapM (gather fc ixs) (List.map fst (source_data st))). }
  set (h := arrays st ++ replicate (length (source_data st)) []) in *.
  assert (contents h (full_data st) = Some fc) as Hc' by (by apply contents_app).
  rewrite (contents_read _ _ _ _ Hc').
  destruct (lookup_col fc "parcelle_id") as [parcels|]; [|done].
  cbn [mbind option_bind].
  rewrite (sort_indices_spec _ _ _ _ Hc').
  destruct (matching parcels selected) as [|a [|b m]]; try apply Hfill.
  destruct (lookup_col fc "date") as [dates|]; [|done].
  apply Hfill.
Qed.


Lemma push_fresh h l j v :
  push (h ++ l) (length h + j) v = x ← l !! j; Some (h ++ <[j := x ++ [v]]> l).
Proof.
  unfold push. rewrite lookup_app_r by lia.
  replace (length h + j - length h) with j by lia.
  destruct (l !! j) as [x|]; [|done]. cbn [mbind option_bind]. f_equal.
  rewrite insert_app_r_alt by lia. f_equal. f_equal. lia.
Qed.

Lemma push_from_spec data fc o h l k j i :
  contents h data = Some fc →
  get o k = Some (length h + j) →
  push_from data k i (o, h ++ l)
  = col ← lookup_col fc k; x ← l !! j; Some (o, h ++ <[j := x ++ [index col i]]> l).
Proof.
  intros Hc Hg. unfold push_from. cbn [fst snd]. rewrite Hg. cbn [mbind option_bind].
  rewrite (contents_read (h ++ l) data fc k) by (by apply contents_app).
  destruct (lookup_col fc k) as [col|]; [|done]. cbn [mbind option_bind].
  rewrite push_fresh. by destruct (l !! j).
Qed.

Lemma stress_loop_spec data fc selected o h parcels l a b c :
  contents h data = Some fc →
  get o "temp_bin" = Some (length h + 0) →
  get o "stress_bin" = Some (length h + 1) →
  get o "normalized_count" = Some (length h + 2) →
  lookup_col fc "parcelle_id" = Some parcels →
  stress_loop data selected l (o, h ++ [a; b; c])
  = match List.filter (λ i, strict_eq_str (index parcels i) selected) l with
    | [] => Some (o, h ++ [a; b; c])
    | m =>
        t ← lookup_col fc "temp_bin";
        s ← lookup_col fc "stress_bin";
        n ← lookup_col fc "normalized_count";
        Some (o, h ++ [a ++ pick t m; b ++ pick s m; c ++ pick n m])
    end.
Proof.
  intros Hc Ht Hs Hn Hp. revert a b c.
  induction l as [|i l IH]; intros a b c; [done|].
  cbn [stress_loop List.filter]. unfold stress_step. cbn [snd].
  rewrite (contents_read (h ++ [a; b; c]) data fc "parcelle_id")
    by (by apply contents_app).
  rewrite Hp. cbn [mbind option_bind].
  destruct (strict_eq_str (index parcels i) selected); [|apply IH].
  rewrite (push_from_spec data fc o h _ "temp_bin" 0 i Hc Ht).
  destruct (lookup_col fc "temp_bin") as [t|]; [|done].
  cbn [mbind option_bind lookup list_lookup insert list_insert].
  rewrite (push_from_spec data fc o h _ "stress_bin" 1 i Hc Hs).
  destruct (lookup_col fc "stress_bin") as [s|]; [|done].
  cbn [mbind option_bind lookup list_lookup insert list_insert].
  rewrite (push_from_spec data fc o h _ "normalized_count" 2 i Hc Hn).
  destruct (lookup_col fc "normalized_count") as [n|]; [|done].
  cbn [mbind option_bind lookup list_lookup insert list_insert].
  rewrite IH.
  destruct (List.filter _ l) as [|j m];
    cbn [mbind option_bind]; unfold pick; cbn [List.map];
    by rewrite <- ?app_assoc.
Qed.

(** The stress callback: three new arrays, filled from the full source. *)
Lemma stress_callback_spec selected st fc :
  contents (arrays st) (full_data st) = Some fc →
  stress_callback selected st
  = x ← stress_filtered fc selected;
    Some (State (arrays st ++ [x.1.1; x.1.2; x.2])
            (put (put (put (source_data st) "temp_bin" (length (arrays st)))
                    "stress_bin" (length (arrays st) + 1))
               "normalized_count" (length (arrays st) + 2))
            (full_data st)).
Proof.
  intros Hc. unfold stress_callback, stress_filtered, reset_key. cbn [fst snd].
  rewrite !length_app. cbn [length].
  rewrite <- !app_assoc. cbn [app].
  rewrite (contents_read _ _ fc "parcelle_id") by (by apply contents_app).
  destruct (lookup_col fc "parcelle_id") as [parcels|] eqn:Hp; [|done].
  cbn [mbind option_bind].
  rewrite <- Nat.add_assoc. cbn [Nat.add].
  rewrite (stress_loop_spec _ fc selected _ (arrays st) parcels _ [] [] [] Hc); try done.
  - fold (matching parcels selected).
    destruct (matching parcels selected) as [|i m]; [done|].
    destruct (lookup_col fc "temp_bin") as [t|]; [|done].
    destruct (lookup_col fc "stress_bin") as [s|]; [|done].
    by destruct (lookup_col fc "normalized_count") as [n|].
  - rewrite get_put_ne by done. rewrite get_put_ne by done.
    rewrite Nat.add_0_r. apply get_put_eq.
  - rewrite get_put_ne by done. apply get_put_eq.
  - apply get_put_eq.
Qed.

(** *** What the source shows after a callback *)

Lemma mapM_gather_keys fc ixs ks cols :
  mapM (gather fc ixs) ks = Some cols → List.map fst cols = ks.
Proof.
  revert cols. induction ks as [|k ks IH]; intros cols; simpl.
  - by intros [= <-].
  - destruct (gather fc ixs k) as [c|] eqn:Hg; [|done]. simpl.
    destruct (mapM (gather fc ixs) ks) as [cs|]; [|done]. simpl.
    intros [= <-]. simpl. f_equal; [|by apply IH].
    unfold gather in Hg. destruct ixs; [by injection Hg as <-|].
    destruct (lookup_col fc k); [|done]. by injection Hg as <-.
Qed.

Lemma zip_fst_snd {A B} (l : list (A * B)) : zip (List.map fst l) (List.map snd l) = l.
Proof. induction l as [|[a b] l IH]; simpl; [done|]. by rewrite IH. Qed.

Lemma yield_callback_contents selected st fc st' :
  contents (arrays st) (full_data st) = Some fc →
  yield_callback selected st = Some st' →
  ∃ cols,
    filtered_columns fc (keys (source_data st)) selected = Some cols ∧
    contents (arrays st') (source_data st') = Some cols ∧
    contents (arrays st') (full_data st') = Some fc ∧
    keys (source_data st') = keys (source_data st) ∧
    full_data st' = full_data st.
Proof.
  intros Hc. rewrite (yield_callback_spec _ _ _ Hc).
  destruct (filtered_columns _ _ _) as [cols|] eqn:Hf; [|done].
  intros [= <-]. exists cols. cbn [arrays source_data full_data].
  assert (List.map fst cols = keys (source_data st)) as Hk.
  { unfold filtered_columns in Hf.
    destruct (select_sorted fc selected); [|done].
    by apply mapM_gather_keys in Hf. }
  assert (length (source_data st) = length (List.map snd cols)) as Hl.
  { rewrite length_map, <- (length_map fst cols), Hk. unfold keys. by rewrite length_map. }
  repeat split; try done.
  - rewrite Hl, <- Hk. rewrite contents_zip by (by rewrite !length_map).
    by rewrite zip_fst_snd.
  - by apply contents_app.
  - unfold keys at 1. rewrite Hl, <- Hk.
    clear. generalize (length (arrays st)). induction cols as [|[k a] cols IH]; intros n; simpl; [done|].
    by rewrite IH.
Qed.

(** The columns of a source of which three have been replaced. *)
Lemma shown_replaced h o d t s n full k :
  contents h o = Some d →
  shown (State (h ++ [t; s; n])
           (put (put (put o "temp_bin" (length h)) "stress_bin" (length h + 1))
              "normalized_count" (length h + 2)) full) k
  = if String.eqb k "temp_bin" then Some t
    else if String.eqb k "stress_bin" then Some s
    else if String.eqb k "normalized_count" then Some n
    else lookup_col d k.
Proof.
  intros Hc. unfold shown, read. cbn [arrays source_data].
  destruct (String.eqb_spec k "normalized_count") as [->|Hn].
  { rewrite get_put_eq. cbn [mbind option_bind String.eqb Ascii.eqb Bool.eqb].
    rewrite lookup_app_r by lia.
    by replace (length h + 2 - length h) with 2 by lia. }
  rewrite get_put_ne by done.
  destruct (String.eqb_spec k "stress_bin") as [->|Hs].
  { rewrite get_put_eq. cbn [mbind option_bind String.eqb Ascii.eqb Bool.eqb].
    rewrite lookup_app_r by lia.
    by replace (length h + 1 - length h) with 1 by lia. }
  rewrite get_put_ne by done.
  destruct (String.eqb_spec k "temp_bin") as [->|Ht].
  { rewrite get_put_eq. cbn [mbind option_bind].
    rewrite lookup_app_r by lia. by rewrite Nat.sub_diag. }
  rewrite get_put_ne by done.
  rewrite <- (contents_read (h ++ [t; s; n]) o d k) by (by apply contents_app).
  done.
Qed.

Lemma contents_put h o d k r a :
  contents h o = Some d → h !! r = Some a → is_Some (contents h (put o k r)).
Proof.
  intros Hc Hr. revert d Hc. induction o as [|[k' r'] o IH]; intros d; simpl.
  - rewrite Hr. by eexists.
  - destruct (h !! r') as [a'|] eqn:Ha; [|done]. simpl.
    destruct (contents h o) as [d'|] eqn:Hd; [|done]. simpl. intros _.
    destruct (String.eqb k' k); simpl.
    + rewrite Hr, Hd. by eexists.
    + rewrite Ha. simpl. destruct (IH d' eq_refl) as [d'' ->]. by eexists.
Qed.


(** *** The arrays that a callback leaves alone *)

(** [h'] agrees with [h] below [n]. *)
Local Abbreviation agree n h h' := (∀ i : nat, i < n → h' !! i = h !! i).

Lemma push_agree n h r v h' : n ≤ r → push h r v = Some h' → agree n h h'.
Proof.
  unfold push. intros Hn. destruct (h !! r) as [a|]; [|done].
  intros [= <-] i Hi. apply list_lookup_insert_ne. lia.
Qed.

Lemma copy_cells_agree n full k r ixs h h' :
  n ≤ r → copy_cells full k r ixs h = Some h' → agree n h h'.
Proof.
  intros Hn. revert h. induction ixs as [|i ixs IH]; intros h; simpl.
  - by intros [= <-].
  - unfold copy_cell. destruct (read h full k) as [col|]; [|done]. simpl.
    destruct (push h r (index col i)) as [h1|] eqn:Hp; [|done]. simpl.
    intros H j Hj. rewrite (IH _ H j Hj). exact (push_agree n h r _ h1 Hn Hp j Hj).
Qed.

Lemma fill_entries_agree n o full ixs h h' :
  Forall (λ e, n ≤ e.2) o → fill_entries o full ixs h = Some h' → agree n h h'.
Proof.
  intros Ho. revert h. induction Ho as [|[k r] o Hr Ho IH]; intros h; simpl.
  - by intros [= <-].
  - destruct (copy_cells full k r ixs h) as [h1|] eqn:Hc; [|done]. simpl.
    intros H j Hj. rewrite (IH _ H j Hj). exact (copy_cells_agree n full k r ixs h h1 Hr Hc j Hj).
Qed.

Lemma zip_seq_bound (ks : list string) n m : Forall (λ e, n ≤ e.2) (zip ks (seq n m)).
Proof.
  assert (∀ a, n ≤ a → Forall (λ e : string * nat, n ≤ e.2) (zip ks (seq a m))) as H.
  { revert ks. induction m as [|m IH]; intros [|k ks] a Ha; simpl; try constructor.
    - done.
    - apply IH. lia. }
  by apply H.
Qed.

Lemma agree_unchanged (h h' : list (list value)) :
  agree (length h) h h' → unchanged h h'.
Proof.
  intros H r a Hr. rewrite H; [done|]. by apply lookup_lt_Some in Hr.
Qed.

Lemma yield_callback_frame selected st st' :
  yield_callback selected st = Some st' →
  full_data st' = full_data st ∧ unchanged (arrays st) (arrays st').
Proof.
  unfold yield_callback. rewrite reset_entries_spec.
  set (h := arrays st ++ _).
  destruct (read h (full_data st) "parcelle_id") as [parcels|]; [|done]. simpl.
  destruct (sort_indices h (full_data st) _) as [ixs|]; [|done]. simpl.
  destruct (fill_entries _ (full_data st) ixs h) as [h'|] eqn:Hf; [|done]. simpl.
  intros [= <-]. split; [done|]. simpl.
  apply agree_unchanged. intros i Hi.
  rewrite (fill_entries_agree _ _ _ _ _ _ (zip_seq_bound _ _ _) Hf i Hi).
  subst h. by rewrite lookup_app_l.
Qed.

Lemma push_from_agree n data k i o h oh' :
  (∃ r, get o k = Some r ∧ n ≤ r) →
  push_from data k i (o, h) = Some oh' → oh'.1 = o ∧ agree n h oh'.2.
Proof.
  intros (r & Hg & Hn). unfold push_from. cbn [fst snd]. rewrite Hg. simpl.
  destruct (read h data k) as [col|]; [|done]. simpl.
  destruct (push h r (index col i)) as [h'|] eqn:Hp; [|done]. simpl.
  intros [= <-]. split; [done|]. exact (push_agree n h r _ h' Hn Hp).
Qed.

Lemma stress_loop_agree n data selected l o h oh' :
  (∀ k, In k stress_columns → ∃ r, get o k = Some r ∧ n ≤ r) →
  stress_loop data selected l (o, h) = Some oh' → oh'.1 = o ∧ agree n h oh'.2.
Proof.
  intros Hg. revert h. induction l as [|i l IH]; intros h; simpl.
  - by intros [= <-].
  - unfold stress_step. cbn [snd].
    destruct (read h data "parcelle_id") as [parcels|]; [|done]. simpl.
    destruct (strict_eq_str (index parcels i) selected); simpl; [|apply IH].
    destruct (push_from data "temp_bin" i (o, h)) as [[o1 h1]|] eqn:H1; [|done]. simpl.
    apply push_from_agree with (n := n) in H1 as [E1 A1];
      [|apply Hg; simpl; auto]. simpl in E1, A1. subst o1.
    destruct (push_from data "stress_bin" i (o, h1)) as [[o2 h2]|] eqn:H2; [|done]. simpl.
    apply push_from_agree with (n := n) in H2 as [E2 A2];
      [|apply Hg; simpl; auto]. simpl in E2, A2. subst o2.
    destruct (push_from data "normalized_count" i (o, h2)) as [[o3 h3]|] eqn:H3; [|done].
    simpl.
    apply push_from_agree with (n := n) in H3 as [E3 A3];
      [|apply Hg; simpl; auto]. simpl in E3, A3. subst o3.
    intros H. destruct (IH _ H) as [E A]. split; [done|].
    intros j Hj. by rewrite A, A3, A2, A1.
Qed.

Lemma stress_callback_frame selected st st' :
  stress_callback selected st = Some st' →
  full_data st' = full_data st ∧ unchanged (arrays st) (arrays st').
Proof.
  unfold stress_callback, reset_key. cbn [fst snd].
  set (o := put _ "normalized_count" _). set (h := (_ ++ [[]]) ++ [[]]).
  destruct (read h (full_data st) "parcelle_id") as [parcels|]; [|done]. simpl.
  destruct (stress_loop _ selected _ (o, h)) as [[o' h']|] eqn:Hl; [|done]. simpl.
  intros [= <-]. split; [done|]. simpl.
  apply (stress_loop_agree (length (arrays st))) in Hl as [_ A].
  - simpl in A. apply agree_unchanged. intros i Hi. rewrite A by done.
    subst h. by rewrite <- !app_assoc, lookup_app_l.
  - subst o. rewrite !length_app. simpl.
    intros k [<-|[<-|[<-|[]]]].
    + rewrite get_put_ne by done. rewrite get_put_ne by done.
      rewrite get_put_eq. eexists; split; [done|lia].
    + rewrite get_put_ne by done. rewrite get_put_eq. eexists; split; [done|lia].
    + rewrite get_put_eq. eexists; split; [done|lia].
Qed.

(** *** A callback run after another *)

(** The yield callback run after an earlier selection leaves the columns
    of the new selection, whatever the earlier one was. *)
Lemma yield_callback_replaces st fc s0 s st1 cols :
  contents (arrays st) (full_data st) = Some fc →
  yield_callback s0 st = Some st1 →
  filtered_columns fc (keys (source_data st)) s = Some cols →
  ∃ st2, yield_callback s st1 = Some st2 ∧
         contents (arrays st2) (source_data st2) = Some cols.
Proof.
  intros Hc H1 Hf.
  destruct (yield_callback_contents _ _ _ _ Hc H1) as (c1 & _ & _ & Hc1 & Hk1 & _).
  pose proof (yield_callback_spec s st1 fc Hc1) as Hspec.
  rewrite Hk1, Hf in Hspec. cbn [mbind option_bind] in Hspec.
  eexists. split; [exact Hspec|].
  destruct (yield_callback_contents _ _ _ _ Hc1 Hspec) as (c & Hf' & Hs & _).
  rewrite Hk1, Hf in Hf'. injection Hf' as <-. exact Hs.
Qed.

(** The stress callback run after an earlier selection shows the three
    columns of the new selection; the other columns are those that the
    source had before the first run. *)
Lemma stress_callback_replaces st fc d s0 s st1 t b n :
  contents (arrays st) (full_data st) = Some fc →
  contents (arrays st) (source_data st) = Some d →
  stress_callback s0 st = Some st1 →
  stress_filtered fc s = Some (t, b, n) →
  ∃ st2, stress_callback s st1 = Some st2 ∧
         ∀ k, shown st2 k
              = if String.eqb k "temp_bin" then Some t
                else if String.eqb k "stress_bin" then Some b
                else if String.eqb k "normalized_count" then Some n
                else lookup_col d k.
Proof.
  intros Hc Hd H1 Hf.
  rewrite (stress_callback_spec _ _ _ Hc) in H1.
  destruct (stress_filtered fc s0) as [[[t0 b0] n0]|]; [|done].
  cbn [mbind option_bind fst snd] in H1. injection H1 as <-.
  set (h1 := arrays st ++ [t0; b0; n0]).
  set (o1 := put (put (put (source_data st) "temp_bin" _) "stress_bin" _) _ _).
  assert (contents h1 (full_data st) = Some fc) as Hc1 by (by apply contents_app).
  assert (is_Some (contents h1 o1)) as [d1 Hd1].
  { subst o1 h1.
    destruct (contents_put (arrays st ++ [t0; b0; n0]) (source_data st) d
                "temp_bin" (length (arrays st)) t0) as [d' Hd'].
    { by apply contents_app. }
    { by apply list_lookup_middle. }
    destruct (contents_put _ _ d' "stress_bin" (length (arrays st) + 1) b0 Hd')
      as [d'' Hd''].
    { rewrite lookup_app_r by lia.
      by replace (length (arrays st) + 1 - length (arrays st)) with 1 by lia. }
    apply (contents_put _ _ d'' "normalized_count" (length (arrays st) + 2) n0 Hd'').
    rewrite lookup_app_r by lia.
    by replace (length (arrays st) + 2 - length (arrays st)) with 2 by lia. }
  pose proof (stress_callback_spec s (State h1 o1 (full_data st)) fc Hc1) as Hspec.
  rewrite Hf in Hspec. cbn [mbind option_bind fst snd arrays source_data full_data] in Hspec.
  eexists. split; [exact Hspec|].
  intros k. rewrite (shown_replaced h1 o1 d1) by done.
  destruct (String.eqb k "temp_bin") eqn:E1; [done|].
  destruct (String.eqb k "stress_bin") eqn:E2; [done|].
  destruct (String.eqb k "normalized_count") eqn:E3; [done|].
  rewrite <- (contents_read h1 o1 d1 k Hd1).
  pose proof (shown_replaced (arrays st) (source_data st) d t0 b0 n0 (full_data st) k Hd)
    as Hsh.
  unfold shown in Hsh. cbn [arrays source_data] in Hsh.
  fold h1 o1 in Hsh. by rewrite Hsh, E1, E2, E3.
Qed.

End JsFacts.

Module DashboardFacts.
Import Js JsFacts Dashboard.

(** *** Indices and rows *)

Section Rows.
Context {A : Type}.
Implicit Types (l pre : list A) (p : A → bool).

Lemma filter_seq_rows_from pre l p :
  omap (λ i, (pre ++ l) !! i)
    (List.filter (λ i, match (pre ++ l) !! i with Some x => p x | None => false end)
       (seq (length pre) (length l)))
  = List.filter p l.
Proof.
  revert pre. induction l as [|x l IH]; intros pre; [done|].
  cbn [length seq List.filter].
  rewrite (list_lookup_middle pre l x (length pre) eq_refl).
  specialize (IH (pre ++ [x])).
  rewrite length_app, <- app_assoc in IH. cbn [length app] in IH.
  rewrite Nat.add_1_r in IH.
  destruct (p x); [|exact IH].
  change (omap ?f (?i :: ?r)) with (match f i with Some y => y :: omap f r | None => omap f r end).
  cbn beta. rewrite (list_lookup_middle pre l x (length pre) eq_refl).
  by rewrite IH.
Qed.

Lemma filter_seq_rows l p :
  omap (λ i, l !! i)
    (List.filter (λ i, match l !! i with Some x => p x | None => false end)
       (seq 0 (length l)))
  = List.filter p l.
Proof. apply (filter_seq_rows_from [] l p). Qed.
End Rows.

Lemma index_map {A} (g : A → value) (l : list A) i x :
  l !! i = Some x → index (List.map g l) i = g x.
Proof.
  intros H. unfold index.
  change (List.map g l) with (g <$> l). by rewrite list_lookup_fmap, H.
Qed.

Lemma index_map_None {A} (g : A → value) (l : list A) i :
  l !! i = None → index (List.map g l) i = Undefined.
Proof.
  intros H. unfold index.
  change (List.map g l) with (g <$> l). by rewrite list_lookup_fmap, H.
Qed.

Lemma pick_map {A} (g : A → value) (l : list A) ixs :
  (∀ i, In i ixs → is_Some (l !! i)) →
  pick (List.map g l) ixs = List.map g (omap (λ i, l !! i) ixs).
Proof.
  induction ixs as [|i ixs IH]; intros H; [done|].
  destruct (H i) as [x Hx]; [by left|].
  change (omap ?f (?i :: ?r)) with (match f i with Some y => y :: omap f r | None => omap f r end).
  cbn beta. rewrite Hx. cbn [pick List.map].
  rewrite (index_map g l i x Hx). f_equal.
  apply IH. intros j Hj. apply H. by right.
Qed.

Lemma matching_map {A} (g : A → value) (p : A → bool) (l : list A) selected :
  (∀ x, strict_eq_str (g x) selected = p x) →
  omap (λ i, l !! i) (matching (List.map g l) selected) = List.filter p l
  ∧ ∀ i, In i (matching (List.map g l) selected) → is_Some (l !! i).
Proof.
  intros Hg. unfold matching. rewrite length_map. split.
  - rewrite <- (filter_seq_rows l p). f_equal.
    apply List.filter_ext. intros i.
    destruct (l !! i) as [x|] eqn:Hx.
    + by rewrite (index_map g l i x Hx).
    + by rewrite (index_map_None g l i Hx).
  - intros i Hi. apply filter_In in Hi as [Hi _].
    apply in_seq in Hi. apply lookup_lt_is_Some. lia.
Qed.

Lemma time_clip_valid n : (Z.abs n <= max_time)%Z → time_clip n = Some n.
Proof. unfold time_clip. intros H. by destruct (Z.leb_spec (Z.abs n) max_time); [|lia]. Qed.

(** With valid dates, sorting the indices by [new Date(...)] differences
    sorts the rows by date. *)
Lemma sorted_indices_rows (rs : list feature_row) ixs :
  Forall (λ r, Z.abs (date r) <= max_time)%Z rs →
  (∀ i, In i ixs → is_Some (rs !! i)) →
  omap (λ i, rs !! i) (sort_by (by_date (List.map (λ r, Num (date r)) rs)) ixs)
  = sort_by (λ a b, date a - date b)%Z (omap (λ i, rs !! i) ixs).
Proof.
  intros Hv Hi. apply sort_by_omap; [done|].
  intros a a' b b' _ _ Hb Hb'. unfold by_date.
  rewrite (index_map _ rs a b Hb), (index_map _ rs a' b' Hb'). cbn [Date].
  rewrite List.Forall_forall in Hv.
  rewrite !time_clip_valid; [done| |].
  - apply Hv. apply list_elem_of_In, list_elem_of_lookup. eauto.
  - apply Hv. apply list_elem_of_In, list_elem_of_lookup. eauto.
Qed.

Lemma init_yield_sources rs :
  init (ColumnDataSource (Frame yield_columns rs)) (empty_source (Frame yield_columns rs))
  = State [List.map (λ r, Num (label r)) rs;
           List.map (cell "parcelle_id") rs;
           List.map (cell "date") rs;
           List.map (cell "rendement_estime") rs;
           []; []; []]
      [("parcelle_id", 4); ("date", 5); ("rendement_estime", 6)]
      [("index", 0); ("parcelle_id", 1); ("date", 2); ("rendement_estime", 3)].
Proof. reflexivity. Qed.

(** What the yield callback leaves in the source of the plot. *)
Lemma yield_callback_rows rs selected :
  Forall (λ r, Z.abs (date r) <= max_time)%Z rs →
  ∃ st',
    yield_callback selected
      (init (ColumnDataSource (Frame yield_columns rs))
         (empty_source (Frame yield_columns rs))) = Some st' ∧
    contents (arrays st') (source_data st')
    = Some (List.map (λ c, column c
              (sort_by (λ a b, date a - date b)%Z
                 (List.filter (λ r, String.eqb (parcelle_id r) selected) rs)))
              yield_columns).
Proof.
  intros Hv. rewrite init_yield_sources.
  set (st := State _ _ _).
  assert (contents (arrays st) (full_data st)
          = Some (ColumnDataSource (Frame yield_columns rs))) as Hc by reflexivity.
  pose proof (yield_callback_spec selected st _ Hc) as Hspec.
  destruct (matching_map (cell "parcelle_id") (λ r, String.eqb (parcelle_id r) selected)
              rs selected) as [Hm Hin]; [done|].
  set (m := matching (List.map (cell "parcelle_id") rs) selected) in *.
  set (ixs := sort_by (by_date (List.map (cell "date") rs)) m).
  assert (filtered_columns (ColumnDataSource (Frame yield_columns rs))
            (keys (source_data st)) selected
          = Some [("parcelle_id", pick (List.map (cell "parcelle_id") rs) ixs);
                  ("date", pick (List.map (cell "date") rs) ixs);
                  ("rendement_estime", pick (List.map (cell "rendement_estime") rs) ixs)])
    as Hf.
  { assert (select_sorted (ColumnDataSource (Frame yield_columns rs)) selected = Some ixs)
      as Hsel.
    { unfold select_sorted.
      change (lookup_col _ "parcelle_id") with (Some (List.map (cell "parcelle_id") rs)).
      cbn [mbind option_bind]. fold m. subst ixs.
      destruct m as [|a [|b m']]; try done. }
    unfold filtered_columns. rewrite Hsel. cbn [mbind option_bind].
    change (keys (source_data st)) with yield_columns.
    unfold yield_columns, gather. cbn [mapM].
    change (lookup_col _ "parcelle_id") with (Some (List.map (cell "parcelle_id") rs)).
    change (lookup_col _ "date") with (Some (List.map (cell "date") rs)).
    change (lookup_col _ "rendement_estime")
      with (Some (List.map (cell "rendement_estime") rs)).
    by destruct ixs. }
  rewrite Hf in Hspec. cbn [mbind option_bind] in Hspec.
  eexists. split; [exact Hspec|].
  destruct (yield_callback_contents _ _ _ _ Hc Hspec) as (cols & Hf' & Hs & _).
  rewrite Hs, <- Hf', Hf. f_equal.
  assert (∀ i, In i ixs → is_Some (rs !! i)) as Hix.
  { intros i Hi. apply Hin. subst ixs. by apply sort_by_In in Hi. }
  assert (omap (λ i, rs !! i) ixs
          = sort_by (λ a b, date a - date b)%Z
              (List.filter (λ r, String.eqb (parcelle_id r) selected) rs)) as Hrows.
  { subst ixs. rewrite <- Hm. by apply sorted_indices_rows. }
  unfold yield_columns, column. cbn [List.map].
  by rewrite !pick_map, Hrows.
Qed.

(** A second selection on the page of the yield history. *)
Lemma yield_refilter_rows rs s0 s :
  Forall (λ r, Z.abs (date r) <= max_time)%Z rs →
  let kept selected :=
    sort_by (λ a b, date a - date b)%Z
      (List.filter (λ r, String.eqb (parcelle_id r) selected) rs) in
  ∃ st1 st2,
    yield_callback s0
      (init (ColumnDataSource (Frame yield_columns rs))
         (empty_source (Frame yield_columns rs))) = Some st1 ∧
    contents (arrays st1) (source_data st1)
    = Some (List.map (λ c, column c (kept s0)) yield_columns) ∧
    yield_callback s st1 = Some st2 ∧
    contents (arrays st2) (source_data st2)
    = Some (List.map (λ c, column c (kept s)) yield_columns).
Proof.
  intros Hv kept.
  destruct (yield_callback_rows rs s0 Hv) as (st1 & H1 & Hc1).
  destruct (yield_callback_rows rs s Hv) as (st' & H2 & Hc2).
  rewrite init_yield_sources in H1, H2.
  set (st := State _ _ _) in *.
  assert (contents (arrays st) (full_data st)
          = Some (ColumnDataSource (Frame yield_columns rs))) as Hc by reflexivity.
  destruct (yield_callback_contents _ _ _ _ Hc H2) as (cols & Hf & Hs & _).
  rewrite Hc2 in Hs. injection Hs as <-.
  destruct (yield_callback_replaces st _ s0 s st1 _ Hc H1 Hf) as (st2 & H & Hc').
  exists st1, st2. rewrite init_yield_sources. fold st. done.
Qed.

End DashboardFacts.

Module TrendFacts.
Import Py AgriculturalMap.

(** *** The store of the trend computation *)

Lemma lookup_snoc {A} (l : list A) x : (l ++ [x]) !! length l = Some x.
Proof. by apply list_lookup_middle. Qed.

Lemma insert_snoc {A} (l : list A) x y : <[length l := y]> (l ++ [x]) = l ++ [y].
Proof. rewrite insert_app_r_alt by lia. by rewrite Nat.sub_diag. Qed.

Lemma insert_snoc2 {A} (l : list A) x y z :
  <[length (l ++ [x]) := z]> ((l ++ [x]) ++ [y]) = (l ++ [x]) ++ [z].
Proof. apply insert_snoc. Qed.

(** The trend, spelled out: the tables allocated on the way and the
    outcome, for a history table [t] at reference [r]. *)
Lemma calculate_yield_trend_body_spec r parcelle s t :
  s !! r = Some t →
  calculate_yield_trend_body (Some r) parcelle s
  = let f := List.filter (λ x, String.eqb (yh_parcelle_id x) parcelle) t in
    if Nat.eqb (length f) 0 || Nat.ltb (nunique (List.map yh_rendement_estime f)) 2
    then (inr zero_trend, (s ++ [f]) ++ [f])
    else
      match mapM dt_year (List.map yh_date f) with
      | None =>
          (inl (AttributeError "Can only use .dt accessor with datetimelike values"),
           (s ++ [f]) ++ [f])
      | Some years =>
          let t1 := zip_with set_date f years in
          let u := drop_duplicates same_date t1 in
          let v := sort_values u in
          let s' := (((s ++ [f]) ++ [t1]) ++ [u]) ++ [v] in
          match mapM numeric (List.map yh_date v) with
          | None =>
              (inl (TypeError "float() argument must be a string or a real number"), s')
          | Some X =>
              let y := List.map yh_rendement_estime v in
              (inr (Trend (LinearRegression_fit X y).1 (LinearRegression_fit X y).2
                      (if negb (Qeq_bool (mean y) 0)
                       then (LinearRegression_fit X y).1 / mean y else 0)%Q),
               s')
          end
      end.
Proof.
  intros Hr. cbv zeta.
  unfold calculate_yield_trend_body, attribute, bind, deref, alloc. rewrite Hr.
  rewrite lookup_snoc.
  set (f := List.filter _ t).
  destruct (Nat.eqb (length f) 0 || Nat.ltb (nunique (List.map yh_rendement_estime f)) 2);
    [done|].
  unfold lift. destruct (mapM dt_year (List.map yh_date f)) as [years|]; [|done].
  unfold ret, assign. rewrite insert_snoc2. rewrite !lookup_snoc.
  destruct (mapM numeric _) as [X|]; [|done].
  by destruct (LinearRegression_fit X _).
Qed.

Lemma calculate_yield_trend_body_unchanged yh parcelle s :
  ∀ r t, s !! r = Some t →
         (calculate_yield_trend_body yh parcelle s).2 !! r = Some t.
Proof.
  intros r t Hr. destruct yh as [r0|]; [|done].
  destruct (s !! r0) as [t0|] eqn:H0.
  - rewrite (calculate_yield_trend_body_spec r0 parcelle s t0 H0). cbv zeta.
    repeat match goal with
           | |- context [if ?b then _ else _] => destruct b
           | |- context [match ?o with Some _ => _ | None => _ end] => destruct o
           end; cbn [snd];
      repeat (apply lookup_app_l_Some); done.
  - unfold calculate_yield_trend_body, attribute, bind, deref. by rewrite H0.
Qed.

(** *** Sums and means of rationals *)

Local Open Scope Q_scope.










(** *** The fitted line minimises the squared residuals *)

Lemma sum_cons a l : sum (a :: l) = a + sum l.
Proof. reflexivity. Qed.

Lemma sum_shifted m l :
  sum (List.map (λ v, v - m) l) == sum l - inject_Z (Z.of_nat (length l)) * m.
Proof.
  induction l as [|a l IH]; [simpl; ring|].
  cbn [List.map length]. rewrite !sum_cons.
  rewrite IH, Nat2Z.inj_succ, <- Z.add_1_r, inject_Z_plus. ring.
Qed.

Lemma sum_mean l : l ≠ [] → sum l == inject_Z (Z.of_nat (length l)) * mean l.
Proof.
  intros Hne. unfold mean. field.
  intros E. assert (inject_Z (Z.of_nat (length l)) == inject_Z 0) as E' by exact E.
  rewrite inject_Z_injective in E'. destruct l; [done|]. simpl in E'. lia.
Qed.

Lemma sum_centered l : l ≠ [] → sum (centered l) == 0.
Proof.
  intros Hne. unfold centered. rewrite sum_shifted, (sum_mean l Hne). ring.
Qed.









Local Close Scope Q_scope.

Lemma nunique_nil_guard (l : list Q) : 2 ≤ nunique l → l ≠ [].
Proof. intros H ->. unfold nunique in H. simpl in H. lia. Qed.

(** The guard: no row for the parcel, or a single yield value. *)
Lemma calculate_yield_trend_guard s r t parcelle :
  s !! r = Some t →
  let rows := List.filter (λ x, String.eqb (yh_parcelle_id x) parcelle) t in
  rows = [] ∨ nunique (List.map yh_rendement_estime rows) < 2 →
  ∃ s', calculate_yield_trend (Some r) parcelle s = (zero_trend, s', []).
Proof.
  intros Hr rows H. unfold calculate_yield_trend.
  rewrite (calculate_yield_trend_body_spec r parcelle s t Hr). cbv zeta. fold rows.
  assert (Nat.eqb (length rows) 0
          || Nat.ltb (nunique (List.map yh_rendement_estime rows)) 2 = true) as ->.
  { apply orb_true_iff. destruct H as [->|H]; [by left|].
    right. by apply Nat.ltb_lt. }
  by eexists.
Qed.

Lemma calculate_yield_trend_unchanged yh parcelle s r t :
  s !! r = Some t → (calculate_yield_trend yh parcelle s).1.2 !! r = Some t.
Proof.
  intros Hr. unfold calculate_yield_trend.
  pose proof (calculate_yield_trend_body_unchanged yh parcelle s r t Hr) as H.
  by destruct (calculate_yield_trend_body yh parcelle s) as [[e|tr] s'].
Qed.

End TrendFacts.

Module StressFacts.
Import Dashboard.

Lemma key_eqb_eq a b : key_eqb a b = true ↔ a = b.
Proof.
  destruct a as [[p t] s], b as [[p' t'] s']. unfold key_eqb. simpl.
  rewrite !andb_true_iff, String.eqb_eq, !Z.eqb_eq.
  split; [intros [[-> ->] ->]; done|by intros [= -> -> ->]].
Qed.

Lemma in_group_key k r : in_group k r = true ↔ group_key r = Some k.
Proof.
  unfold in_group. destruct (group_key r) as [k'|]; [|split; done].
  rewrite key_eqb_eq. split; [by intros ->|by intros [= ->]].
Qed.

Lemma omap_In {A B} (f : A → option B) l y :
  In y (omap f l) ↔ ∃ x, In x l ∧ f x = Some y.
Proof.
  rewrite <- list_elem_of_In, list_elem_of_omap.
  split; intros (x & H1 & H2); exists x; split; try done; by apply list_elem_of_In.
Qed.


(** One line per key that occurs, in the order of the keys. *)
Lemma group_sizes_keys rs :
  List.map (λ rc, group_key rc.1) (group_sizes rs)
  = List.map Some (sort_by key_cmp (drop_duplicates key_eqb (omap group_key rs))).
Proof.
  unfold group_sizes.
  set (keys := sort_by key_cmp _).
  set (F := λ k : key, match List.filter (in_group k) rs with
                       | [] => None
                       | r :: g => Some (r, S (length g))
                       end).
  rewrite <- (List.map_map (λ rc : feature_row * nat, rc.1) group_key).
  assert (∀ k, In k keys → ∃ y, F k = Some y ∧ group_key y.1 = Some k) as HF.
  { intros k Hk. subst keys. apply sort_by_In in Hk.
    apply (proj1 (drop_duplicates_In _ key_eqb_eq _ _)) in Hk.
    apply omap_In in Hk as (r & Hr & Hg).
    assert (In r (List.filter (in_group k) rs)) as Hin.
    { apply filter_In. split; [done|]. by apply in_group_key. }
    subst F. cbn beta. destruct (List.filter (in_group k) rs) as [|r' g] eqn:Hf; [done|].
    eexists. split; [done|]. cbn [fst]. apply in_group_key.
    assert (In r' (List.filter (in_group k) rs)) as Hr' by (rewrite Hf; by left).
    by apply filter_In in Hr' as [_ Hr']. }
  clearbody keys. induction keys as [|k keys IH]; [done|].
  destruct (HF k) as (y & Hy & Hg); [by left|].
  change (omap F (k :: keys))
    with (match F k with Some y => y :: omap F keys | None => omap F keys end).
  rewrite Hy. simpl. rewrite Hg. f_equal. apply IH.
  intros k' Hk'. apply HF. by right.
Qed.

Lemma group_keys_NoDup rs :
  NoDup (sort_by key_cmp (drop_duplicates key_eqb (omap group_key rs))).
Proof.
  rewrite sort_by_perm. apply (drop_duplicates_NoDup _ key_eqb_eq).
Qed.




Lemma stress_matrix_counts rs :
  List.map count (stress_matrix rs) = List.map snd (group_sizes rs).
Proof. unfold stress_matrix. by rewrite List.map_map. Qed.

(** The label of a group is the same number as the bin of its rows. *)
Lemma grid_group_label column v : F64.grid (group_label column v) = F64.grid v.
Proof.
  unfold group_label. destruct (List.find _ column) as [u|] eqn:E; [|done].
  apply List.find_some in E as [_ E]. unfold F64.same_number in E.
  change (default v (Some u)) with u.
  destruct (F64.grid u), (F64.grid v); try discriminate.
  apply Z.eqb_eq in E. by subst.
Qed.

Lemma bin_key_label p temps stresses r c q :
  bin_key (Bin p (group_label temps (temp_bin (temperature r)))
             (group_label stresses (stress_bin (stress_hydrique r))) c q)
  = (t ← F64.grid (temp_bin (temperature r));
     s ← F64.grid (stress_bin (stress_hydrique r));
     Some (p, t, s)).
Proof.
  unfold bin_key. cbn [bin_temp bin_stress bin_parcelle_id].
  by rewrite !grid_group_label.
Qed.

Lemma stress_matrix_keys rs :
  List.map bin_key (stress_matrix rs) = List.map (λ rc, group_key rc.1) (group_sizes rs).
Proof.
  unfold stress_matrix. rewrite List.map_map. apply List.map_ext.
  intros rc. apply bin_key_label.
Qed.






End StressFacts.

(** ** The bins of usual values *)

Module BinFacts.
Import Dashboard.






End BinFacts.

Module PopupFacts.
Import Py AgriculturalMap.

Lemma sorted_snoc {A} (R : A → A → Prop) l x :
  StronglySorted R l → Forall (λ y, R y x) l → StronglySorted R (l ++ [x]).
Proof.
  induction 1 as [|y l Hl IH Hy]; intros Hx; simpl.
  - repeat constructor.
  - inversion_clear Hx as [|?? Hyx Hlx]. constructor; [by apply IH|].
    apply Forall_app. split; [done|]. by constructor.
Qed.

Lemma sorted_rev {A} (R : A → A → Prop) l :
  StronglySorted R l → StronglySorted (λ a b, R b a) (rev l).
Proof.
  induction 1 as [|x l Hl IH Hx]; simpl; [constructor|].
  apply sorted_snoc; [done|].
  apply List.Forall_forall. intros y Hy. apply in_rev in Hy.
  rewrite List.Forall_forall in Hx. by apply Hx.
Qed.

Lemma sort_values_descending_sorted l :
  StronglySorted (λ a b, date b <= date a)%Z (sort_values_descending l).
Proof.
  unfold sort_values_descending.
  apply (sorted_rev (λ a b, date a <= date b)%Z). apply sort_by_sorted.
Qed.

Lemma sort_values_descending_perm l : sort_values_descending l ≡ₚ l.
Proof.
  unfold sort_values_descending.
  rewrite <- Permutation_rev, sort_by_perm. symmetry. apply Permutation_rev.
Qed.

Lemma crop_key_eqb (a b : string * Z) :
  String.eqb a.1 b.1 && Z.eqb a.2 b.2 = true ↔ a = b.
Proof.
  destruct a as [c d], b as [c' d']. simpl.
  rewrite andb_true_iff, String.eqb_eq, Z.eqb_eq.
  split; [by intros [-> ->]|by intros [= -> ->]].
Qed.

(** Every crop of the history has its line among those kept. *)
Lemma drop_duplicates_crop_line (rs : list feature_row) r :
  In r rs → ∃ y, In y (drop_duplicates same_crop rs) ∧ crop_line y = crop_line r.
Proof.
  intros Hr.
  pose proof (drop_duplicates_from_map (λ x, (culture x, date x)) same_crop
                (λ a b : string * Z, String.eqb a.1 b.1 && Z.eqb a.2 b.2) [] rs
                (λ a b, eq_refl)) as Hm.
  assert (In (culture r, date r)
            (List.map (λ x, (culture x, date x)) (drop_duplicates same_crop rs))) as Hin.
  { unfold drop_duplicates. rewrite Hm.
    apply (proj2 (drop_duplicates_In _ crop_key_eqb _ _)).
    apply in_map_iff. by exists r. }
  apply in_map_iff in Hin as (y & Hy & Hin). exists y. split; [done|].
  injection Hy as Hc Hd. unfold crop_line. by rewrite Hc, Hd.
Qed.

Lemma format_recent_crops_spec history :
  empty history = false → has "culture" history = true → has "date" history = true →
  ∃ entries,
    format_recent_crops history = (List.map crop_line entries, []) ∧
    entries ≡ₚ drop_duplicates same_crop (rows history) ∧
    StronglySorted (λ a b, date b <= date a)%Z entries ∧
    ∀ r, In r (rows history) → In (crop_line r) (List.map crop_line entries).
Proof.
  intros He Hc Hd. unfold format_recent_crops. rewrite He, Hc, Hd. cbn [negb orb].
  eexists. split; [reflexivity|]. split; [apply sort_values_descending_perm|].
  split; [apply sort_values_descending_sorted|].
  intros r Hr. destruct (drop_duplicates_crop_line _ r Hr) as (y & Hy & <-).
  apply in_map. apply (Permutation_in _ (Permutation_sym (sort_values_descending_perm _))).
  done.
Qed.

End PopupFacts.

Module ErrorFacts.
Import Py.

Lemma select_inr cols df df' c :
  Dashboard.select cols df = inr df' → In c cols → Dashboard.has c df = true.
Proof.
  unfold Dashboard.select.
  destruct (List.find _ cols) as [c'|] eqn:Hf; [done|]. intros _ Hc.
  pose proof (List.find_none _ _ Hf c Hc) as H.
  by apply negb_false_iff in H.
Qed.

Lemma create_data_sources_missing dm f c :
  Dashboard.load_data dm = None →
  Dashboard.prepare_features dm = inr f →
  In c (Dashboard.yield_columns ++ Dashboard.ndvi_columns) →
  Dashboard.has c f = false →
  ∃ e, Dashboard.create_data_sources (Dashboard.new dm)
       = (Dashboard.Dash dm (Some f) None, [Report "Error preparing data sources: " e]).
Proof.
  intros Hl Hp Hc Hh.
  unfold Dashboard.create_data_sources, Dashboard.create_data_sources_body.
  cbn [Dashboard.new Dashboard.data_manager Dashboard.data_sources]. rewrite Hl, Hp.
  unfold Dashboard.yield_data, Dashboard.ndvi_data.
  destruct (Dashboard.select Dashboard.yield_columns f) as [e|yd] eqn:Hy; [by eexists|].
  destruct (Dashboard.select Dashboard.ndvi_columns f) as [e|nd] eqn:Hn; [by eexists|].
  apply in_app_or in Hc as [Hc|Hc].
  - rewrite (select_inr _ _ _ c Hy Hc) in Hh. done.
  - rewrite (select_inr _ _ _ c Hn Hc) in Hh. done.
Qed.

Lemma has_set_column c c' df :
  Dashboard.has c (Dashboard.set_column c' df)
  = Dashboard.has c df || String.eqb c c'.
Proof.
  unfold Dashboard.set_column.
  destruct (Dashboard.has c' df) eqn:H'.
  - destruct (String.eqb_spec c c') as [->|]; [by rewrite H'|by rewrite orb_false_r].
  - unfold Dashboard.has. cbn [Dashboard.columns].
    rewrite existsb_app. simpl. by rewrite orb_false_r.
Qed.

Lemma create_stress_matrix_missing self f c :
  Dashboard.features_data self = Some f →
  In c ["temperature"; "stress_hydrique"; "parcelle_id"] →
  Dashboard.has c f = false →
  ∃ self' ev,
    Dashboard.create_stress_matrix self = (None, self', [ev]) ∧
    Dashboard.data_sources self' = Dashboard.data_sources self.
Proof.
  intros Hf Hc Hh. unfold Dashboard.create_stress_matrix. rewrite Hf.
  destruct (negb (Dashboard.has "temperature" f) || negb (Dashboard.has "stress_hydrique" f))
    eqn:Hg; [by eexists _, _|].
  apply orb_false_iff in Hg as [Ht Hs].
  apply negb_false_iff in Ht, Hs.
  destruct Hc as [<-|[<-|[<-|[]]]]; [congruence|congruence|].
  rewrite !has_set_column, Hh. cbn.
  by eexists _, _.
Qed.

(** The first of the required columns that a table lacks. *)
Lemma find_missing (has : string → bool) cols c :
  In c cols → has c = false →
  ∃ c', List.find (λ c, negb (has c)) cols = Some c' ∧ In c' cols ∧ has c' = false.
Proof.
  intros Hc Hh. destruct (List.find (λ c, negb (has c)) cols) as [c'|] eqn:Hf.
  - exists c'. split; [done|]. apply List.find_some in Hf as [Hin Hn].
    split; [done|]. by apply negb_true_iff.
  - pose proof (List.find_none _ _ Hf c Hc) as H. cbn beta in H.
    rewrite Hh in H. discriminate H.
Qed.

Lemma create_data_sources_raised dm e :
  Dashboard.load_data dm = Some e
  ∨ (Dashboard.load_data dm = None ∧ Dashboard.prepare_features dm = inl e) →
  Dashboard.create_data_sources (Dashboard.new dm)
  = (Dashboard.new dm, [Report "Error preparing data sources: " e]).
Proof.
  unfold Dashboard.create_data_sources, Dashboard.create_data_sources_body.
  cbn [Dashboard.new Dashboard.data_manager Dashboard.data_sources].
  intros [->|[-> ->]]; reflexivity.
Qed.

Lemma create_base_map_raised folium_Map self e :
  AgriculturalMap.load_data (AgriculturalMap.data_manager self) = Some e
  ∨ (AgriculturalMap.load_data (AgriculturalMap.data_manager self) = None ∧
     AgriculturalMap.prepare_features (AgriculturalMap.data_manager self) = inl e) →
  AgriculturalMap.create_base_map folium_Map self
  = (self, [Report "Erreur lors de la création de la carte de base : " e]).
Proof.
  unfold AgriculturalMap.create_base_map. intros [->|[-> ->]]; reflexivity.
Qed.

Lemma create_base_map_missing folium_Map self f c :
  AgriculturalMap.load_data (AgriculturalMap.data_manager self) = None →
  AgriculturalMap.prepare_features (AgriculturalMap.data_manager self) = inr f →
  In c ["latitude"; "longitude"] →
  AgriculturalMap.has c f = false →
  ∃ c', AgriculturalMap.create_base_map folium_Map self
        = (self, [Report "Erreur lors de la création de la carte de base : " (KeyError c')])
        ∧ In c' ["latitude"; "longitude"] ∧ AgriculturalMap.has c' f = false.
Proof.
  intros Hl Hp Hc Hh. unfold AgriculturalMap.create_base_map. rewrite Hl, Hp.
  destruct (find_missing (λ c, AgriculturalMap.has c f) _ c Hc Hh) as (c' & -> & H).
  by exists c'.
Qed.

Lemma add_yield_history_layer_missing self s layers f c :
  AgriculturalMap.map self = Some layers →
  AgriculturalMap.prepare_features (AgriculturalMap.data_manager self) = inr f →
  In c AgriculturalMap.required_columns →
  AgriculturalMap.has c f = false →
  ∃ c', AgriculturalMap.add_yield_history_layer self s
        = (self, s,
           [Printed "Features DataFrame (first rows):";
            Head (AgriculturalMap.columns f) (Nat.min 5 (length (AgriculturalMap.rows f)));
            Report "Error adding yield history layer: "
              (KeyError ("Missing required column: " ++ c'))])
        ∧ In c' AgriculturalMap.required_columns ∧ AgriculturalMap.has c' f = false.
Proof.
  intros Hm Hp Hc Hh. unfold AgriculturalMap.add_yield_history_layer. rewrite Hm, Hp.
  destruct (find_missing (λ c, AgriculturalMap.has c f) _ c Hc Hh) as (c' & -> & H).
  by exists c'.
Qed.

Lemma add_current_ndvi_layer_missing markers self layers f c :
  AgriculturalMap.map self = Some layers →
  AgriculturalMap.prepare_features (AgriculturalMap.data_manager self) = inr f →
  In c AgriculturalMap.ndvi_required_columns →
  AgriculturalMap.has c f = false →
  ∃ c', AgriculturalMap.add_current_ndvi_layer markers self
        = (self, [Report "Error adding current NDVI layer: "
                    (KeyError ("Missing required column: " ++ c'))])
        ∧ In c' AgriculturalMap.ndvi_required_columns ∧ AgriculturalMap.has c' f = false.
Proof.
  intros Hm Hp Hc Hh. unfold AgriculturalMap.add_current_ndvi_layer. rewrite Hm, Hp.
  destruct (find_missing (λ c, AgriculturalMap.has c f) _ c Hc Hh) as (c' & -> & H).
  by exists c'.
Qed.

Lemma filter_missing (has : string → bool) cols c :
  In c cols → has c = false → List.filter (λ c, negb (has c)) cols ≠ [].
Proof.
  intros Hc Hh E.
  assert (In c (List.filter (λ c, negb (has c)) cols)) as H.
  { apply List.filter_In. split; [done|]. by rewrite Hh. }
  by rewrite E in H.
Qed.

(** The heat map when the feature table lacks a column of the selection,
    or the risk table the key or the risk index. *)
Lemma add_risk_heatmap_missing jitter heat_map not_in_index self layers f risk :
  AgriculturalMap.map self = Some layers →
  AgriculturalMap.prepare_features (AgriculturalMap.data_manager self) = inr f →
  AgriculturalMap.calculate_risk_metrics (AgriculturalMap.data_manager self)
    (AgriculturalMap.rename_columns f) = inr (Some risk) →
  (∃ c, In c ["parcelle_id"; "latitude"; "longitude"] ∧
        AgriculturalMap.has c (AgriculturalMap.rename_columns f) = false)
  ∨ (∃ c, In c ["parcelle_id"; "avg_risk_index"] ∧
          existsb (String.eqb c) (AgriculturalMap.risk_columns risk) = false) →
  ∃ e, AgriculturalMap.add_risk_heatmap jitter heat_map not_in_index self
       = (self, [Report "Erreur lors de l'ajout de la carte de chaleur des risques : " e]).
Proof.
  intros Hm Hp Hr H. unfold AgriculturalMap.add_risk_heatmap. rewrite Hm, Hp, Hr.
  destruct (List.filter _ ["parcelle_id"; "latitude"; "longitude"]) as [|c' missing] eqn:Hf;
    [|by eexists].
  destruct H as [(c & Hc & Hh)|(c & Hc & Hh)].
  - by destruct (filter_missing (λ c, AgriculturalMap.has c (AgriculturalMap.rename_columns f))
                   _ c Hc Hh).
  - destruct Hc as [<-|[<-|[]]]; rewrite Hh; cbn; [by eexists|].
    destruct (negb _); by eexists.
Qed.

End ErrorFacts.

(** ** More about sorting *)

Section SortMore.
Context {A : Type}.
Implicit Types (cmp : A → A → Z) (l : list A).

(** Insertion sort is stable: among the elements of one key, the order of
    the input is kept. *)
Lemma insert_by_filter_key (key : A → Z) d x l :
  List.filter (λ a, Z.eqb (key a) d) (insert_by (λ a b, key a - key b)%Z x l)
  = List.filter (λ a, Z.eqb (key a) d) (x :: l).
Proof.
  induction l as [|y l IH]; [done|].
  cbn [insert_by]. destruct (Z.leb_spec (key x - key y) 0) as [Hle|Hgt]; [done|].
  cbn [List.filter] in *.
  destruct (Z.eqb_spec (key y) d) as [Hy|Hy].
  - rewrite IH. destruct (Z.eqb_spec (key x) d); [lia|done].
  - exact IH.
Qed.

Lemma sort_by_filter_key (key : A → Z) d l :
  List.filter (λ a, Z.eqb (key a) d) (sort_by (λ a b, key a - key b)%Z l)
  = List.filter (λ a, Z.eqb (key a) d) l.
Proof.
  induction l as [|x l IH]; [done|].
  change (sort_by ?c (x :: l)) with (insert_by c x (sort_by c l)).
  rewrite insert_by_filter_key. cbn [List.filter]. by rewrite IH.
Qed.

(** Sorting with a comparator that is total and transitive. *)
Section Order.
Variable cmp : A → A → Z.
Hypothesis cmp_total : ∀ a b, (0 < cmp a b)%Z → (cmp b a <= 0)%Z.
Hypothesis cmp_trans : ∀ a b c, (cmp a b <= 0)%Z → (cmp b c <= 0)%Z → (cmp a c <= 0)%Z.

Lemma insert_by_sorted_order x l :
  StronglySorted (λ a b, cmp a b <= 0)%Z l →
  StronglySorted (λ a b, cmp a b <= 0)%Z (insert_by cmp x l).
Proof.
  induction 1 as [|y l Hl IH Hy]; simpl.
  - repeat constructor.
  - destruct (Z.leb_spec (cmp x y) 0).
    + constructor; [by constructor|].
      constructor; [done|].
      eapply Forall_impl; [exact Hy|]. simpl. intros z Hz. by apply (cmp_trans x y z).
    + constructor; [done|].
      apply List.Forall_forall. intros z Hz.
      apply (Permutation_in _ (insert_by_perm _ x l)) in Hz.
      destruct Hz as [<-|Hz]; [by apply cmp_total|].
      rewrite List.Forall_forall in Hy. by apply Hy.
Qed.

Lemma sort_by_sorted_order l : StronglySorted (λ a b, cmp a b <= 0)%Z (sort_by cmp l).
Proof.
  induction l as [|x l IH]; simpl; [constructor|]. by apply insert_by_sorted_order.
Qed.
End Order.

(** A sorted list without repetition is strictly sorted, when only equal
    elements compare both ways. *)
Lemma sorted_strict (R : A → A → Prop) l :
  StronglySorted R l → NoDup l → StronglySorted (λ a b, R a b ∧ a ≠ b) l.
Proof.
  induction 1 as [|x l Hl IH Hx]; intros Hn; [constructor|].
  apply NoDup_cons in Hn as [Hx' Hn]. constructor; [by apply IH|].
  apply List.Forall_forall. intros y Hy. rewrite List.Forall_forall in Hx.
  split; [by apply Hx|]. intros ->. apply Hx'. by apply list_elem_of_In.
Qed.
End SortMore.

Lemma string_cmp_le a b : (string_cmp a b <= 0)%Z ↔ String_as_OT.lt a b ∨ a = b.
Proof.
  unfold string_cmp. destruct (String.compare a b) eqn:E; cbv iota.
  - apply String_as_OT.cmp_eq in E. split; [by right|intros _; lia].
  - apply String_as_OT.cmp_lt in E. split; [by left|intros _; lia].
  - split; [lia|]. intros [H| ->].
    + apply String_as_OT.cmp_lt in H. unfold String_as_OT.cmp in H. congruence.
    + assert (String.compare b b = Eq) as H by (by apply String_as_OT.cmp_eq). congruence.
Qed.

Lemma string_cmp_total a b : (0 < string_cmp a b)%Z → (string_cmp b a <= 0)%Z.
Proof.
  unfold string_cmp. rewrite (String.compare_antisym a b).
  destruct (String.compare b a); simpl; lia.
Qed.

Lemma string_cmp_trans a b c :
  (string_cmp a b <= 0)%Z → (string_cmp b c <= 0)%Z → (string_cmp a c <= 0)%Z.
Proof.
  rewrite !string_cmp_le. intros [H1| ->] [H2| ->]; auto.
  left. by apply (String_as_OT.lt_trans a b c).
Qed.

(** ** The other callbacks *)

Module CallbackFacts.
Import Js JsFacts.

Lemma push_middle h pre c cols v :
  push (h ++ pre ++ c :: cols) (length h + length pre) v
  = Some (h ++ pre ++ (c ++ [v]) :: cols).
Proof.
  rewrite push_fresh. rewrite (list_lookup_middle pre cols c _ eq_refl).
  cbn [mbind option_bind]. f_equal. f_equal.
  rewrite insert_app_r_alt by lia. by rewrite Nat.sub_diag.
Qed.

(** One row pushed to every column of the source. *)
Lemma push_row_spec full fc h pre cols ks i :
  contents h full = Some fc → length cols = length ks →
  push_row full (zip ks (seq (length h + length pre) (length ks))) i (h ++ pre ++ cols)
  = columns ← mapM (lookup_col fc) ks;
    Some (h ++ pre ++ zip_with (λ c col, c ++ [index col i]) cols columns).
Proof.
  intros Hc. revert pre cols.
  induction ks as [|k ks IH]; intros pre [|c cols] Hl; try done.
  cbn [length seq zip zip_with push_row mapM]. injection Hl as Hl.
  unfold copy_cell.
  rewrite (contents_read (h ++ pre ++ c :: cols) full fc k) by (by apply contents_app).
  destruct (lookup_col fc k) as [col|]; [|done]. cbn [mbind option_bind].
  rewrite push_middle. cbn [mbind option_bind].
  specialize (IH (pre ++ [c ++ [index col i]]) cols Hl).
  rewrite length_app in IH. cbn [length] in IH.
  rewrite Nat.add_assoc, Nat.add_1_r, <- app_assoc in IH. cbn [app] in IH.
  rewrite IH.
  destruct (mapM (lookup_col fc) ks) as [columns|]; [|done]. cbn [mbind option_bind].
  by rewrite <- app_assoc.
Qed.

Lemma zip_with_again {A B} (f g : A → B → A) (l : list A) (k : list B) :
  zip_with f (zip_with g l k) k = zip_with (λ a b, f (g a b) b) l k.
Proof.
  revert k. induction l as [|a l IH]; intros [|b k]; simpl; try done. by rewrite IH.
Qed.

Lemma ndvi_loop_spec full fc selected h ks parcels ixs cols :
  contents h full = Some fc → length cols = length ks →
  lookup_col fc "parcelle_id" = Some parcels →
  ndvi_loop full selected (zip ks (seq (length h) (length ks))) ixs (h ++ cols)
  = match List.filter (λ i, strict_eq_str (index parcels i) selected) ixs with
    | [] => Some (h ++ cols)
    | m => columns ← mapM (lookup_col fc) ks;
           Some (h ++ zip_with (λ c col, c ++ pick col m) cols columns)
    end.
Proof.
  intros Hc Hl Hp. revert cols Hl.
  induction ixs as [|i ixs IH]; intros cols Hl; [done|].
  cbn [ndvi_loop List.filter].
  rewrite (contents_read (h ++ cols) full fc "parcelle_id") by (by apply contents_app).
  rewrite Hp. cbn [mbind option_bind].
  destruct (strict_eq_str (index parcels i) selected); [|by apply IH].
  pose proof (push_row_spec full fc h [] cols ks i Hc Hl) as Hrow.
  cbn [length app] in Hrow. rewrite Nat.add_0_r in Hrow. rewrite Hrow.
  destruct (mapM (lookup_col fc) ks) as [columns|] eqn:Hcols; [|done].
  cbn [mbind option_bind].
  assert (length columns = length ks) as Hlc.
  { clear -Hcols. revert columns Hcols. induction ks as [|k ks IH]; intros columns; simpl.
    - by intros [= <-].
    - destruct (lookup_col fc k); [|done]. simpl.
      destruct (mapM (lookup_col fc) ks); [|done]. simpl.
      intros [= <-]. simpl. f_equal. by apply IH. }
  rewrite IH by (rewrite length_zip_with; lia).
  destruct (List.filter _ ixs) as [|j m]; [done|].
  cbn [mbind option_bind]. f_equal. f_equal.
  rewrite zip_with_again. apply zip_with_ext; [|done|done].
  intros c col. unfold pick. cbn [List.map]. by rewrite <- app_assoc.
Qed.

(** The columns that a filter by parcel leaves, without sorting. *)
Lemma mapM_gather_lookup fc m ks :
  mapM (gather fc m) ks
  = match m with
    | [] => Some (List.map (λ k, (k, [])) ks)
    | _ => columns ← mapM (lookup_col fc) ks;
           Some (zip ks (List.map (λ col, pick col m) columns))
    end.
Proof.
  destruct m as [|i m].
  - induction ks as [|k ks IH]; [done|]. cbn [mapM gather]. rewrite IH. done.
  - induction ks as [|k ks IH]; [done|]. cbn [mapM]. rewrite IH.
    unfold gather. destruct (lookup_col fc k) as [col|]; [|done]. cbn [mbind option_bind].
    by destruct (mapM (lookup_col fc) ks).
Qed.

(** The NDVI callback: the columns of the source, reset and refilled with
    the rows of the selected parcel in the order of the data. *)
Lemma ndvi_callback_spec selected st fc :
  contents (arrays st) (full_data st) = Some fc →
  ndvi_callback selected st
  = parcels ← lookup_col fc "parcelle_id";
    cols ← mapM (gather fc (matching parcels selected)) (keys (source_data st));
    Some (State (arrays st ++ List.map snd cols)
            (zip (keys (source_data st))
               (seq (length (arrays st)) (length (source_data st))))
            (full_data st)).
Proof.
  intros Hc. unfold ndvi_callback. rewrite reset_entries_spec.
  rewrite (contents_read _ _ fc "parcelle_id") by (by apply contents_app).
  destruct (lookup_col fc "parcelle_id") as [parcels|] eqn:Hp; [|done].
  cbn [mbind option_bind].
  pose proof (ndvi_loop_spec (full_data st) fc selected (arrays st) (keys (source_data st))
                parcels (seq 0 (length parcels))
                (replicate (length (source_data st)) []) Hc) as Hloop.
  unfold keys in *. rewrite !length_map, length_replicate in Hloop.
  rewrite (Hloop eq_refl Hp). clear Hloop.
  fold (matching parcels selected). rewrite mapM_gather_lookup.
  destruct (matching parcels selected) as [|i m].
  - cbn [mbind option_bind]. f_equal. f_equal.
    rewrite !List.map_map. cbn [snd]. f_equal.
    clear. induction (source_data st) as [|e o IH]; [done|]. simpl. by rewrite IH.
  - destruct (mapM (lookup_col fc) (List.map fst (source_data st))) as [columns|] eqn:Hcols;
      [|done].
    cbn [mbind option_bind]. f_equal. f_equal. f_equal.
    assert (length columns = length (source_data st)) as Hl.
    { clear -Hcols. revert columns Hcols.
      induction (source_data st) as [|e o IH]; intros columns; simpl.
      - by intros [= <-].
      - destruct (lookup_col fc e.1); [|done]. simpl.
        destruct (mapM (lookup_col fc) (List.map fst o)); [|done]. simpl.
        intros [= <-]. simpl. f_equal. by apply IH. }
    revert Hl. generalize (source_data st). clear.
    induction columns as [|col columns IH]; intros [|e o]; simpl; try done.
    intros [= Hl]. by rewrite IH.
Qed.

(** *** Nothing but new arrays is written *)

Lemma push_row_agree n full o i h h' :
  Forall (λ e, n ≤ e.2) o → push_row full o i h = Some h' →
  ∀ j, j < n → h' !! j = h !! j.
Proof.
  intros Ho. revert h. induction Ho as [|[k r] o Hr Ho IH]; intros h; simpl.
  - by intros [= <-].
  - unfold copy_cell. destruct (read h full k) as [col|]; [|done]. simpl.
    destruct (push h r (index col i)) as [h1|] eqn:Hp; [|done]. simpl.
    intros H j Hj. rewrite (IH _ H j Hj). exact (push_agree n h r _ h1 Hr Hp j Hj).
Qed.

Lemma ndvi_loop_agree n full selected o ixs h h' :
  Forall (λ e, n ≤ e.2) o → ndvi_loop full selected o ixs h = Some h' →
  ∀ j, j < n → h' !! j = h !! j.
Proof.
  intros Ho. revert h. induction ixs as [|i ixs IH]; intros h; simpl.
  - by intros [= <-].
  - destruct (read h full "parcelle_id") as [parcels|]; [|done]. simpl.
    destruct (strict_eq_str (index parcels i) selected).
    + destruct (push_row full o i h) as [h1|] eqn:Hp; [|done]. simpl.
      intros H j Hj. rewrite (IH _ H j Hj). exact (push_row_agree n full o i h h1 Ho Hp j Hj).
    + simpl. apply IH.
Qed.

Lemma ndvi_callback_frame selected st st' :
  ndvi_callback selected st = Some st' →
  full_data st' = full_data st ∧ unchanged (arrays st) (arrays st').
Proof.
  unfold ndvi_callback. rewrite reset_entries_spec.
  set (h := arrays st ++ _).
  destruct (read h (full_data st) "parcelle_id") as [parcels|]; [|done]. simpl.
  destruct (ndvi_loop _ _ _ _ h) as [h'|] eqn:Hf; [|done]. simpl.
  intros [= <-]. split; [done|]. simpl.
  apply agree_unchanged. intros i Hi.
  rewrite (ndvi_loop_agree _ _ _ _ _ _ _ (zip_seq_bound _ _ _) Hf i Hi).
  subst h. by rewrite lookup_app_l.
Qed.

(** *** The prediction callback *)

Lemma push_value_spec o h l k j v :
  get o k = Some (length h + j) →
  push_value k v (o, h ++ l) = x ← l !! j; Some (o, h ++ <[j := x ++ [v]]> l).
Proof.
  intros Hg. unfold push_value. cbn [fst snd]. rewrite Hg. cbn [mbind option_bind].
  rewrite push_fresh. by destruct (l !! j).
Qed.

Lemma push_value_agree n k v o h oh' :
  (∃ r, get o k = Some r ∧ n ≤ r) → push_value k v (o, h) = Some oh' →
  oh'.1 = o ∧ ∀ j, j < n → oh'.2 !! j = h !! j.
Proof.
  intros (r & Hg & Hr). unfold push_value. cbn [fst snd]. rewrite Hg. simpl.
  destruct (push h r v) as [h'|] eqn:Hp; [|done]. simpl.
  intros [= <-]. split; [done|]. simpl. exact (push_agree n h r v h' Hr Hp).
Qed.

Section PredictionFacts.
Variable to_number : value → float.
Variable random : nat → float.

Lemma predictions_cons yields n i m :
  predictions to_number random yields n (i :: m)
  = Real (perturbed (to_number (index yields i)) (random n))
      :: predictions to_number random yields (S n) m.
Proof. done. Qed.

Lemma prediction_loop_spec data fc selected o h parcels l a b c n :
  contents h data = Some fc →
  get o "date" = Some (length h + 0) →
  get o "actual_yield" = Some (length h + 1) →
  get o "predicted_yield" = Some (length h + 2) →
  lookup_col fc "parcelle_id" = Some parcels →
  prediction_loop to_number random data selected l (o, h ++ [a; b; c], n)
  = match List.filter (λ i, strict_eq_str (index parcels i) selected) l with
    | [] => Some (o, h ++ [a; b; c], n)
    | m =>
        dates ← lookup_col fc "date";
        yields ← lookup_col fc "rendement_estime";
        Some (o, h ++ [a ++ pick dates m; b ++ pick yields m;
                       c ++ predictions to_number random yields n m],
              n + length m)
    end.
Proof.
  intros Hc Hd Ha Hp Hpar. revert a b c n.
  induction l as [|i l IH]; intros a b c n; [done|].
  cbn [prediction_loop List.filter]. unfold prediction_step. cbn [snd].
  rewrite (contents_read (h ++ [a; b; c]) data fc "parcelle_id")
    by (by apply contents_app).
  rewrite Hpar. cbn [mbind option_bind].
  destruct (strict_eq_str (index parcels i) selected); [|apply IH].
  rewrite (contents_read (h ++ [a; b; c]) data fc "date") by (by apply contents_app).
  destruct (lookup_col fc "date") as [dates|]; [|done].
  cbn [mbind option_bind].
  rewrite (push_value_spec o h _ "date" 0 _ Hd).
  cbn [mbind option_bind lookup list_lookup insert list_insert fst snd].
  rewrite (contents_read (h ++ _) data fc "rendement_estime") by (by apply contents_app).
  destruct (lookup_col fc "rendement_estime") as [yields|] eqn:Hy; [|done].
  cbn [mbind option_bind].
  rewrite (push_value_spec o h _ "actual_yield" 1 _ Ha).
  cbn [mbind option_bind lookup list_lookup insert list_insert fst snd].
  rewrite (contents_read (h ++ _) data fc "rendement_estime") by (by apply contents_app).
  rewrite Hy. cbn [mbind option_bind].
  rewrite (push_value_spec o h _ "predicted_yield" 2 _ Hp).
  cbn [mbind option_bind lookup list_lookup insert list_insert fst snd].
  rewrite IH.
  destruct (List.filter _ l) as [|j m].
  - cbn [mbind option_bind length]. by rewrite Nat.add_1_r.
  - cbn [mbind option_bind]. rewrite (predictions_cons yields n i (j :: m)).
    unfold pick. cbn [List.map length]. rewrite <- !app_assoc. cbn [app].
    do 2 f_equal. lia.
Qed.

(** The prediction callback on plain column data. *)
Lemma prediction_callback_spec selected draws st fc :
  contents (arrays st) (full_data st) = Some fc →
  prediction_callback to_number random selected draws st
  = parcels ← lookup_col fc "parcelle_id";
    x ← match matching parcels selected with
        | [] => Some ([], [], [])
        | m => dates ← lookup_col fc "date";
               yields ← lookup_col fc "rendement_estime";
               Some (pick dates m, pick yields m, predictions to_number random yields draws m)
        end;
    Some (State (arrays st ++ [x.1.1; x.1.2; x.2])
            (put (put (put (source_data st) "date" (length (arrays st)))
                    "actual_yield" (length (arrays st) + 1))
               "predicted_yield" (length (arrays st) + 2))
            (full_data st),
          draws + length (matching parcels selected)).
Proof.
  intros Hc. unfold prediction_callback, reset_key. cbn [fst snd].
  rewrite !length_app. cbn [length].
  rewrite <- !app_assoc. cbn [app].
  rewrite (contents_read _ _ fc "parcelle_id") by (by apply contents_app).
  destruct (lookup_col fc "parcelle_id") as [parcels|] eqn:Hp; [|done].
  cbn [mbind option_bind].
  rewrite <- Nat.add_assoc. cbn [Nat.add].
  rewrite (prediction_loop_spec _ fc selected _ (arrays st) parcels _ [] [] [] draws Hc);
    try done.
  - fold (matching parcels selected).
    destruct (matching parcels selected) as [|i m].
    + cbn [mbind option_bind fst snd length]. by rewrite Nat.add_0_r.
    + destruct (lookup_col fc "date") as [dates|]; [|done].
      by destruct (lookup_col fc "rendement_estime") as [yields|].
  - rewrite get_put_ne by done. rewrite get_put_ne by done.
    rewrite Nat.add_0_r. apply get_put_eq.
  - rewrite get_put_ne by done. apply get_put_eq.
  - apply get_put_eq.
Qed.

Lemma prediction_loop_agree n data selected l o h k ohn' :
  (∀ c, In c ["date"; "actual_yield"; "predicted_yield"] →
        ∃ r, get o c = Some r ∧ n ≤ r) →
  prediction_loop to_number random data selected l (o, h, k) = Some ohn' →
  ∀ j, j < n → ohn'.1.2 !! j = h !! j.
Proof.
  intros Hg. revert h k. induction l as [|i l IH]; intros h k; simpl.
  - by intros [= <-].
  - destruct (read h data "parcelle_id") as [parcels|]; [|done]. simpl.
    destruct (strict_eq_str (index parcels i) selected); [|by apply IH].
    destruct (read h data "date") as [dates|]; [|done]. simpl.
    destruct (push_value "date" _ (o, h)) as [[o1 h1]|] eqn:H1; [|done]. simpl.
    apply push_value_agree with (n := n) in H1 as [E1 A1]; [|apply Hg; simpl; auto].
    simpl in E1, A1. subst o1.
    destruct (read h1 data "rendement_estime") as [yields|]; [|done]. simpl.
    destruct (push_value "actual_yield" _ (o, h1)) as [[o2 h2]|] eqn:H2; [|done]. simpl.
    apply push_value_agree with (n := n) in H2 as [E2 A2]; [|apply Hg; simpl; auto].
    simpl in E2, A2. subst o2.
    destruct (read h2 data "rendement_estime") as [yields2|]; [|done]. simpl.
    destruct (push_value "predicted_yield" _ (o, h2)) as [[o3 h3]|] eqn:H3; [|done]. simpl.
    apply push_value_agree with (n := n) in H3 as [E3 A3]; [|apply Hg; simpl; auto].
    simpl in E3, A3. subst o3.
    intros H j Hj. rewrite (IH _ _ H j Hj). by rewrite A3, A2, A1.
Qed.

(** The prediction callback writes to new arrays only. *)
Lemma prediction_callback_frame selected draws st st' n :
  prediction_callback to_number random selected draws st = Some (st', n) →
  full_data st' = full_data st ∧ unchanged (arrays st) (arrays st').
Proof.
  unfold prediction_callback, reset_key. cbn [fst snd].
  set (o := put _ "predicted_yield" _). set (h := (_ ++ [[]]) ++ [[]]).
  destruct (read h (full_data st) "parcelle_id") as [parcels|]; [|done]. simpl.
  destruct (prediction_loop _ _ _ selected _ (o, h, draws)) as [[[o' h'] n']|] eqn:Hl;
    [|done].
  simpl. intros [= <- <-]. split; [done|]. simpl.
  assert (∀ c, In c ["date"; "actual_yield"; "predicted_yield"] →
               ∃ r, get o c = Some r ∧ length (arrays st) ≤ r) as Hg.
  { subst o. rewrite !length_app. simpl. intros c [<-|[<-|[<-|[]]]].
    - rewrite get_put_ne by done. rewrite get_put_ne by done.
      rewrite get_put_eq. eexists; split; [done|lia].
    - rewrite get_put_ne by done. rewrite get_put_eq. eexists; split; [done|lia].
    - rewrite get_put_eq. eexists; split; [done|lia]. }
  pose proof (prediction_loop_agree _ _ _ _ _ _ _ _ Hg Hl) as A. simpl in A.
  apply agree_unchanged. intros i Hi. rewrite A by done.
  subst h. by rewrite <- !app_assoc, lookup_app_l.
Qed.

End PredictionFacts.

End CallbackFacts.

(** ** The other plots of the dashboard *)

Module SeriesFacts.
Import Js JsFacts CallbackFacts Dashboard DashboardFacts.

Lemma init_ndvi_sources rs :
  init (ColumnDataSource (Frame ndvi_columns rs)) (empty_source (Frame ndvi_columns rs))
  = State [List.map (λ r, Num (label r)) rs;
           List.map (cell "parcelle_id") rs;
           List.map (cell "date") rs;
           List.map (cell "ndvi") rs;
           []; []; []]
      [("parcelle_id", 4); ("date", 5); ("ndvi", 6)]
      [("index", 0); ("parcelle_id", 1); ("date", 2); ("ndvi", 3)].
Proof. reflexivity. Qed.

(** What the NDVI callback leaves in the source of the plot: the rows of
    the parcel as they follow each other in the data. *)
Lemma ndvi_callback_rows rs selected :
  ∃ st',
    ndvi_callback selected
      (init (ColumnDataSource (Frame ndvi_columns rs))
         (empty_source (Frame ndvi_columns rs))) = Some st' ∧
    contents (arrays st') (source_data st')
    = Some (List.map (λ c, column c
              (List.filter (λ r, String.eqb (parcelle_id r) selected) rs))
              ndvi_columns).
Proof.
  rewrite init_ndvi_sources.
  set (st := State _ _ _).
  assert (contents (arrays st) (full_data st)
          = Some (ColumnDataSource (Frame ndvi_columns rs))) as Hc by reflexivity.
  pose proof (ndvi_callback_spec selected st _ Hc) as Hspec.
  destruct (matching_map (cell "parcelle_id") (λ r, String.eqb (parcelle_id r) selected)
              rs selected) as [Hm Hin]; [done|].
  change (lookup_col _ "parcelle_id") with (Some (List.map (cell "parcelle_id") rs))
    in Hspec.
  cbn [mbind option_bind] in Hspec.
  set (m := matching (List.map (cell "parcelle_id") rs) selected) in *.
  assert (mapM (gather (ColumnDataSource (Frame ndvi_columns rs)) m) (keys (source_data st))
          = Some [("parcelle_id", pick (List.map (cell "parcelle_id") rs) m);
                  ("date", pick (List.map (cell "date") rs) m);
                  ("ndvi", pick (List.map (cell "ndvi") rs) m)]) as Hg.
  { change (keys (source_data st)) with ndvi_columns.
    unfold ndvi_columns, gather. cbn [mapM].
    change (lookup_col _ "parcelle_id") with (Some (List.map (cell "parcelle_id") rs)).
    change (lookup_col _ "date") with (Some (List.map (cell "date") rs)).
    change (lookup_col _ "ndvi") with (Some (List.map (cell "ndvi") rs)).
    by destruct m. }
  rewrite Hg in Hspec. cbn [mbind option_bind] in Hspec.
  eexists. split; [exact Hspec|].
  cbn [arrays source_data]. rewrite !pick_map by done. rewrite Hm. reflexivity.
Qed.

Lemma init_prediction_sources rs :
  init (ColumnDataSource (Frame yield_columns rs)) prediction_source
  = State [List.map (λ r, Num (label r)) rs;
           List.map (cell "parcelle_id") rs;
           List.map (cell "date") rs;
           List.map (cell "rendement_estime") rs;
           []; []; []]
      [("date", 4); ("actual_yield", 5); ("predicted_yield", 6)]
      [("index", 0); ("parcelle_id", 1); ("date", 2); ("rendement_estime", 3)].
Proof. reflexivity. Qed.

Lemma predictions_rows to_number random (rs : list feature_row) n ixs :
  (∀ x, to_number (Real x) = x) →
  (∀ i, In i ixs → is_Some (rs !! i)) →
  predictions to_number random (List.map (cell "rendement_estime") rs) n ixs
  = zip_with (λ r j, Real (perturbed (rendement_estime r) (random j)))
      (omap (λ i, rs !! i) ixs) (seq n (length (omap (λ i, rs !! i) ixs))).
Proof.
  intros Hnum. revert n. induction ixs as [|i ixs IH]; intros n H; [done|].
  destruct (H i) as [x Hx]; [by left|].
  change (omap ?f (?i :: ?r)) with (match f i with Some y => y :: omap f r | None => omap f r end).
  cbn beta. rewrite Hx. rewrite predictions_cons. cbn [length seq zip_with].
  rewrite (index_map _ rs i x Hx). cbn [cell String.eqb Ascii.eqb Bool.eqb].
  rewrite Hnum. f_equal. apply IH. intros j Hj. apply H. by right.
Qed.

(** What the prediction callback leaves in its source, and the draws it
    makes. *)
Lemma prediction_callback_rows to_number random rs selected draws :
  (∀ x, to_number (Real x) = x) →
  let wanted := List.filter (λ r, String.eqb (parcelle_id r) selected) rs in
  ∃ st',
    prediction_callback to_number random selected draws
      (init (ColumnDataSource (Frame yield_columns rs)) prediction_source)
    = Some (st', draws + length wanted) ∧
    contents (arrays st') (source_data st')
    = Some [("date", List.map (cell "date") wanted);
            ("actual_yield", List.map (cell "rendement_estime") wanted);
            ("predicted_yield",
             zip_with (λ r j, Real (perturbed (rendement_estime r) (random j)))
               wanted (seq draws (length wanted)))].
Proof.
  intros Hnum wanted. rewrite init_prediction_sources.
  set (st := State _ _ _).
  assert (contents (arrays st) (full_data st)
          = Some (ColumnDataSource (Frame yield_columns rs))) as Hc by reflexivity.
  pose proof (prediction_callback_spec to_number random selected draws st _ Hc) as Hspec.
  destruct (matching_map (cell "parcelle_id") (λ r, String.eqb (parcelle_id r) selected)
              rs selected) as [Hm Hin]; [done|].
  change (lookup_col _ "parcelle_id") with (Some (List.map (cell "parcelle_id") rs))
    in Hspec.
  change (lookup_col _ "date") with (Some (List.map (cell "date") rs)) in Hspec.
  change (lookup_col _ "rendement_estime")
    with (Some (List.map (cell "rendement_estime") rs)) in Hspec.
  cbn [mbind option_bind] in Hspec.
  set (m := matching (List.map (cell "parcelle_id") rs) selected) in *.
  assert (length m = length wanted) as Hlen.
  { unfold wanted. rewrite <- Hm. clear -Hin.
    induction m as [|i m IH]; [done|].
    destruct (Hin i) as [x Hx]; [by left|].
    change (omap ?f (?i :: ?r))
      with (match f i with Some y => y :: omap f r | None => omap f r end).
    cbn beta. rewrite Hx. simpl. f_equal. apply IH. intros j Hj. apply Hin. by right. }
  assert (match m with
          | [] => Some ([], [], [])
          | i :: l => Some (pick (List.map (cell "date") rs) (i :: l),
                            pick (List.map (cell "rendement_estime") rs) (i :: l),
                            predictions to_number random
                              (List.map (cell "rendement_estime") rs) draws (i :: l))
          end
          = Some (List.map (cell "date") wanted,
                  List.map (cell "rendement_estime") wanted,
                  zip_with (λ r j, Real (perturbed (rendement_estime r) (random j)))
                    wanted (seq draws (length wanted)))) as Hx.
  { pose proof (predictions_rows to_number random rs draws m Hnum Hin) as Hp.
    unfold wanted. rewrite <- Hm, <- Hp.
    rewrite <- !(pick_map _ rs m Hin). by destruct m. }
  rewrite Hx in Hspec. cbn [mbind option_bind fst snd] in Hspec.
  rewrite Hlen in Hspec.
  eexists. split; [exact Hspec|]. reflexivity.
Qed.

(** *** The stress matrix and its callback *)

Lemma init_stress_sources (m : list StressBin) :
  init (stress_source m) (stress_source m)
  = State (List.map snd (stress_source m) ++ List.map snd (stress_source m))
      [("index", 6); ("parcelle_id", 7); ("temp_bin", 8); ("stress_bin", 9);
       ("count", 10); ("normalized_count", 11)]
      [("index", 0); ("parcelle_id", 1); ("temp_bin", 2); ("stress_bin", 3);
       ("count", 4); ("normalized_count", 5)].
Proof. reflexivity. Qed.

(** What the stress callback leaves in the source of the plot: three
    columns hold the lines of the parcel, the others the whole matrix. *)
Lemma stress_callback_rows (m : list StressBin) selected :
  let wanted := List.filter (λ b, String.eqb (bin_parcelle_id b) selected) m in
  ∃ st',
    stress_callback selected (init (stress_source m) (stress_source m)) = Some st' ∧
    contents (arrays st') (source_data st')
    = Some [("index", List.map (λ i, Num (Z.of_nat i)) (seq 0 (length m)));
            ("parcelle_id", List.map (λ b, Str (bin_parcelle_id b)) m);
            ("temp_bin", List.map (λ b, Real (bin_temp b)) wanted);
            ("stress_bin", List.map (λ b, Real (bin_stress b)) wanted);
            ("count", List.map (λ b, Num (Z.of_nat (count b))) m);
            ("normalized_count",
             List.map (λ b, Real (to_float (normalized_count b))) wanted)].
Proof.
  intros wanted. rewrite init_stress_sources.
  set (st := State _ _ _).
  assert (contents (arrays st) (full_data st) = Some (stress_source m)) as Hc
    by reflexivity.
  pose proof (stress_callback_spec selected st _ Hc) as Hspec.
  destruct (matching_map (λ b, Str (bin_parcelle_id b))
              (λ b, String.eqb (bin_parcelle_id b) selected) m selected) as [Hm Hin];
    [done|].
  unfold stress_filtered in Hspec.
  change (lookup_col _ "parcelle_id")
    with (Some (List.map (λ b, Str (bin_parcelle_id b)) m)) in Hspec.
  change (lookup_col _ "temp_bin")
    with (Some (List.map (λ b, Real (bin_temp b)) m)) in Hspec.
  change (lookup_col _ "stress_bin")
    with (Some (List.map (λ b, Real (bin_stress b)) m)) in Hspec.
  change (lookup_col _ "normalized_count")
    with (Some (List.map (λ b, Real (to_float (normalized_count b))) m)) in Hspec.
  cbn [mbind option_bind] in Hspec.
  set (ixs := matching (List.map (λ b, Str (bin_parcelle_id b)) m) selected) in *.
  assert (match ixs with
          | [] => Some ([], [], [])
          | i :: l =>
              Some (pick (List.map (λ b, Real (bin_temp b)) m) (i :: l),
                    pick (List.map (λ b, Real (bin_stress b)) m) (i :: l),
                    pick (List.map (λ b, Real (to_float (normalized_count b))) m) (i :: l))
          end
          = Some (List.map (λ b, Real (bin_temp b)) wanted,
                  List.map (λ b, Real (bin_stress b)) wanted,
                  List.map (λ b, Real (to_float (normalized_count b))) wanted)) as Hx.
  { unfold wanted. rewrite <- Hm. rewrite <- !(pick_map _ m ixs Hin). by destruct ixs. }
  rewrite Hx in Hspec. cbn [mbind option_bind fst snd] in Hspec.
  eexists. split; [exact Hspec|]. reflexivity.
Qed.

(** The three columns of the lines of a parcel. *)
Lemma stress_filtered_rows (m : list StressBin) selected :
  let wanted := List.filter (λ b, String.eqb (bin_parcelle_id b) selected) m in
  stress_filtered (stress_source m) selected
  = Some (List.map (λ b, Real (bin_temp b)) wanted,
          List.map (λ b, Real (bin_stress b)) wanted,
          List.map (λ b, Real (to_float (normalized_count b))) wanted).
Proof.
  intros wanted.
  destruct (matching_map (λ b, Str (bin_parcelle_id b))
              (λ b, String.eqb (bin_parcelle_id b) selected) m selected) as [Hm Hin];
    [done|].
  unfold stress_filtered.
  change (lookup_col _ "parcelle_id")
    with (Some (List.map (λ b, Str (bin_parcelle_id b)) m)).
  change (lookup_col _ "temp_bin")
    with (Some (List.map (λ b, Real (bin_temp b)) m)).
  change (lookup_col _ "stress_bin")
    with (Some (List.map (λ b, Real (bin_stress b)) m)).
  change (lookup_col _ "normalized_count")
    with (Some (List.map (λ b, Real (to_float (normalized_count b))) m)).
  cbn [mbind option_bind].
  set (ixs := matching (List.map (λ b, Str (bin_parcelle_id b)) m) selected) in *.
  unfold wanted. rewrite <- Hm. rewrite <- !(pick_map _ m ixs Hin). by destruct ixs.
Qed.

(** A second selection on the page of the stress matrix. *)
Lemma stress_refilter_rows (m : list StressBin) s0 s :
  let shows selected :=
    let wanted := List.filter (λ b, String.eqb (bin_parcelle_id b) selected) m in
    [("index", List.map (λ i, Num (Z.of_nat i)) (seq 0 (length m)));
     ("parcelle_id", List.map (λ b, Str (bin_parcelle_id b)) m);
     ("temp_bin", List.map (λ b, Real (bin_temp b)) wanted);
     ("stress_bin", List.map (λ b, Real (bin_stress b)) wanted);
     ("count", List.map (λ b, Num (Z.of_nat (count b))) m);
     ("normalized_count", List.map (λ b, Real (to_float (normalized_count b))) wanted)] in
  ∃ st1 st2,
    stress_callback s0 (init (stress_source m) (stress_source m)) = Some st1 ∧
    contents (arrays st1) (source_data st1) = Some (shows s0) ∧
    stress_callback s st1 = Some st2 ∧
    contents (arrays st2) (source_data st2) = Some (shows s).
Proof.
  intros shows. rewrite init_stress_sources.
  set (st := State _ _ _).
  assert (contents (arrays st) (full_data st) = Some (stress_source m)) as Hc
    by reflexivity.
  pose proof (stress_callback_spec s0 st _ Hc) as H1.
  rewrite (stress_filtered_rows m s0) in H1. cbn [mbind option_bind fst snd] in H1.
  eexists _, _. split; [exact H1|]. split; [reflexivity|].
  match type of H1 with _ = Some ?st1 =>
    assert (contents (arrays st1) (full_data st1) = Some (stress_source m)) as Hc1
      by reflexivity;
    pose proof (stress_callback_spec s st1 _ Hc1) as H2
  end.
  rewrite (stress_filtered_rows m s) in H2. cbn [mbind option_bind fst snd] in H2.
  split; [exact H2|]. reflexivity.
Qed.

Lemma rows_set_column c df : rows (set_column c df) = rows df.
Proof. unfold set_column. by destruct (has c df). Qed.

Lemma set_column_has c df : has c df = true → set_column c df = df.
Proof. unfold set_column. by intros ->. Qed.

(** The stress matrix of a feature table that has the columns it needs. *)
Lemma create_stress_matrix_ok self f :
  features_data self = Some f →
  has "temperature" f = true → has "stress_hydrique" f = true →
  has "parcelle_id" f = true →
  let f' := set_column "stress_bin" (set_column "temp_bin" f) in
  let src := stress_source (stress_matrix (rows f)) in
  create_stress_matrix self
  = (Some (StressPlot src src), Dash (data_manager self) (Some f') (data_sources self), []).
Proof.
  intros Hf Ht Hs Hp f' src. unfold create_stress_matrix. rewrite Hf, Ht, Hs.
  cbn [negb orb]. fold f'.
  assert (has "parcelle_id" f' = true) as Hp'.
  { unfold f'. rewrite !ErrorFacts.has_set_column, Hp. done. }
  rewrite Hp'. cbn [negb]. unfold f'. rewrite !rows_set_column. done.
Qed.

End SeriesFacts.

(** ** The order and the total of the stress matrix *)

Module GroupFacts.
Import Dashboard StressFacts.

Lemma sorted_impl {A} (R R' : A → A → Prop) l :
  (∀ a b, R a b → R' a b) → StronglySorted R l → StronglySorted R' l.
Proof.
  intros H. induction 1 as [|x l Hl IH Hx]; constructor; [done|].
  eapply Forall_impl; [exact Hx|]. intros y. apply H.
Qed.

Lemma compare_string a b :
  match String.compare a b with
  | Lt => String_as_OT.lt a b
  | Eq => a = b
  | Gt => String_as_OT.lt b a
  end.
Proof.
  destruct (String.compare a b) eqn:E.
  - by apply String_as_OT.cmp_eq.
  - by apply String_as_OT.cmp_lt.
  - apply String_as_OT.cmp_lt. unfold String_as_OT.cmp.
    rewrite String.compare_antisym, E. done.
Qed.

Lemma string_lt_irrefl a : ¬ String_as_OT.lt a a.
Proof. intros H. by apply (String_as_OT.lt_not_eq a a H). Qed.

Lemma string_lt_asym a b : String_as_OT.lt a b → ¬ String_as_OT.lt b a.
Proof. intros H H'. apply (string_lt_irrefl a). by apply (String_as_OT.lt_trans a b a). Qed.

Lemma key_cmp_le a b : (key_cmp a b <= 0)%Z ↔ key_lt a b ∨ a = b.
Proof.
  destruct a as [[p t] s], b as [[p' t'] s']. unfold key_cmp, key_lt. cbn [fst snd].
  pose proof (compare_string p p') as Hp.
  destruct (String.compare p p'); cbn [of_comparison].
  - subst p'. destruct (Z.compare_spec t t') as [->|Ht|Ht]; cbn [of_comparison].
    + destruct (Z.compare_spec s s') as [->|Hs|Hs]; cbn [of_comparison].
      * split; [by right|intros _; lia].
      * split; [left; right; split; [done|]; right; split; [done|lia]|intros _; lia].
      * split; [lia|]. intros [[H|[_ [H|[_ H]]]]|[= ->]]; try lia.
        by destruct (string_lt_irrefl p).
    + split; [left; right; split; [done|]; by left|intros _; lia].
    + split; [lia|]. intros [[H|[_ [H|[H _]]]]|[= ->]]; try lia.
      by destruct (string_lt_irrefl p).
  - split; [by left; left|intros _; lia].
  - split; [lia|]. intros [[H|[-> _]]|[= -> _ _]].
    + by destruct (string_lt_asym p p').
    + by destruct (string_lt_irrefl p').
    + by destruct (string_lt_irrefl p').
Qed.

Lemma key_lt_trans a b c : key_lt a b → key_lt b c → key_lt a c.
Proof.
  destruct a as [[p t] s], b as [[p' t'] s'], c as [[p'' t''] s'']. unfold key_lt.
  cbn [fst snd].
  intros [H1|[-> H1]] [H2|[-> H2]].
  - left. by apply (String_as_OT.lt_trans p p' p'').
  - by left.
  - by left.
  - right. split; [done|]. lia.
Qed.

Lemma key_lt_total a b : key_lt a b ∨ a = b ∨ key_lt b a.
Proof.
  destruct a as [[p t] s], b as [[p' t'] s']. unfold key_lt. cbn [fst snd].
  pose proof (compare_string p p') as Hp.
  destruct (String.compare p p'); [subst p'| by left; left | by right; right; left].
  destruct (Z.lt_total t t') as [H|[->|H]].
  - left. right. split; [done|]. by left.
  - destruct (Z.lt_total s s') as [H|[->|H]].
    + left. right. split; [done|]. right. done.
    + right. by left.
    + right. right. right. split; [done|]. right. done.
  - right. right. right. split; [done|]. by left.
Qed.

Lemma key_cmp_total a b : (0 < key_cmp a b)%Z → (key_cmp b a <= 0)%Z.
Proof.
  intros H. apply key_cmp_le.
  destruct (key_lt_total a b) as [Hl|[->|Hl]]; [|by right|by left].
  assert (key_cmp a b <= 0)%Z by (apply key_cmp_le; by left). lia.
Qed.

Lemma key_cmp_trans a b c :
  (key_cmp a b <= 0)%Z → (key_cmp b c <= 0)%Z → (key_cmp a c <= 0)%Z.
Proof.
  rewrite !key_cmp_le. intros [H1| ->] [H2| ->]; auto.
  left. by apply (key_lt_trans a b c).
Qed.

(** The keys of the groups come in strictly increasing order. *)
Lemma group_keys_sorted rs :
  StronglySorted key_lt (sort_by key_cmp (drop_duplicates key_eqb (omap group_key rs))).
Proof.
  eapply sorted_impl; [|apply sorted_strict;
    [apply (sort_by_sorted_order key_cmp key_cmp_total key_cmp_trans)|]].
  - intros a b [H Hne]. apply key_cmp_le in H as [H|H]; [done|by destruct Hne].
  - apply group_keys_NoDup.
Qed.

(** *** Every row with bins is counted once *)

Lemma count_once (ks : list key) k0 :
  NoDup ks → In k0 ks →
  foldr Nat.add 0 (List.map (λ k, if key_eqb k k0 then 1 else 0) ks) = 1.
Proof.
  induction 1 as [|k ks Hk Hn IH]; [done|]. intros Hin. cbn [List.map foldr].
  destruct (key_eqb k k0) eqn:E.
  - apply key_eqb_eq in E as ->.
    assert (foldr Nat.add 0 (List.map (λ k, if key_eqb k k0 then 1 else 0) ks) = 0) as ->;
      [|done].
    clear -Hk. induction ks as [|k ks IH]; [done|]. cbn [List.map foldr].
    destruct (key_eqb k k0) eqn:E.
    + apply key_eqb_eq in E as ->. destruct Hk. by left.
    + rewrite IH; [done|]. intros H. apply Hk. by right.
  - destruct Hin as [->|Hin].
    + assert (key_eqb k0 k0 = true) by (by apply key_eqb_eq). congruence.
    + by rewrite IH.
Qed.

Lemma group_total (ks : list key) rs :
  NoDup ks →
  (∀ r k, In r rs → group_key r = Some k → In k ks) →
  foldr Nat.add 0 (List.map (λ k, length (List.filter (in_group k) rs)) ks)
  = length (List.filter binned rs).
Proof.
  intros Hn. induction rs as [|r rs IH]; intros Hin.
  - cbn [List.filter length]. clear. induction ks as [|k ks IH]; [done|]. done.
  - assert (foldr Nat.add 0
              (List.map (λ k, length (List.filter (in_group k) (r :: rs))) ks)
            = foldr Nat.add 0 (List.map (λ k, if in_group k r then 1 else 0) ks)
              + foldr Nat.add 0
                  (List.map (λ k, length (List.filter (in_group k) rs)) ks)) as ->.
    { clear. induction ks as [|k ks IH]; [done|]. cbn [List.map foldr].
      rewrite IH. cbn [List.filter]. destruct (in_group k r); cbn [length]; lia. }
    rewrite IH by (intros r' k Hr; apply Hin; by right).
    cbn [List.filter]. unfold binned at 2.
    destruct (group_key r) as [k0|] eqn:Hk.
    + cbn [length].
      assert (List.map (λ k, if in_group k r then 1 else 0) ks
              = List.map (λ k, if key_eqb k k0 then 1 else 0) ks) as ->.
      { apply map_ext. intros k. unfold in_group. by rewrite Hk. }
      by rewrite (count_once ks k0 Hn (Hin r k0 (or_introl eq_refl) Hk)).
    + assert (foldr Nat.add 0 (List.map (λ k, if in_group k r then 1 else 0) ks) = 0) as ->;
        [|done].
      clear -Hk. induction ks as [|k ks IH]; [done|]. cbn [List.map foldr].
      unfold in_group at 1. by rewrite Hk.
Qed.

Lemma group_sizes_total rs :
  foldr Nat.add 0 (List.map snd (group_sizes rs)) = length (List.filter binned rs).
Proof.
  rewrite <- (group_total (sort_by key_cmp (drop_duplicates key_eqb (omap group_key rs))) rs).
  - unfold group_sizes.
    generalize (sort_by key_cmp (drop_duplicates key_eqb (omap group_key rs))).
    intros ks. induction ks as [|k ks IH]; [done|].
    change (omap ?f (k :: ks))
      with (match f k with Some y => y :: omap f ks | None => omap f ks end).
    cbn beta. cbn [List.map foldr].
    destruct (List.filter (in_group k) rs) as [|r g]; cbn [List.map foldr snd length];
      by rewrite IH.
  - apply group_keys_NoDup.
  - intros r k Hr Hk. apply sort_by_In.
    apply (proj2 (drop_duplicates_In _ key_eqb_eq _ _)). apply omap_In. by exists r.
Qed.

End GroupFacts.

(** ** Duplicates by key *)

Section FirstOfKey.
Context {A K : Type} (f : A → K) (same : A → A → bool) (keqb : K → K → bool).
Hypothesis same_key : ∀ a b, same a b = keqb (f a) (f b).
Hypothesis keqb_eq : ∀ a b, keqb a b = true ↔ a = b.

Lemma drop_duplicates_keys l :
  List.map f (drop_duplicates same l) = drop_duplicates keqb (List.map f l).
Proof. apply (drop_duplicates_from_map f same keqb [] l same_key). Qed.

Lemma drop_duplicates_keys_NoDup l : NoDup (List.map f (drop_duplicates same l)).
Proof. rewrite drop_duplicates_keys. apply (drop_duplicates_NoDup keqb keqb_eq). Qed.

Lemma drop_duplicates_keys_In l k :
  In k (List.map f (drop_duplicates same l)) ↔ In k (List.map f l).
Proof. rewrite drop_duplicates_keys. apply (drop_duplicates_In keqb keqb_eq). Qed.

Lemma existsb_same_keys x seen :
  existsb (same x) seen = existsb (keqb (f x)) (List.map f seen).
Proof. induction seen as [|s seen IH]; simpl; [done|]. by rewrite same_key, IH. Qed.

(** The row kept for a key is the first row of the list with that key. *)
Lemma find_drop_duplicates_from seen l k :
  List.find (λ y, keqb (f y) k) (drop_duplicates_from same seen l)
  = if existsb (keqb k) (List.map f seen) then None
    else List.find (λ y, keqb (f y) k) l.
Proof.
  revert seen. induction l as [|y l IH]; intros seen; cbn [drop_duplicates_from List.find].
  - by destruct (existsb _ _).
  - rewrite existsb_same_keys.
    destruct (existsb (keqb (f y)) (List.map f seen)) eqn:Ey.
    + rewrite IH. destruct (existsb (keqb k) (List.map f seen)) eqn:Ek; [done|].
      destruct (keqb (f y) k) eqn:E; [|done].
      apply keqb_eq in E. rewrite E in Ey. congruence.
    + cbn [List.find]. destruct (keqb (f y) k) eqn:E.
      * apply keqb_eq in E. rewrite <- E, Ey. done.
      * rewrite IH. cbn [List.map existsb].
        destruct (keqb k (f y)) eqn:E'; [|done].
        apply keqb_eq in E'. subst k.
        assert (keqb (f y) (f y) = true) by (by apply keqb_eq). congruence.
Qed.

Lemma find_drop_duplicates l k :
  List.find (λ y, keqb (f y) k) (drop_duplicates same l)
  = List.find (λ y, keqb (f y) k) l.
Proof. apply (find_drop_duplicates_from [] l k). Qed.

Lemma find_unique l x :
  NoDup (List.map f l) → In x l → List.find (λ y, keqb (f y) (f x)) l = Some x.
Proof.
  induction l as [|y l IH]; [done|]. cbn [List.map List.find].
  intros Hn Hin. apply NoDup_cons in Hn as [Hy Hn].
  destruct (keqb (f y) (f x)) eqn:E.
  - apply keqb_eq in E. destruct Hin as [->|Hin]; [done|].
    destruct Hy. rewrite E. apply list_elem_of_In. by apply in_map.
  - destruct Hin as [->|Hin]; [|by apply IH].
    assert (keqb (f x) (f x) = true) by (by apply keqb_eq). congruence.
Qed.

(** Every row kept is the first of the list with its key. *)
Lemma drop_duplicates_first l x :
  In x (drop_duplicates same l) → List.find (λ y, keqb (f y) (f x)) l = Some x.
Proof.
  intros H. rewrite <- find_drop_duplicates.
  apply find_unique; [apply drop_duplicates_keys_NoDup|done].
Qed.
End FirstOfKey.

(** ** The parcels offered for selection *)

Module OptionFacts.
Import Py Dashboard.

Lemma sorted_unique_spec ids :
  StronglySorted String_as_OT.lt (sorted_unique ids) ∧
  NoDup (sorted_unique ids) ∧
  ∀ x, In x (sorted_unique ids) ↔ In x ids.
Proof.
  unfold sorted_unique.
  assert (NoDup (sort_by string_cmp (drop_duplicates String.eqb ids))) as Hn.
  { rewrite sort_by_perm. apply (drop_duplicates_NoDup _ String.eqb_eq). }
  split; [|split; [done|]].
  - eapply GroupFacts.sorted_impl; [|apply sorted_strict;
      [apply (sort_by_sorted_order string_cmp string_cmp_total string_cmp_trans)|done]].
    intros a b [H Hne]. apply string_cmp_le in H as [H|H]; [done|by destruct Hne].
  - intros x. rewrite sort_by_In. apply (drop_duplicates_In _ String.eqb_eq).
Qed.

End OptionFacts.

(** ** The popup of a parcel *)

Module YieldPopupFacts.
Import Py AgriculturalMap.

Lemma sorted_map {A B} (g : A → B) (R : B → B → Prop) l :
  StronglySorted (λ a b, R (g a) (g b)) l → StronglySorted R (List.map g l).
Proof.
  induction 1 as [|x l Hl IH Hx]; simpl; constructor; [done|].
  apply List.Forall_forall. intros y Hy. apply in_map_iff in Hy as (z & <- & Hz).
  rewrite List.Forall_forall in Hx. by apply Hx.
Qed.

Lemma sorted_strict_key {A} (key : A → Z) l :
  StronglySorted (λ a b, key a <= key b)%Z l → NoDup (List.map key l) →
  StronglySorted (λ a b, key a < key b)%Z l.
Proof.
  induction 1 as [|x l Hl IH Hx]; intros Hn; [constructor|].
  cbn [List.map] in Hn. apply NoDup_cons in Hn as [Hx' Hn]. constructor; [by apply IH|].
  apply List.Forall_forall. intros y Hy. rewrite List.Forall_forall in Hx.
  specialize (Hx y Hy).
  assert (key x ≠ key y); [|lia].
  intros E. apply Hx'. rewrite E. apply list_elem_of_In. by apply in_map.
Qed.

(** The rows behind the yields of a popup: one per date, the first of the
    history with that date, in the order of the dates. *)
Lemma unique_history_spec (rs : list feature_row) :
  let unique := sort_by (λ a b, date a - date b)%Z
                  (drop_duplicates (λ a b, Z.eqb (date a) (date b)) rs) in
  StronglySorted Z.lt (List.map date unique) ∧
  (∀ d, In d (List.map date unique) ↔ In d (List.map date rs)) ∧
  (∀ r, In r unique → List.find (λ y, Z.eqb (date y) (date r)) rs = Some r).
Proof.
  intros unique.
  pose proof (sort_by_perm (λ a b, date a - date b)%Z
                (drop_duplicates (λ a b, Z.eqb (date a) (date b)) rs)) as Hp.
  fold unique in Hp.
  assert (NoDup (List.map date unique)) as Hn.
  { change (List.map date unique) with (date <$> unique). rewrite Hp.
    apply (drop_duplicates_keys_NoDup date _ Z.eqb); [done|apply Z.eqb_eq]. }
  split; [|split].
  - apply sorted_map. apply sorted_strict_key; [apply sort_by_sorted|done].
  - intros d.
    rewrite <- (drop_duplicates_keys_In date (λ a b, Z.eqb (date a) (date b)) Z.eqb
                  (λ a b, eq_refl) Z.eqb_eq rs d).
    split; intros H; apply in_map_iff in H as (r & <- & Hr); apply in_map.
    + by apply (Permutation_in _ Hp).
    + by apply (Permutation_in _ (Permutation_sym Hp)).
  - intros r Hr. apply (Permutation_in _ Hp) in Hr.
    apply (drop_duplicates_first date _ Z.eqb (λ a b, eq_refl) Z.eqb_eq rs r Hr).
Qed.

End YieldPopupFacts.

(** ** The trend in binary64 *)

Module Binary64Facts.
Import Py Binary64.





Local Open Scope Q_scope.



Local Close Scope Q_scope.

End Binary64Facts.

(** ** The points of the heat map *)

Module HeatFacts.
Import AgriculturalMap.

Lemma lookup_zip_with_seq {A B} (g : A → nat → B) (l : list A) n i x :
  l !! i = Some x → zip_with g l (seq n (length l)) !! i = Some (g x (n + i)).
Proof.
  revert n i. induction l as [|a l IH]; intros n [|i]; simpl; try done.
  - intros [= ->]. by rewrite Nat.add_0_r.
  - intros H. rewrite (IH (S n) i H). do 2 f_equal. lia.
Qed.

(** The [i]-th point of the heat map comes from the [i]-th row left by
    [dropna]: its coordinates moved by the draws [i] and [n + i], its risk
    rescaled between the least and the greatest risk. *)
Lemma heat_data_lookup jitter risk features i r :
  let data := dropna (merge risk features) in
  let risks := List.map m_avg_risk_index data in
  data !! i = Some r →
  heat_data jitter risk features !! i
  = Some (PrimFloat.add (m_latitude r) (jitter i),
          PrimFloat.add (m_longitude r) (jitter (length data + i)),
          normalized_risk (F64.min_list risks) (F64.max_list risks) (m_avg_risk_index r)).
Proof.
  intros data risks Hi. unfold heat_data. fold data. fold risks.
  rewrite lookup_zip_with.
  rewrite lookup_zip_with.
  rewrite (lookup_zip_with_seq _ data 0 i r Hi).
  rewrite (lookup_zip_with_seq _ data (length data) i r Hi).
  cbn [mbind option_bind Nat.add].
  unfold risks. change (List.map m_avg_risk_index data) with (m_avg_risk_index <$> data).
  rewrite list_lookup_fmap, Hi. done.
Qed.

Lemma heat_data_length jitter risk features :
  length (heat_data jitter risk features) = length (dropna (merge risk features)).
Proof.
  unfold heat_data. rewrite !length_zip_with, length_map, !length_seq. lia.
Qed.

(** The weights do not depend on the draws. *)
Lemma heat_data_weights j1 j2 risk features :
  List.map snd (heat_data j1 risk features) = List.map snd (heat_data j2 risk features).
Proof.
  apply list_eq. intros i.
  change (List.map snd ?l) with (snd <$> l). rewrite !list_lookup_fmap.
  destruct (dropna (merge risk features) !! i) as [r|] eqn:Hi.
  - by rewrite !(heat_data_lookup _ risk features i r Hi).
  - assert (∀ j, heat_data j risk features !! i = None) as Hn.
    { intros j. apply lookup_ge_None. rewrite heat_data_length. by apply lookup_ge_None. }
    by rewrite !Hn.
Qed.

(** With risks that are numbers, a metric gives one point for each located
    feature row of its parcel, and none when the parcel has no such row. *)
Lemma dropna_merge risk features :
  Forall (λ r, F64.is_nan (avg_risk_index r) = false) risk →
  dropna (merge risk features)
  = concat (List.map (λ r,
      List.map (λ f, Merged (latitude f) (longitude f) (avg_risk_index r))
        (List.filter (λ f, String.eqb (parcelle_id f) (risk_parcelle_id r) && located f)
           features)) risk).
Proof.
  induction 1 as [|r risk Hr _ IH]; [done|].
  change (merge (r :: risk) features)
    with (match List.filter (λ f, String.eqb (parcelle_id f) (risk_parcelle_id r)) features
          with
          | [] => [Merged PrimFloat.nan PrimFloat.nan (avg_risk_index r)]
          | fs => List.map (λ f, Merged (latitude f) (longitude f) (avg_risk_index r)) fs
          end ++ merge risk features).
  unfold dropna in *. rewrite List.filter_app, IH. cbn [List.map concat]. f_equal.
  clear IH.
  assert (∀ fs,
    List.filter (λ m, negb (F64.is_nan (m_latitude m) || F64.is_nan (m_longitude m)
                            || F64.is_nan (m_avg_risk_index m)))
      (List.map (λ f, Merged (latitude f) (longitude f) (avg_risk_index r)) fs)
    = List.map (λ f, Merged (latitude f) (longitude f) (avg_risk_index r))
        (List.filter located fs)) as Hfs.
  { induction fs as [|f fs IHf]; [done|]. cbn [List.map List.filter m_latitude m_longitude
      m_avg_risk_index]. rewrite Hr, orb_false_r. unfold located at 1.
    destruct (negb _); cbn [List.map]; by rewrite IHf. }
  assert (List.filter (λ f, String.eqb (parcelle_id f) (risk_parcelle_id r) && located f)
            features
          = List.filter located
              (List.filter (λ f, String.eqb (parcelle_id f) (risk_parcelle_id r)) features))
    as ->.
  { induction features as [|f fs IHf]; [done|]. cbn [List.filter].
    destruct (String.eqb _ _); cbn [andb List.filter]; [|done].
    destruct (located f); by rewrite IHf. }
  destruct (List.filter (λ f, String.eqb (parcelle_id f) (risk_parcelle_id r)) features)
    as [|f fs] eqn:E.
  - reflexivity.
  - exact (Hfs (f :: fs)).
Qed.

Lemma length_concat_map {A B} (g : A → list B) (l : list A) :
  length (concat (List.map g l)) = foldr Nat.add 0 (List.map (λ a, length (g a)) l).
Proof. induction l as [|a l IH]; [done|]. cbn [List.map concat foldr]. by rewrite length_app, IH. Qed.

End HeatFacts.

(** ** The trend at the edges *)

Module TrendEdgeFacts.
Import Py AgriculturalMap TrendFacts.

Lemma guard_passes (rows : list yield_record) :
  2 ≤ nunique (List.map yh_rendement_estime rows) →
  Nat.eqb (length rows) 0 || Nat.ltb (nunique (List.map yh_rendement_estime rows)) 2 = false.
Proof.
  intros Hu. apply orb_false_iff. split.
  - apply Nat.eqb_neq. intros E. apply nunique_nil_guard in Hu.
    apply Hu. destruct rows; [done|]. simpl in E. lia.
  - apply Nat.ltb_ge. lia.
Qed.

(** A date column that does not hold time stamps: the [.dt] accessor
    raises, and the handler answers with the zero trend. *)
Lemma calculate_yield_trend_not_dates s r t parcelle :
  s !! r = Some t →
  let rows := List.filter (λ x, String.eqb (yh_parcelle_id x) parcelle) t in
  2 ≤ nunique (List.map yh_rendement_estime rows) →
  Forall (λ x, dt_year (yh_date x) = None) t →
  ∃ s',
    calculate_yield_trend (Some r) parcelle s
    = (zero_trend, s',
       [Report ("Error calculating yield trend for parcelle " ++ parcelle ++ ": ")
          (AttributeError "Can only use .dt accessor with datetimelike values")]).
Proof.
  intros Hr rows Hu Hd. unfold calculate_yield_trend.
  rewrite (calculate_yield_trend_body_spec r parcelle s t Hr). cbv zeta. fold rows.
  rewrite (guard_passes rows Hu).
  assert (mapM dt_year (List.map yh_date rows) = None) as ->; [|by eexists].
  apply nunique_nil_guard in Hu.
  destruct rows as [|x rows'] eqn:E; [done|].
  assert (In x t) as Hx.
  { assert (In x rows) as Hin by (subst rows; rewrite E; by left).
    by apply filter_In in Hin as [Hin _]. }
  rewrite List.Forall_forall in Hd. cbn [List.map mapM]. by rewrite (Hd x Hx).
Qed.

Lemma drop_duplicates_from_all {A} (same : A → A → bool) x l :
  Forall (λ z, same z x = true) l → drop_duplicates_from same [x] l = [].
Proof.
  induction 1 as [|z l Hz _ IH]; [done|]. cbn [drop_duplicates_from existsb].
  by rewrite Hz.
Qed.

Lemma mapM_dt_year_const (rows : list yield_record) y0 :
  Forall (λ x, dt_year (yh_date x) = Some y0) rows →
  mapM dt_year (List.map yh_date rows) = Some (List.map (λ _, y0) rows).
Proof.
  induction 1 as [|x rows Hx _ IH]; [done|]. cbn [List.map mapM]. by rewrite Hx, IH.
Qed.

Lemma zip_with_set_date_const (rows : list yield_record) y0 :
  zip_with set_date rows (List.map (λ _, y0) rows) = List.map (λ x, set_date x y0) rows.
Proof. induction rows as [|x rows IH]; [done|]. cbn [List.map zip_with]. by rewrite IH. Qed.

(** The regression through one point: the coefficient of least norm is 0
    and the line passes through the point. *)
Lemma fit_one_point x v :
  ((LinearRegression_fit [x] [v]).1 == 0 ∧ (LinearRegression_fit [x] [v]).2 == v)%Q.
Proof.
  unfold LinearRegression_fit. cbn [fst snd List.map].
  assert (dot (centered [inject_Z x]) (centered [inject_Z x]) == 0)%Q as H.
  { unfold dot, centered, mean, sum. cbn [List.map zip_with foldr length].
    change (inject_Z (Z.of_nat 1)) with 1%Q. field. }
  apply Qeq_bool_iff in H. rewrite H. split; [reflexivity|].
  unfold mean, sum. cbn [foldr length]. change (inject_Z (Z.of_nat 1)) with 1%Q. field.
Qed.

(** All the records of the parcel in one calendar year, with at least two
    yields: the regression runs on the first record alone. *)
Lemma calculate_yield_trend_one_year s r t parcelle y0 first rest :
  s !! r = Some t →
  List.filter (λ x, String.eqb (yh_parcelle_id x) parcelle) t = first :: rest →
  Forall (λ x, dt_year (yh_date x) = Some y0) (first :: rest) →
  2 ≤ nunique (List.map yh_rendement_estime (first :: rest)) →
  ∃ trend s',
    calculate_yield_trend (Some r) parcelle s = (trend, s', []) ∧
    (slope trend == 0)%Q ∧
    (intercept trend == yh_rendement_estime first)%Q ∧
    (variation_moyenne trend == 0)%Q.
Proof.
  intros Hr Hrows Hy Hu. unfold calculate_yield_trend.
  rewrite (calculate_yield_trend_body_spec r parcelle s t Hr). cbv zeta.
  rewrite Hrows, (guard_passes _ Hu), (mapM_dt_year_const _ y0 Hy).
  rewrite zip_with_set_date_const.
  assert (drop_duplicates same_date (List.map (λ x, set_date x y0) (first :: rest))
          = [set_date first y0]) as ->.
  { unfold drop_duplicates. cbn [List.map drop_duplicates_from existsb]. f_equal.
    apply drop_duplicates_from_all. apply List.Forall_forall. intros z Hz.
    apply in_map_iff in Hz as (x & <- & _). unfold same_date, set_date. cbn.
    apply Z.eqb_refl. }
  change (sort_values [set_date first y0]) with [set_date first y0].
  cbn [List.map mapM set_date yh_date yh_rendement_estime numeric mbind option_bind
       mret option_ret fmap option_map].
  destruct (fit_one_point y0 (yh_rendement_estime first)) as [H1 H2].
  eexists _, _. split; [reflexivity|]. cbn [slope intercept variation_moyenne].
  split; [exact H1|]. split; [exact H2|].
  destruct (negb _); [|reflexivity]. rewrite H1. unfold Qdiv. ring.
Qed.

End TrendEdgeFacts.

(** ** Preparation of the series and of the popup *)

Module PreparationFacts.
Import Py.

Lemma select_ok cols df :
  (∀ c, In c cols → Dashboard.has c df = true) →
  Dashboard.select cols df = inr (Dashboard.Frame cols (Dashboard.rows df)).
Proof.
  intros H. unfold Dashboard.select.
  destruct (List.find _ cols) as [c|] eqn:Hf; [|done].
  apply find_some in Hf as [Hin Hc]. by rewrite (H c Hin) in Hc.
Qed.

(** The sources that [create_data_sources] builds from a feature table
    with the columns of both series. *)
Lemma create_data_sources_ok dm f :
  Dashboard.load_data dm = None →
  Dashboard.prepare_features dm = inr f →
  (∀ c, In c (Dashboard.yield_columns ++ Dashboard.ndvi_columns) →
        Dashboard.has c f = true) →
  let yd := Dashboard.Frame Dashboard.yield_columns
              (List.filter (λ r, negb (F64.is_nan (Dashboard.rendement_estime r)))
                 (Dashboard.rows f)) in
  let nd := Dashboard.Frame Dashboard.ndvi_columns
              (List.filter (λ r, negb (F64.is_nan (Dashboard.ndvi r))) (Dashboard.rows f)) in
  Dashboard.create_data_sources (Dashboard.new dm)
  = (Dashboard.Dash dm (Some f)
       (Some (Dashboard.Sources (Dashboard.ColumnDataSource yd)
                (Dashboard.ColumnDataSource nd)
                (Dashboard.empty_source yd) (Dashboard.empty_source nd))),
     [Printed "Data sources successfully prepared."]).
Proof.
  intros Hl Hp Hc yd nd.
  unfold Dashboard.create_data_sources, Dashboard.create_data_sources_body.
  cbn [Dashboard.new Dashboard.data_manager Dashboard.data_sources]. rewrite Hl, Hp.
  unfold Dashboard.yield_data, Dashboard.ndvi_data.
  rewrite !select_ok; [done| |].
  - intros c Hin. apply Hc. apply in_or_app. by right.
  - intros c Hin. apply Hc. apply in_or_app. by left.
Qed.

Lemma create_yield_popup_ok history mean_yield trend first rest :
  AgriculturalMap.rows history = first :: rest →
  AgriculturalMap.has "parcelle_id" history = true →
  AgriculturalMap.has "date" history = true →
  AgriculturalMap.has "rendement_estime" history = true →
  AgriculturalMap.create_yield_popup history mean_yield trend
  = (AgriculturalMap.YieldPopup (AgriculturalMap.parcelle_id first) mean_yield trend
       (AgriculturalMap.format_recent_crops history).1
       (List.map (λ r, (AgriculturalMap.date r, AgriculturalMap.rendement_estime r))
          (sort_by (λ a b, AgriculturalMap.date a - AgriculturalMap.date b)%Z
             (drop_duplicates
                (λ a b, Z.eqb (AgriculturalMap.date a) (AgriculturalMap.date b))
                (AgriculturalMap.rows history)))),
     (AgriculturalMap.format_recent_crops history).2).
Proof.
  intros Hr Hp Hd Hy. unfold AgriculturalMap.create_yield_popup.
  assert (AgriculturalMap.empty history = false) as ->.
  { unfold AgriculturalMap.empty, AgriculturalMap.has in *. rewrite Hr.
    destruct (AgriculturalMap.columns history); done. }
  destruct (AgriculturalMap.format_recent_crops history) as [crops out].
  cbn [List.find]. rewrite Hp, Hd, Hy. cbn [negb]. by rewrite Hr.
Qed.

End PreparationFacts.

(** ** The properties of the specification *)

(** C1: for every full yield dataset and every selected parcel, the
    callback of the yield history plot succeeds and leaves in the plotted
    source the three columns of the dataset, holding exactly the rows of the
    selected parcel, sorted by ascending date; when no row has the selected
    parcel the three columns are there and empty.  Dates are time stamps
    that JavaScript's [Date] accepts. *)
Theorem yield_history_filter (rs : list Dashboard.feature_row) (selected : string) :
  Forall (λ r, Z.abs (Dashboard.date r) <= Js.max_time)%Z rs →
  let full := Dashboard.Frame Dashboard.yield_columns rs in
  let wanted := List.filter (λ r, String.eqb (Dashboard.parcelle_id r) selected) rs in
  let kept := sort_by (λ a b, Dashboard.date a - Dashboard.date b)%Z wanted in
  ∃ st',
    Js.yield_callback selected
      (Js.init (Dashboard.ColumnDataSource full) (Dashboard.empty_source full)) = Some st' ∧
    Js.contents (Js.arrays st') (Js.source_data st')
    = Some (List.map (λ c, Dashboard.column c kept) Dashboard.yield_columns) ∧
    kept ≡ₚ wanted ∧
    (∀ r, In r kept ↔ In r rs ∧ Dashboard.parcelle_id r = selected) ∧
    StronglySorted (λ a b, Dashboard.date a <= Dashboard.date b)%Z kept ∧
    ((∀ r, In r rs → Dashboard.parcelle_id r ≠ selected) →
     Js.contents (Js.arrays st') (Js.source_data st') = Some (Dashboard.empty_source full)).
Proof.
  intros Hv full wanted kept.
  destruct (DashboardFacts.yield_callback_rows rs selected Hv) as (st' & Hcb & Hc).
  exists st'. fold wanted kept in Hc.
  split; [exact Hcb|]. split; [exact Hc|].
  split; [apply sort_by_perm|]. split; [|split].
  - intros r. unfold kept. rewrite sort_by_In. unfold wanted.
    rewrite filter_In, String.eqb_eq. done.
  - apply (sort_by_sorted Dashboard.date).
  - intros Hno. rewrite Hc.
    assert (wanted = []) as Hw.
    { unfold wanted. destruct (List.filter _ rs) as [|r l] eqn:Hf; [done|].
      assert (In r (List.filter (λ r, String.eqb (Dashboard.parcelle_id r) selected) rs))
        as Hr by (rewrite Hf; by left).
      apply filter_In in Hr as [Hr He]. apply String.eqb_eq in He.
      by destruct (Hno r Hr). }
    unfold kept. by rewrite Hw.
Qed.

Lemma yield_history_filter_witness :
  let row l p d := Dashboard.FeatureRow l p d 5 0 0 0 in
  let rs := [row 0 "A" 3; row 1 "B" 9; row 2 "A" 1; row 3 "A" 2]%Z in
  let full := Dashboard.Frame Dashboard.yield_columns rs in
  ∃ st',
    Js.yield_callback "A"
      (Js.init (Dashboard.ColumnDataSource full) (Dashboard.empty_source full)) = Some st' ∧
    Js.contents (Js.arrays st') (Js.source_data st')
    = Some [("parcelle_id", [Js.Str "A"; Js.Str "A"; Js.Str "A"]);
            ("date", [Js.Num 1; Js.Num 2; Js.Num 3]);
            ("rendement_estime", [Js.Real 5; Js.Real 5; Js.Real 5])].
Proof.
  intros row rs full.
  destruct (yield_history_filter rs "A") as (st' & H1 & H2 & _).
  - repeat constructor; vm_compute; discriminate.
  - exists st'. split; [exact H1|exact H2].
Defined.




(** C3 (what the code does): a parcel with two records in one calendar
    year and different yields passes the guard, the regression runs on the
    single point left after deduplication, and the trend has intercept 5,
    not 0. *)
Theorem single_year_trend_is_not_zero :
  let t := [AgriculturalMap.YieldRecord "P1" (AgriculturalMap.Timestamp 2020 3 1) 5;
            AgriculturalMap.YieldRecord "P1" (AgriculturalMap.Timestamp 2020 9 1) 6] in
  let trend := (AgriculturalMap.calculate_yield_trend (Some 0) "P1" [t]).1.1 in
  (AgriculturalMap.slope trend == 0)%Q ∧
  (AgriculturalMap.intercept trend == 5)%Q ∧
  (AgriculturalMap.variation_moyenne trend == 0)%Q ∧
  ¬ (AgriculturalMap.intercept trend == 0)%Q ∧
  (AgriculturalMap.calculate_yield_trend (Some 0) "P1" [t]).2 = [].
Proof.
  cbv zeta. repeat split; try (vm_compute; reflexivity).
  vm_compute. discriminate.
Qed.






(** C6 (what the code does): when all risk indices are equal the weights
    are 0.1 + 0/0 * 0.9, that is NaN, for every point. *)
Theorem equal_risks_give_nan_weights :
  let features := [AgriculturalMap.FeatureRow "P1" 2021 "wheat" 33.5 (-7.5) 5;
                   AgriculturalMap.FeatureRow "P2" 2021 "corn" 33.6 (-7.6) 6]%float in
  let risk := [AgriculturalMap.Risk "P1" 0.5; AgriculturalMap.Risk "P2" 0.5]%float in
  let data := AgriculturalMap.heat_data (λ _, 0.00005%float) risk features in
  length data = 2 ∧
  Forall (λ p, F64.is_nan p.2 = true ∧ PrimFloat.eqb p.2 0.1 = false) data.
Proof. cbv zeta. split; [reflexivity|]. repeat constructor. Qed.

(** C7: after a change of selection the plotted source holds the rows of
    the new selection and nothing of the earlier one.  On the page of the
    yield history, whatever was selected before, the callback succeeds and
    leaves the three columns of the rows of the selected parcel, by date;
    on the page of the stress matrix it succeeds and leaves, in the
    columns [temp_bin], [stress_bin] and [normalized_count], the lines of
    the selected parcel, the other columns holding the whole matrix as
    before.  Selecting one parcel twice therefore shows what selecting it
    once shows.  On any page whose references are valid, a run after an
    earlier run leaves what the full data and the new selection alone
    determine. *)
Theorem refilter_replaces :
  (∀ rs s0 s,
     Forall (λ r, Z.abs (Dashboard.date r) <= Js.max_time)%Z rs →
     let full := Dashboard.Frame Dashboard.yield_columns rs in
     let kept selected :=
       sort_by (λ a b, Dashboard.date a - Dashboard.date b)%Z
         (List.filter (λ r, String.eqb (Dashboard.parcelle_id r) selected) rs) in
     ∃ st1 st2,
       Js.yield_callback s0
         (Js.init (Dashboard.ColumnDataSource full) (Dashboard.empty_source full))
       = Some st1 ∧
       Js.contents (Js.arrays st1) (Js.source_data st1)
       = Some (List.map (λ c, Dashboard.column c (kept s0)) Dashboard.yield_columns) ∧
       Js.yield_callback s st1 = Some st2 ∧
       Js.contents (Js.arrays st2) (Js.source_data st2)
       = Some (List.map (λ c, Dashboard.column c (kept s)) Dashboard.yield_columns))
  ∧ (∀ m s0 s,
       let shows selected :=
         let wanted :=
           List.filter (λ b, String.eqb (Dashboard.bin_parcelle_id b) selected) m in
         [("index", List.map (λ i, Js.Num (Z.of_nat i)) (seq 0 (length m)));
          ("parcelle_id", List.map (λ b, Js.Str (Dashboard.bin_parcelle_id b)) m);
          ("temp_bin", List.map (λ b, Js.Real (Dashboard.bin_temp b)) wanted);
          ("stress_bin", List.map (λ b, Js.Real (Dashboard.bin_stress b)) wanted);
          ("count", List.map (λ b, Js.Num (Z.of_nat (Dashboard.count b))) m);
          ("normalized_count",
           List.map (λ b, Js.Real (Dashboard.to_float (Dashboard.normalized_count b)))
             wanted)] in
       ∃ st1 st2,
         Js.stress_callback s0
           (Js.init (Dashboard.stress_source m) (Dashboard.stress_source m)) = Some st1 ∧
         Js.contents (Js.arrays st1) (Js.source_data st1) = Some (shows s0) ∧
         Js.stress_callback s st1 = Some st2 ∧
         Js.contents (Js.arrays st2) (Js.source_data st2) = Some (shows s))
  ∧ (∀ st fc s0 s st1 cols,
       Js.contents (Js.arrays st) (Js.full_data st) = Some fc →
       Js.yield_callback s0 st = Some st1 →
       Js.filtered_columns fc (Js.keys (Js.source_data st)) s = Some cols →
       ∃ st2, Js.yield_callback s st1 = Some st2 ∧
              Js.contents (Js.arrays st2) (Js.source_data st2) = Some cols)
  ∧ (∀ st fc d s0 s st1 t b n,
       Js.contents (Js.arrays st) (Js.full_data st) = Some fc →
       Js.contents (Js.arrays st) (Js.source_data st) = Some d →
       Js.stress_callback s0 st = Some st1 →
       Js.stress_filtered fc s = Some (t, b, n) →
       ∃ st2, Js.stress_callback s st1 = Some st2 ∧
              ∀ k, Js.shown st2 k
                   = if String.eqb k "temp_bin" then Some t
                     else if String.eqb k "stress_bin" then Some b
                     else if String.eqb k "normalized_count" then Some n
                     else Js.lookup_col d k).
Proof.
  split; [exact DashboardFacts.yield_refilter_rows|].
  split; [exact SeriesFacts.stress_refilter_rows|].
  split; [exact JsFacts.yield_callback_replaces|].
  exact JsFacts.stress_callback_replaces.
Qed.

Lemma refilter_replaces_witness :
  (let row l p d := Dashboard.FeatureRow l p d 5 0 0 0 in
   let rs := [row 0%Z "A" 3%Z; row 1%Z "B" 9%Z; row 2%Z "A" 1%Z] in
   let full := Dashboard.Frame Dashboard.yield_columns rs in
   ∃ st1 st2,
     Js.yield_callback "B"
       (Js.init (Dashboard.ColumnDataSource full) (Dashboard.empty_source full))
     = Some st1 ∧
     Js.yield_callback "A" st1 = Some st2 ∧
     Js.contents (Js.arrays st2) (Js.source_data st2)
     = Some [("parcelle_id", [Js.Str "A"; Js.Str "A"]);
             ("date", [Js.Num 1; Js.Num 3]);
             ("rendement_estime", [Js.Real 5; Js.Real 5])])
  ∧ (let m := [Dashboard.Bin "A" 20 0.2 1 (1 # 2); Dashboard.Bin "B" 20 0.2 2 1;
               Dashboard.Bin "B" 25 0.4 1 (1 # 2)] in
     ∃ st1 st2,
       Js.stress_callback "B"
         (Js.init (Dashboard.stress_source m) (Dashboard.stress_source m)) = Some st1 ∧
       Js.stress_callback "A" st1 = Some st2 ∧
       Js.shown st2 "temp_bin" = Some [Js.Real 20] ∧
       Js.shown st2 "normalized_count" = Some [Js.Real 0.5] ∧
       Js.shown st2 "parcelle_id" = Some [Js.Str "A"; Js.Str "B"; Js.Str "B"]).
Proof.
  split.
  - intros row rs full.
    destruct (proj1 refilter_replaces rs "B" "A") as (st1 & st2 & H1 & _ & H2 & Hc).
    + repeat constructor; vm_compute; discriminate.
    + exists st1, st2. split; [exact H1|]. split; [exact H2|exact Hc].
  - intros m.
    destruct (proj1 (proj2 refilter_replaces) m "B" "A") as (st1 & st2 & H1 & _ & H2 & Hc).
    exists st1, st2. split; [exact H1|]. split; [exact H2|].
    unfold Js.shown. rewrite !(JsFacts.contents_read _ _ _ _ Hc).
    repeat split; reflexivity.
Defined.

(** C8: when a required column or table is absent, or when the data
    manager raises, each operation returns its default and prints one
    diagnostic that carries the exception.  Series preparation leaves the
    sources unset; the stress matrix is no plot; the base map, the yield
    history layer, the NDVI layer and the risk heat map leave the map
    object as it was (the yield history layer after the header and the
    first rows of the table, which it prints before it checks the
    columns); the trend without a yield history table is the zero trend.
    In each case the exception is the argument of the diagnostic of the
    operation's own [except Exception] handler, under which its whole
    body runs, and the operation returns. *)
Theorem missing_input_is_reported :
  (* series preparation *)
  (∀ dm e,
     Dashboard.load_data dm = Some e
     ∨ (Dashboard.load_data dm = None ∧ Dashboard.prepare_features dm = inl e) →
     Dashboard.create_data_sources (Dashboard.new dm)
     = (Dashboard.new dm, [Py.Report "Error preparing data sources: " e]))
  ∧ (∀ dm f c,
     Dashboard.load_data dm = None →
     Dashboard.prepare_features dm = inr f →
     In c (Dashboard.yield_columns ++ Dashboard.ndvi_columns) →
     Dashboard.has c f = false →
     ∃ e, Dashboard.create_data_sources (Dashboard.new dm)
          = (Dashboard.Dash dm (Some f) None,
             [Py.Report "Error preparing data sources: " e]))
  (* the stress matrix *)
  ∧ (∀ self f c,
       Dashboard.features_data self = Some f →
       In c ["temperature"; "stress_hydrique"; "parcelle_id"] →
       Dashboard.has c f = false →
       ∃ self' ev,
         Dashboard.create_stress_matrix self = (None, self', [ev]) ∧
         Dashboard.data_sources self' = Dashboard.data_sources self)
  ∧ (∀ self,
       Dashboard.features_data self = None →
       ∃ e, Dashboard.create_stress_matrix self
            = (None, self,
               [Py.Report "Erreur lors de la création de la matrice de stress : " e]))
  (* the base map *)
  ∧ (∀ folium_Map self e,
       AgriculturalMap.load_data (AgriculturalMap.data_manager self) = Some e
       ∨ (AgriculturalMap.load_data (AgriculturalMap.data_manager self) = None ∧
          AgriculturalMap.prepare_features (AgriculturalMap.data_manager self) = inl e) →
       AgriculturalMap.create_base_map folium_Map self
       = (self, [Py.Report "Erreur lors de la création de la carte de base : " e]))
  ∧ (∀ folium_Map self f c,
       AgriculturalMap.load_data (AgriculturalMap.data_manager self) = None →
       AgriculturalMap.prepare_features (AgriculturalMap.data_manager self) = inr f →
       In c ["latitude"; "longitude"] →
       AgriculturalMap.has c f = false →
       ∃ c', AgriculturalMap.create_base_map folium_Map self
             = (self, [Py.Report "Erreur lors de la création de la carte de base : "
                         (Py.KeyError c')])
             ∧ In c' ["latitude"; "longitude"] ∧ AgriculturalMap.has c' f = false)
  (* the yield history layer *)
  ∧ (∀ self s,
       AgriculturalMap.map self = None →
       AgriculturalMap.add_yield_history_layer self s
       = (self, s, [Py.Report "Error adding yield history layer: "
                      (Py.ValueError "Base map not initialized. Call create_base_map first.")]))
  ∧ (∀ self s layers e,
       AgriculturalMap.map self = Some layers →
       AgriculturalMap.prepare_features (AgriculturalMap.data_manager self) = inl e →
       AgriculturalMap.add_yield_history_layer self s
       = (self, s, [Py.Report "Error adding yield history layer: " e]))
  ∧ (∀ self s layers f c,
       AgriculturalMap.map self = Some layers →
       AgriculturalMap.prepare_features (AgriculturalMap.data_manager self) = inr f →
       In c AgriculturalMap.required_columns →
       AgriculturalMap.has c f = false →
       ∃ c', AgriculturalMap.add_yield_history_layer self s
             = (self, s,
                [Py.Printed "Features DataFrame (first rows):";
                 Py.Head (AgriculturalMap.columns f)
                   (Nat.min 5 (length (AgriculturalMap.rows f)));
                 Py.Report "Error adding yield history layer: "
                   (Py.KeyError ("Missing required column: " ++ c'))])
             ∧ In c' AgriculturalMap.required_columns ∧ AgriculturalMap.has c' f = false)
  (* the NDVI layer *)
  ∧ (∀ markers self,
       AgriculturalMap.map self = None →
       AgriculturalMap.add_current_ndvi_layer markers self
       = (self, [Py.Report "Error adding current NDVI layer: "
                   (Py.ValueError "Base map not initialized. Call create_base_map first.")]))
  ∧ (∀ markers self layers e,
       AgriculturalMap.map self = Some layers →
       AgriculturalMap.prepare_features (AgriculturalMap.data_manager self) = inl e →
       AgriculturalMap.add_current_ndvi_layer markers self
       = (self, [Py.Report "Error adding current NDVI layer: " e]))
  ∧ (∀ markers self layers f c,
       AgriculturalMap.map self = Some layers →
       AgriculturalMap.prepare_features (AgriculturalMap.data_manager self) = inr f →
       In c AgriculturalMap.ndvi_required_columns →
       AgriculturalMap.has c f = false →
       ∃ c', AgriculturalMap.add_current_ndvi_layer markers self
             = (self, [Py.Report "Error adding current NDVI layer: "
                         (Py.KeyError ("Missing required column: " ++ c'))])
             ∧ In c' AgriculturalMap.ndvi_required_columns
             ∧ AgriculturalMap.has c' f = false)
  (* the risk heat map *)
  ∧ (∀ jitter heat_map not_in_index self,
       AgriculturalMap.map self = None →
       ∃ e, AgriculturalMap.add_risk_heatmap jitter heat_map not_in_index self
            = (self, [Py.Report "Erreur lors de l'ajout de la carte de chaleur des risques : "
                        e]))
  ∧ (∀ jitter heat_map not_in_index self layers e,
       AgriculturalMap.map self = Some layers →
       AgriculturalMap.prepare_features (AgriculturalMap.data_manager self) = inl e
       ∨ (∃ f, AgriculturalMap.prepare_features (AgriculturalMap.data_manager self) = inr f ∧
               AgriculturalMap.calculate_risk_metrics (AgriculturalMap.data_manager self)
                 (AgriculturalMap.rename_columns f) = inl e) →
       AgriculturalMap.add_risk_heatmap jitter heat_map not_in_index self
       = (self, [Py.Report "Erreur lors de l'ajout de la carte de chaleur des risques : "
                   e]))
  ∧ (∀ jitter heat_map not_in_index self layers f,
       AgriculturalMap.map self = Some layers →
       AgriculturalMap.prepare_features (AgriculturalMap.data_manager self) = inr f →
       AgriculturalMap.calculate_risk_metrics (AgriculturalMap.data_manager self)
         (AgriculturalMap.rename_columns f) = inr None →
       ∃ e, AgriculturalMap.add_risk_heatmap jitter heat_map not_in_index self
            = (self, [Py.Report "Erreur lors de l'ajout de la carte de chaleur des risques : "
                        e]))
  ∧ (∀ jitter heat_map not_in_index self layers f risk,
       AgriculturalMap.map self = Some layers →
       AgriculturalMap.prepare_features (AgriculturalMap.data_manager self) = inr f →
       AgriculturalMap.calculate_risk_metrics (AgriculturalMap.data_manager self)
         (AgriculturalMap.rename_columns f) = inr (Some risk) →
       (∃ c, In c ["parcelle_id"; "latitude"; "longitude"] ∧
             AgriculturalMap.has c (AgriculturalMap.rename_columns f) = false)
       ∨ (∃ c, In c ["parcelle_id"; "avg_risk_index"] ∧
               existsb (String.eqb c) (AgriculturalMap.risk_columns risk) = false) →
       ∃ e, AgriculturalMap.add_risk_heatmap jitter heat_map not_in_index self
            = (self, [Py.Report "Erreur lors de l'ajout de la carte de chaleur des risques : "
                        e]))
  (* the trend *)
  ∧ (∀ parcelle s,
       ∃ e, AgriculturalMap.calculate_yield_trend None parcelle s
            = (AgriculturalMap.zero_trend, s,
               [Py.Report ("Error calculating yield trend for parcelle " ++ parcelle ++ ": ")
                  e])).
Proof.
  split; [exact ErrorFacts.create_data_sources_raised|].
  split; [exact ErrorFacts.create_data_sources_missing|].
  split; [exact ErrorFacts.create_stress_matrix_missing|].
  split.
  { intros self H. unfold Dashboard.create_stress_matrix. rewrite H. by eexists. }
  split; [exact ErrorFacts.create_base_map_raised|].
  split; [exact ErrorFacts.create_base_map_missing|].
  split.
  { intros self s H. unfold AgriculturalMap.add_yield_history_layer. by rewrite H. }
  split.
  { intros self s layers e Hm Hp. unfold AgriculturalMap.add_yield_history_layer.
    by rewrite Hm, Hp. }
  split; [exact ErrorFacts.add_yield_history_layer_missing|].
  split.
  { intros markers self H. unfold AgriculturalMap.add_current_ndvi_layer. by rewrite H. }
  split.
  { intros markers self layers e Hm Hp. unfold AgriculturalMap.add_current_ndvi_layer.
    by rewrite Hm, Hp. }
  split; [exact ErrorFacts.add_current_ndvi_layer_missing|].
  split.
  { intros jitter heat_map not_in_index self H. unfold AgriculturalMap.add_risk_heatmap.
    rewrite H. by eexists. }
  split.
  { intros jitter heat_map not_in_index self layers e Hm [Hp|(f & Hp & Hr)];
      unfold AgriculturalMap.add_risk_heatmap; rewrite Hm, Hp; [done|by rewrite Hr]. }
  split.
  { intros jitter heat_map not_in_index self layers f Hm Hp Hr.
    unfold AgriculturalMap.add_risk_heatmap. rewrite Hm, Hp, Hr. by eexists. }
  split; [exact ErrorFacts.add_risk_heatmap_missing|].
  intros parcelle s. by eexists.
Qed.

Lemma missing_input_is_reported_witness :
  (let f := Dashboard.Frame ["parcelle_id"; "date"; "ndvi"] [] in
   let dm := Dashboard.Manager None (inr f) None in
   ∃ e, Dashboard.create_data_sources (Dashboard.new dm)
        = (Dashboard.Dash dm (Some f) None, [Py.Report "Error preparing data sources: " e]))
  ∧ (let f := AgriculturalMap.Frame ["parcelle_id"; "latitude"; "longitude"; "date"]
                [AgriculturalMap.FeatureRow "P1" 0 "corn" 46 7 5] in
     let dm := AgriculturalMap.Manager None (inr f) None (λ _, inr None) in
     let self := AgriculturalMap.Self dm (Some []) (λ _, inr "#ff0000"%string) in
     AgriculturalMap.add_yield_history_layer self []
     = (self, [],
        [Py.Printed "Features DataFrame (first rows):";
         Py.Head ["parcelle_id"; "latitude"; "longitude"; "date"] 1;
         Py.Report "Error adding yield history layer: "
           (Py.KeyError "Missing required column: rendement_estime")])).
Proof.
  split.
  - intros f dm.
    apply (proj1 (proj2 missing_input_is_reported) dm f "rendement_estime").
    + reflexivity.
    + reflexivity.
    + simpl. auto.
    + reflexivity.
  - intros f dm self.
    destruct (proj1 (proj2 (proj2 (proj2 (proj2 (proj2 (proj2 (proj2 (proj2
                missing_input_is_reported))))))))
                self [] [] f "rendement_estime") as (c & H & Hc & Hh).
    + reflexivity.
    + reflexivity.
    + simpl. auto.
    + reflexivity.
    + rewrite H. do 4 f_equal.
      destruct Hc as [<-|[<-|[<-|[<-|[<-|[]]]]]]; try discriminate Hh. reflexivity.
Defined.

(** C9: the recent crops are printed with the whole date cell, a time
    stamp, and not with its year.  The history (2021-07-15, wheat),
    (2022-07-15, corn) gives "2022-07-15 00:00:00: corn" and then
    "2021-07-15 00:00:00: wheat", which is not the list "2022: corn",
    "2021: wheat"; and one crop seen on two days of 2022 has two lines.
    What holds of every history with rows and with the columns [culture]
    and [date] is the order: one line for each distinct pair of crop and
    date, by descending date, every row of the history having its line. *)
Theorem recent_crops_show_time_stamps :
  (let history :=
     AgriculturalMap.Frame ["parcelle_id"; "date"; "culture"]
       [AgriculturalMap.FeatureRow "P1" (AgriculturalMap.day 2021 7 15) "wheat" 0 0 0;
        AgriculturalMap.FeatureRow "P1" (AgriculturalMap.day 2022 7 15) "corn" 0 0 0] in
   AgriculturalMap.format_recent_crops history
   = (["2022-07-15 00:00:00: corn"; "2021-07-15 00:00:00: wheat"], [])
   ∧ AgriculturalMap.format_recent_crops history ≠ (["2022: corn"; "2021: wheat"], []))
  ∧ AgriculturalMap.format_recent_crops
      (AgriculturalMap.Frame ["parcelle_id"; "date"; "culture"]
         [AgriculturalMap.FeatureRow "P1" (AgriculturalMap.day 2022 3 1) "corn" 0 0 0;
          AgriculturalMap.FeatureRow "P1" (AgriculturalMap.day 2022 7 15) "corn" 0 0 0])
    = (["2022-07-15 00:00:00: corn"; "2022-03-01 00:00:00: corn"], [])
  ∧ (∀ x, AgriculturalMap.crop_line x
          = (AgriculturalMap.str_timestamp (AgriculturalMap.date x) ++ ": "
             ++ AgriculturalMap.culture x)%string)
  ∧ (∀ history,
       AgriculturalMap.empty history = false →
       AgriculturalMap.has "culture" history = true →
       AgriculturalMap.has "date" history = true →
       ∃ entries,
         AgriculturalMap.format_recent_crops history
         = (List.map AgriculturalMap.crop_line entries, []) ∧
         entries ≡ₚ drop_duplicates AgriculturalMap.same_crop (AgriculturalMap.rows history) ∧
         StronglySorted (λ a b, AgriculturalMap.date b <= AgriculturalMap.date a)%Z entries ∧
         ∀ r, In r (AgriculturalMap.rows history) →
              In (AgriculturalMap.crop_line r) (List.map AgriculturalMap.crop_line entries)).
Proof.
  split; [split; [reflexivity|discriminate]|].
  split; [reflexivity|]. split; [reflexivity|].
  exact PopupFacts.format_recent_crops_spec.
Qed.

Lemma recent_crops_show_time_stamps_witness :
  let history :=
    AgriculturalMap.Frame ["parcelle_id"; "date"; "culture"]
      [AgriculturalMap.FeatureRow "P1" (AgriculturalMap.day 2021 7 15) "wheat" 0 0 0;
       AgriculturalMap.FeatureRow "P1" (AgriculturalMap.day 2023 8 1) "rye" 0 0 0;
       AgriculturalMap.FeatureRow "P1" (AgriculturalMap.day 2021 7 15) "wheat" 0 0 0] in
  ∃ entries,
    AgriculturalMap.format_recent_crops history
    = (List.map AgriculturalMap.crop_line entries, []) ∧
    StronglySorted (λ a b, AgriculturalMap.date b <= AgriculturalMap.date a)%Z entries.
Proof.
  intros history.
  destruct (proj2 (proj2 (proj2 recent_crops_show_time_stamps)) history)
    as (entries & H & _ & Hs & _).
  - reflexivity.
  - reflexivity.
  - reflexivity.
  - exists entries. split; [exact H|exact Hs].
Defined.

(** C10: the callbacks of the yield history and of the stress matrix leave
    the object of the full source and every array that existed before the
    call as they were: they write to new arrays only.  The trend estimator
    leaves every table of the store, the yield history of the manager
    included, as it was, so that a second call returns the same trend. *)
Theorem upstream_data_unchanged :
  (∀ selected st st',
     Js.yield_callback selected st = Some st' →
     Js.full_data st' = Js.full_data st ∧ Js.unchanged (Js.arrays st) (Js.arrays st'))
  ∧ (∀ selected st st',
       Js.stress_callback selected st = Some st' →
       Js.full_data st' = Js.full_data st ∧ Js.unchanged (Js.arrays st) (Js.arrays st'))
  ∧ (∀ yield_history parcelle s r t,
       s !! r = Some t →
       (AgriculturalMap.calculate_yield_trend yield_history parcelle s).1.2 !! r = Some t)
  ∧ (∀ r parcelle s t,
       s !! r = Some t →
       let s' := (AgriculturalMap.calculate_yield_trend (Some r) parcelle s).1.2 in
       (AgriculturalMap.calculate_yield_trend (Some r) parcelle s').1.1
       = (AgriculturalMap.calculate_yield_trend (Some r) parcelle s).1.1).
Proof.
  split; [exact JsFacts.yield_callback_frame|].
  split; [exact JsFacts.stress_callback_frame|].
  split; [exact TrendFacts.calculate_yield_trend_unchanged|].
  intros r parcelle s t Hr s'.
  assert (s' !! r = Some t) as Hr'
    by (by apply TrendFacts.calculate_yield_trend_unchanged).
  unfold AgriculturalMap.calculate_yield_trend.
  rewrite (TrendFacts.calculate_yield_trend_body_spec r parcelle s' t Hr').
  rewrite (TrendFacts.calculate_yield_trend_body_spec r parcelle s t Hr).
  cbv zeta.
  repeat match goal with
         | |- context [if ?b then _ else _] => destruct b
         | |- context [match ?o with Some _ => _ | None => _ end] => destruct o
         end; reflexivity.
Qed.

Lemma upstream_data_unchanged_witness :
  let t := [AgriculturalMap.YieldRecord "P1" (AgriculturalMap.Timestamp 2020 7 15) 5;
            AgriculturalMap.YieldRecord "P1" (AgriculturalMap.Timestamp 2021 7 15) 8] in
  (AgriculturalMap.calculate_yield_trend (Some 0) "P1" [t]).1.2 !! 0 = Some t.
Proof.
  intros t.
  apply (proj1 (proj2 (proj2 upstream_data_unchanged)) (Some 0) "P1" [t] 0 t).
  reflexivity.
Defined.

(** ** Further properties of the code *)

(** X1: the callback of the NDVI plot succeeds on every NDVI dataset and
    leaves in the plotted source the three columns of the dataset, holding
    the rows of the selected parcel in the order in which the dataset has
    them: unlike the yield history, this series is not sorted by date. *)
Theorem ndvi_plot_filter (rs : list Dashboard.feature_row) (selected : string) :
  let full := Dashboard.Frame Dashboard.ndvi_columns rs in
  let kept := List.filter (λ r, String.eqb (Dashboard.parcelle_id r) selected) rs in
  ∃ st',
    Js.ndvi_callback selected
      (Js.init (Dashboard.ColumnDataSource full) (Dashboard.empty_source full)) = Some st' ∧
    Js.contents (Js.arrays st') (Js.source_data st')
    = Some (List.map (λ c, Dashboard.column c kept) Dashboard.ndvi_columns).
Proof. exact (SeriesFacts.ndvi_callback_rows rs selected). Qed.

(** X2: the callback of the prediction plot shows, for the rows of the
    selected parcel in the order of the dataset, the date, the yield as it
    is, and the yield times [1 + 0.05 * (u - 0.5)] where [u] is a fresh
    draw for each row; it makes as many draws as the parcel has rows.
    Yield cells are numbers, which [to_number] returns as they are. *)
Theorem prediction_plot_filter (to_number : Js.value → float) (random : nat → float)
    (rs : list Dashboard.feature_row) (selected : string) (draws : nat) :
  (∀ x, to_number (Js.Real x) = x) →
  let full := Dashboard.Frame Dashboard.yield_columns rs in
  let kept := List.filter (λ r, String.eqb (Dashboard.parcelle_id r) selected) rs in
  ∃ st',
    Js.prediction_callback to_number random selected draws
      (Js.init (Dashboard.ColumnDataSource full) Dashboard.prediction_source)
    = Some (st', draws + length kept) ∧
    Js.contents (Js.arrays st') (Js.source_data st')
    = Some [("date", List.map (Dashboard.cell "date") kept);
            ("actual_yield", List.map (Dashboard.cell "rendement_estime") kept);
            ("predicted_yield",
             zip_with (λ r j, Js.Real (Js.perturbed (Dashboard.rendement_estime r) (random j)))
               kept (seq draws (length kept)))].
Proof. exact (SeriesFacts.prediction_callback_rows to_number random rs selected draws). Qed.

Lemma prediction_plot_filter_witness :
  let to_number v := match v with Js.Real x => x | _ => PrimFloat.nan end in
  let row l p d y := Dashboard.FeatureRow l p d y 0 0 0 in
  let rs := [row 0%Z "A" 3%Z 4%float; row 1%Z "B" 9%Z 6%float;
             row 2%Z "A" 1%Z 8%float] in
  ∃ st',
    Js.prediction_callback to_number (λ _, 0.5%float) "A" 7
      (Js.init (Dashboard.ColumnDataSource (Dashboard.Frame Dashboard.yield_columns rs))
         Dashboard.prediction_source)
    = Some (st', 9) ∧
    Js.contents (Js.arrays st') (Js.source_data st')
    = Some [("date", [Js.Num 3; Js.Num 1]);
            ("actual_yield", [Js.Real 4; Js.Real 8]);
            ("predicted_yield", [Js.Real 4; Js.Real 8])].
Proof.
  intros to_number row rs.
  destruct (prediction_plot_filter to_number (λ _, 0.5%float) rs "A" 7) as (st' & H1 & H2).
  - reflexivity.
  - exists st'. split; [exact H1|exact H2].
Defined.

(** X3: when loading and feature preparation succeed and the feature
    table has the columns of both series, [create_data_sources] stores the
    table and the four sources and prints its success message; selecting a
    parcel then shows, in the yield history, the rows of the table with
    that parcel and a yield that is not NaN, sorted by date, and in the
    NDVI plot the rows with that parcel and an NDVI that is not NaN, in
    the order of the table. *)
Theorem series_after_preparation (dm : Dashboard.DataManager) (f : Dashboard.DataFrame) :
  Dashboard.load_data dm = None →
  Dashboard.prepare_features dm = inr f →
  (∀ c, In c (Dashboard.yield_columns ++ Dashboard.ndvi_columns) →
        Dashboard.has c f = true) →
  Forall (λ r, Z.abs (Dashboard.date r) <= Js.max_time)%Z (Dashboard.rows f) →
  ∃ src,
    Dashboard.create_data_sources (Dashboard.new dm)
    = (Dashboard.Dash dm (Some f) (Some src),
       [Py.Printed "Data sources successfully prepared."]) ∧
    (∀ selected,
       let kept :=
         sort_by (λ a b, Dashboard.date a - Dashboard.date b)%Z
           (List.filter (λ r, String.eqb (Dashboard.parcelle_id r) selected
                              && negb (F64.is_nan (Dashboard.rendement_estime r)))
              (Dashboard.rows f)) in
       ∃ st',
         Js.yield_callback selected
           (Js.init (Dashboard.full_yield_source src) (Dashboard.yield_source src))
         = Some st' ∧
         Js.contents (Js.arrays st') (Js.source_data st')
         = Some (List.map (λ c, Dashboard.column c kept) Dashboard.yield_columns)) ∧
    (∀ selected,
       let kept :=
         List.filter (λ r, String.eqb (Dashboard.parcelle_id r) selected
                           && negb (F64.is_nan (Dashboard.ndvi r)))
           (Dashboard.rows f) in
       ∃ st',
         Js.ndvi_callback selected
           (Js.init (Dashboard.full_ndvi_source src) (Dashboard.ndvi_source src))
         = Some st' ∧
         Js.contents (Js.arrays st') (Js.source_data st')
         = Some (List.map (λ c, Dashboard.column c kept) Dashboard.ndvi_columns)).
Proof.
  intros Hl Hp Hc Hv.
  assert (∀ (p q : Dashboard.feature_row → bool) l,
            List.filter p (List.filter q l) = List.filter (λ r, p r && q r) l) as Hff.
  { intros p q l. induction l as [|r l IH]; [done|]. cbn [List.filter].
    destruct (q r); cbn [List.filter]; rewrite ?andb_true_r, ?andb_false_r;
      destruct (p r); by rewrite IH. }
  eexists. split; [exact (PreparationFacts.create_data_sources_ok dm f Hl Hp Hc)|].
  cbn [Dashboard.full_yield_source Dashboard.yield_source
       Dashboard.full_ndvi_source Dashboard.ndvi_source]. split.
  - intros selected.
    destruct (DashboardFacts.yield_callback_rows
                (List.filter (λ r, negb (F64.is_nan (Dashboard.rendement_estime r)))
                   (Dashboard.rows f)) selected) as (st' & H1 & H2).
    { rewrite List.Forall_forall in *. intros r Hr. apply Hv.
      by apply filter_In in Hr as [Hr _]. }
    exists st'. split; [exact H1|]. rewrite H2, Hff. done.
  - intros selected.
    destruct (SeriesFacts.ndvi_callback_rows
                (List.filter (λ r, negb (F64.is_nan (Dashboard.ndvi r))) (Dashboard.rows f))
                selected) as (st' & H1 & H2).
    exists st'. split; [exact H1|]. rewrite H2, Hff. done.
Qed.

Lemma series_after_preparation_witness :
  let f := Dashboard.Frame ["parcelle_id"; "date"; "rendement_estime"; "ndvi"]
             [Dashboard.FeatureRow 0 "A" 30 5 0.5 0 0;
              Dashboard.FeatureRow 1 "A" 10 PrimFloat.nan 0.4 0 0;
              Dashboard.FeatureRow 2 "A" 20 7 PrimFloat.nan 0 0] in
  let dm := Dashboard.Manager None (inr f) None in
  ∃ src st1 st2,
    Dashboard.create_data_sources (Dashboard.new dm)
    = (Dashboard.Dash dm (Some f) (Some src),
       [Py.Printed "Data sources successfully prepared."]) ∧
    Js.yield_callback "A"
      (Js.init (Dashboard.full_yield_source src) (Dashboard.yield_source src)) = Some st1 ∧
    Js.shown st1 "date" = Some [Js.Num 20; Js.Num 30] ∧
    Js.ndvi_callback "A"
      (Js.init (Dashboard.full_ndvi_source src) (Dashboard.ndvi_source src)) = Some st2 ∧
    Js.shown st2 "date" = Some [Js.Num 30; Js.Num 10].
Proof.
  intros f dm.
  destruct (series_after_preparation dm f) as (src & H & Hy & Hn).
  - reflexivity.
  - reflexivity.
  - intros c Hc. simpl in Hc.
    repeat (destruct Hc as [<-|Hc]; [reflexivity|]). destruct Hc.
  - repeat constructor; vm_compute; discriminate.
  - destruct (Hy "A") as (st1 & Hy1 & Hy2). destruct (Hn "A") as (st2 & Hn1 & Hn2).
    exists src, st1, st2. split; [exact H|]. split; [exact Hy1|].
    split; [|split; [exact Hn1|]].
    + unfold Js.shown. rewrite (JsFacts.contents_read _ _ _ "date" Hy2). reflexivity.
    + unfold Js.shown. rewrite (JsFacts.contents_read _ _ _ "date" Hn2). reflexivity.
Defined.

(** X4: the sort of the yield history is stable: among the rows of the
    selected parcel that carry one and the same date, the plot keeps the
    order of the dataset. *)
Theorem yield_history_equal_dates_keep_order (rs : list Dashboard.feature_row)
    (selected : string) :
  Forall (λ r, Z.abs (Dashboard.date r) <= Js.max_time)%Z rs →
  let full := Dashboard.Frame Dashboard.yield_columns rs in
  let wanted := List.filter (λ r, String.eqb (Dashboard.parcelle_id r) selected) rs in
  ∃ st' kept,
    Js.yield_callback selected
      (Js.init (Dashboard.ColumnDataSource full) (Dashboard.empty_source full)) = Some st' ∧
    Js.contents (Js.arrays st') (Js.source_data st')
    = Some (List.map (λ c, Dashboard.column c kept) Dashboard.yield_columns) ∧
    ∀ d, List.filter (λ r, Z.eqb (Dashboard.date r) d) kept
         = List.filter (λ r, Z.eqb (Dashboard.date r) d) wanted.
Proof.
  intros Hv full wanted.
  destruct (DashboardFacts.yield_callback_rows rs selected Hv) as (st' & H1 & H2).
  eexists st', _. split; [exact H1|]. split; [exact H2|].
  intros d. apply (sort_by_filter_key Dashboard.date).
Qed.

Lemma yield_history_equal_dates_keep_order_witness :
  let row l y := Dashboard.FeatureRow l "A" 5 y 0 0 0 in
  let rs := [row 0%Z 3%float; row 1%Z 1%float; row 2%Z 2%float] in
  ∃ st' kept,
    Js.yield_callback "A"
      (Js.init (Dashboard.ColumnDataSource (Dashboard.Frame Dashboard.yield_columns rs))
         (Dashboard.empty_source (Dashboard.Frame Dashboard.yield_columns rs))) = Some st' ∧
    Js.contents (Js.arrays st') (Js.source_data st')
    = Some (List.map (λ c, Dashboard.column c kept) Dashboard.yield_columns) ∧
    List.filter (λ r, Z.eqb (Dashboard.date r) 5) kept = rs.
Proof.
  intros row rs.
  destruct (yield_history_equal_dates_keep_order rs "A") as (st' & kept & H1 & H2 & H3).
  - repeat constructor; vm_compute; discriminate.
  - exists st', kept. split; [exact H1|]. split; [exact H2|]. exact (H3 5%Z).
Defined.

(** X5: for a feature table with the columns [temperature],
    [stress_hydrique] and [parcelle_id], [create_stress_matrix] hands the
    whole matrix to both sources of the plot and prints nothing; selecting
    a parcel then replaces the columns [temp_bin], [stress_bin] and
    [normalized_count] of the plotted source by those of the lines of that
    parcel, in the order of the matrix, while [index], [parcelle_id] and
    [count] keep one cell for every line of the whole matrix. *)
Theorem stress_plot_filter (self : Dashboard.dashboard) (f : Dashboard.DataFrame) :
  Dashboard.features_data self = Some f →
  Dashboard.has "temperature" f = true →
  Dashboard.has "stress_hydrique" f = true →
  Dashboard.has "parcelle_id" f = true →
  let m := Dashboard.stress_matrix (Dashboard.rows f) in
  ∃ plot self',
    Dashboard.create_stress_matrix self = (Some plot, self', []) ∧
    Dashboard.plot_source plot = Dashboard.stress_source m ∧
    Dashboard.plot_full_source plot = Dashboard.stress_source m ∧
    ∀ selected,
      let wanted := List.filter (λ b, String.eqb (Dashboard.bin_parcelle_id b) selected) m in
      ∃ st',
        Js.stress_callback selected
          (Js.init (Dashboard.plot_full_source plot) (Dashboard.plot_source plot))
        = Some st' ∧
        Js.contents (Js.arrays st') (Js.source_data st')
        = Some [("index", List.map (λ i, Js.Num (Z.of_nat i)) (seq 0 (length m)));
                ("parcelle_id", List.map (λ b, Js.Str (Dashboard.bin_parcelle_id b)) m);
                ("temp_bin", List.map (λ b, Js.Real (Dashboard.bin_temp b)) wanted);
                ("stress_bin", List.map (λ b, Js.Real (Dashboard.bin_stress b)) wanted);
                ("count", List.map (λ b, Js.Num (Z.of_nat (Dashboard.count b))) m);
                ("normalized_count",
                 List.map (λ b, Js.Real (Dashboard.to_float (Dashboard.normalized_count b)))
                   wanted)].
Proof.
  intros Hf Ht Hs Hp m.
  eexists _, _. split; [exact (SeriesFacts.create_stress_matrix_ok self f Hf Ht Hs Hp)|].
  cbn [Dashboard.plot_source Dashboard.plot_full_source].
  split; [done|]. split; [done|].
  intros selected. exact (SeriesFacts.stress_callback_rows m selected).
Qed.

Lemma stress_plot_filter_witness :
  let row p t := Dashboard.FeatureRow 0 p 0 0 0 t 0.34 in
  let f := Dashboard.Frame ["parcelle_id"; "temperature"; "stress_hydrique"]
             [row "A" 22%float; row "B" 22%float; row "B" 31%float; row "B" 24%float] in
  let self := Dashboard.Dash (Dashboard.Manager None (inr f) None) (Some f) None in
  ∃ plot self' st',
    Dashboard.create_stress_matrix self = (Some plot, self', []) ∧
    Js.stress_callback "B"
      (Js.init (Dashboard.plot_full_source plot) (Dashboard.plot_source plot)) = Some st' ∧
    Js.shown st' "parcelle_id" = Some [Js.Str "A"; Js.Str "B"; Js.Str "B"] ∧
    Js.shown st' "temp_bin" = Some [Js.Real 20; Js.Real 30] ∧
    Js.shown st' "normalized_count" = Some [Js.Real 1; Js.Real 0.5].
Proof.
  intros row f self.
  destruct (stress_plot_filter self f) as (plot & self' & H & Hs & Hf & Hcb);
    try reflexivity.
  destruct (Hcb "B") as (st' & H1 & H2).
  exists plot, self', st'. split; [exact H|]. split; [exact H1|].
  unfold Js.shown. rewrite !(JsFacts.contents_read _ _ _ _ H2).
  repeat split; reflexivity.
Defined.

(** X6: for a feature table with the columns [temperature],
    [stress_hydrique] and [parcelle_id], [create_stress_matrix] succeeds
    without printing and leaves the dashboard with a table that has the
    columns it had and the columns [temp_bin] and [stress_bin]; a second
    call finds these two columns, adds none, and returns the same plot
    and the same dashboard. *)
Theorem stress_matrix_preparation (self : Dashboard.dashboard) (f : Dashboard.DataFrame) :
  Dashboard.features_data self = Some f →
  Dashboard.has "temperature" f = true →
  Dashboard.has "stress_hydrique" f = true →
  Dashboard.has "parcelle_id" f = true →
  ∃ plot self' f',
    Dashboard.create_stress_matrix self = (Some plot, self', []) ∧
    Dashboard.features_data self' = Some f' ∧
    (∀ c, Dashboard.has c f'
          = Dashboard.has c f || String.eqb c "temp_bin" || String.eqb c "stress_bin") ∧
    (Dashboard.has "temp_bin" f = false → Dashboard.has "stress_bin" f = false →
     Dashboard.columns f' = Dashboard.columns f ++ ["temp_bin"; "stress_bin"]) ∧
    Dashboard.create_stress_matrix self' = (Some plot, self', []).
Proof.
  intros Hf Ht Hs Hp.
  set (f' := Dashboard.set_column "stress_bin" (Dashboard.set_column "temp_bin" f)).
  assert (∀ c, Dashboard.has c f'
               = Dashboard.has c f || String.eqb c "temp_bin" || String.eqb c "stress_bin")
    as Hhas by (intros c; unfold f'; by rewrite !ErrorFacts.has_set_column).
  assert (Dashboard.rows f' = Dashboard.rows f) as Hrows
    by (unfold f'; by rewrite !SeriesFacts.rows_set_column).
  set (self' := Dashboard.Dash (Dashboard.data_manager self) (Some f')
                  (Dashboard.data_sources self)).
  pose proof (SeriesFacts.create_stress_matrix_ok self f Hf Ht Hs Hp) as H1.
  cbv zeta in H1. fold f' self' in H1.
  assert (Dashboard.set_column "stress_bin" (Dashboard.set_column "temp_bin" f') = f')
    as Hsame.
  { rewrite (SeriesFacts.set_column_has "temp_bin" f') by (by rewrite Hhas, orb_true_r).
    apply SeriesFacts.set_column_has. by rewrite Hhas, orb_true_r. }
  pose proof (SeriesFacts.create_stress_matrix_ok self' f' eq_refl) as H2.
  cbv zeta in H2. rewrite Hsame, Hrows in H2.
  eexists _, self', f'. split; [exact H1|].
  split; [done|]. split; [done|]. split.
  - intros Hn1 Hn2. unfold f'.
    assert (Dashboard.has "stress_bin" (Dashboard.set_column "temp_bin" f) = false) as Hn3
      by (by rewrite ErrorFacts.has_set_column, Hn2).
    unfold Dashboard.set_column at 1. rewrite Hn3.
    unfold Dashboard.set_column. rewrite Hn1. cbn [Dashboard.columns].
    by rewrite <- app_assoc.
  - apply H2; by rewrite Hhas, ?Ht, ?Hs, ?Hp.
Qed.

Lemma stress_matrix_preparation_witness :
  let f := Dashboard.Frame ["parcelle_id"; "temperature"; "stress_hydrique"]
             [Dashboard.FeatureRow 0 "A" 0 0 0 22 0.34] in
  let self := Dashboard.Dash (Dashboard.Manager None (inr f) None) (Some f) None in
  ∃ plot self' f',
    Dashboard.create_stress_matrix self = (Some plot, self', []) ∧
    Dashboard.features_data self' = Some f' ∧
    Dashboard.columns f'
    = ["parcelle_id"; "temperature"; "stress_hydrique"; "temp_bin"; "stress_bin"] ∧
    Dashboard.create_stress_matrix self' = (Some plot, self', []).
Proof.
  intros f self.
  destruct (stress_matrix_preparation self f)
    as (plot & self' & f' & H1 & H2 & _ & H3 & H4); try reflexivity.
  exists plot, self', f'. split; [exact H1|]. split; [exact H2|].
  split; [|exact H4]. rewrite H3; reflexivity.
Defined.

(** X7: the counts of the stress matrix add up to the number of rows of
    the feature table that have both bins; a row whose temperature or
    stress is NaN is in no line. *)
Theorem stress_matrix_count_total (rs : list Dashboard.feature_row) :
  foldr Nat.add 0 (List.map Dashboard.count (Dashboard.stress_matrix rs))
  = length (List.filter Dashboard.binned rs).
Proof.
  rewrite StressFacts.stress_matrix_counts. apply GroupFacts.group_sizes_total.
Qed.

(** X8: the lines of the stress matrix come in strictly increasing order
    of their groups: by parcel in the order of the strings, then by
    temperature bin, then by stress bin, as [groupby] sorts its keys. *)
Theorem stress_matrix_sorted (rs : list Dashboard.feature_row) :
  ∃ ks,
    List.map Dashboard.bin_key (Dashboard.stress_matrix rs) = List.map Some ks ∧
    StronglySorted Dashboard.key_lt ks.
Proof.
  eexists. split.
  - rewrite StressFacts.stress_matrix_keys. apply StressFacts.group_sizes_keys.
  - apply GroupFacts.group_keys_sorted.
Qed.

(** X9: [get_parcelle_options] returns the parcels of the monitoring data,
    each once, in strictly increasing order of the strings, and prints
    nothing; when the monitoring data is not loaded it returns the empty
    list and prints one diagnostic. *)
Theorem parcel_options_sorted_unique :
  (∀ self ids,
     Dashboard.monitoring_data (Dashboard.data_manager self) = Some ids →
     ∃ options,
       Dashboard.get_parcelle_options self = (options, []) ∧
       StronglySorted String_as_OT.lt options ∧
       NoDup options ∧
       ∀ x, In x options ↔ In x ids)
  ∧ (∀ self,
       Dashboard.monitoring_data (Dashboard.data_manager self) = None →
       Dashboard.get_parcelle_options self
       = ([], [Py.Report "Error retrieving parcel options: "
                 (Py.ValueError "Monitoring data is not loaded.")])).
Proof.
  split.
  - intros self ids H. unfold Dashboard.get_parcelle_options. rewrite H.
    eexists. split; [reflexivity|]. apply OptionFacts.sorted_unique_spec.
  - intros self H. unfold Dashboard.get_parcelle_options. by rewrite H.
Qed.

Lemma parcel_options_sorted_unique_witness :
  let self := Dashboard.new (Dashboard.Manager None (inl (Py.KeyError "x"))
                               (Some ["P2"; "P10"; "P2"; "P1"])) in
  ∃ options,
    Dashboard.get_parcelle_options self = (options, []) ∧
    StronglySorted String_as_OT.lt options ∧
    (In "P10" options ↔ In "P10" ["P2"; "P10"; "P2"; "P1"]).
Proof.
  intros self.
  destruct (proj1 parcel_options_sorted_unique self ["P2"; "P10"; "P2"; "P1"])
    as (options & H1 & H2 & _ & H3).
  - reflexivity.
  - exists options. split; [exact H1|]. split; [exact H2|exact (H3 "P10")].
Defined.

(** X10: the callbacks of the NDVI plot and of the prediction plot leave
    the object of the full source and every array that existed before the
    call as they were: they write to new arrays only. *)
Theorem ndvi_and_prediction_keep_full_source :
  (∀ selected st st',
     Js.ndvi_callback selected st = Some st' →
     Js.full_data st' = Js.full_data st ∧ Js.unchanged (Js.arrays st) (Js.arrays st'))
  ∧ (∀ to_number random selected draws st st' n,
       Js.prediction_callback to_number random selected draws st = Some (st', n) →
       Js.full_data st' = Js.full_data st ∧ Js.unchanged (Js.arrays st) (Js.arrays st')).
Proof.
  split.
  - exact CallbackFacts.ndvi_callback_frame.
  - exact CallbackFacts.prediction_callback_frame.
Qed.

Lemma ndvi_and_prediction_keep_full_source_witness :
  let full := [("index", [Js.Num 0; Js.Num 1]);
               ("parcelle_id", [Js.Str "A"; Js.Str "B"]);
               ("date", [Js.Num 3; Js.Num 9]);
               ("ndvi", [Js.Real 0.5; Js.Real 0.6])] in
  let source := [("parcelle_id", []); ("date", []); ("ndvi", [])] in
  let st := Js.init full source in
  ∃ st',
    Js.ndvi_callback "B" st = Some st' ∧
    Js.full_data st' = Js.full_data st ∧
    Js.unchanged (Js.arrays st) (Js.arrays st').
Proof.
  intros full source st.
  destruct (Js.ndvi_callback "B" st) as [st'|] eqn:H; [|discriminate H].
  exists st'. split; [reflexivity|].
  exact (proj1 ndvi_and_prediction_keep_full_source "B" st st' H).
Defined.

(** X11: the trend estimator answers with the zero trend and prints
    nothing when the parcel has no record in the yield history or its
    records carry fewer than two different yields; when the records pass
    that guard but the date column holds no time stamps, the [.dt]
    accessor raises, one diagnostic is printed and the zero trend is
    returned. *)
Theorem trend_without_regression :
  (∀ s r t parcelle,
     s !! r = Some t →
     let rows := List.filter
                   (λ x, String.eqb (AgriculturalMap.yh_parcelle_id x) parcelle) t in
     rows = [] ∨
     AgriculturalMap.nunique (List.map AgriculturalMap.yh_rendement_estime rows) < 2 →
     ∃ s', AgriculturalMap.calculate_yield_trend (Some r) parcelle s
           = (AgriculturalMap.zero_trend, s', []))
  ∧ (∀ s r t parcelle,
       s !! r = Some t →
       let rows := List.filter
                     (λ x, String.eqb (AgriculturalMap.yh_parcelle_id x) parcelle) t in
       2 ≤ AgriculturalMap.nunique (List.map AgriculturalMap.yh_rendement_estime rows) →
       Forall (λ x, AgriculturalMap.dt_year (AgriculturalMap.yh_date x) = None) t →
       ∃ s', AgriculturalMap.calculate_yield_trend (Some r) parcelle s
             = (AgriculturalMap.zero_trend, s',
                [Py.Report ("Error calculating yield trend for parcelle " ++ parcelle ++ ": ")
                   (Py.AttributeError
                      "Can only use .dt accessor with datetimelike values")])).
Proof.
  split.
  - exact TrendFacts.calculate_yield_trend_guard.
  - exact TrendEdgeFacts.calculate_yield_trend_not_dates.
Qed.

Lemma trend_without_regression_witness :
  let t := [AgriculturalMap.YieldRecord "P1" (AgriculturalMap.Timestamp 2020 7 15) 5;
            AgriculturalMap.YieldRecord "P1" (AgriculturalMap.Timestamp 2021 7 15) 5;
            AgriculturalMap.YieldRecord "P2" (AgriculturalMap.Timestamp 2021 7 15) 9] in
  ∃ s', AgriculturalMap.calculate_yield_trend (Some 0) "P1" [t]
        = (AgriculturalMap.zero_trend, s', []).
Proof.
  intros t.
  apply (proj1 trend_without_regression [t] 0 t "P1").
  - reflexivity.
  - right. vm_compute. lia.
Defined.

(** X12: when all the records of a parcel fall in one calendar year and
    carry at least two different yields, the estimator prints nothing and
    returns slope 0, the yield of the parcel's first record as intercept,
    and variation 0: the regression runs on that record alone.  The
    arithmetic is exact. *)
Theorem trend_single_year (s : list (list AgriculturalMap.yield_record)) (r : nat)
    (t : list AgriculturalMap.yield_record) (parcelle : string) (year : Z)
    (first : AgriculturalMap.yield_record) (rest : list AgriculturalMap.yield_record) :
  s !! r = Some t →
  List.filter (λ x, String.eqb (AgriculturalMap.yh_parcelle_id x) parcelle) t
  = first :: rest →
  Forall (λ x, AgriculturalMap.dt_year (AgriculturalMap.yh_date x) = Some year)
    (first :: rest) →
  2 ≤ AgriculturalMap.nunique
        (List.map AgriculturalMap.yh_rendement_estime (first :: rest)) →
  ∃ trend s',
    AgriculturalMap.calculate_yield_trend (Some r) parcelle s = (trend, s', []) ∧
    (AgriculturalMap.slope trend == 0)%Q ∧
    (AgriculturalMap.intercept trend == AgriculturalMap.yh_rendement_estime first)%Q ∧
    (AgriculturalMap.variation_moyenne trend == 0)%Q.
Proof. apply TrendEdgeFacts.calculate_yield_trend_one_year. Qed.

Lemma trend_single_year_witness :
  let a := AgriculturalMap.YieldRecord "P1" (AgriculturalMap.Timestamp 2021 9 1) 7 in
  let b := AgriculturalMap.YieldRecord "P1" (AgriculturalMap.Timestamp 2021 3 1) 4 in
  ∃ trend s',
    AgriculturalMap.calculate_yield_trend (Some 0) "P1" [[a; b]] = (trend, s', []) ∧
    (AgriculturalMap.slope trend == 0)%Q ∧
    (AgriculturalMap.intercept trend == 7)%Q ∧
    (AgriculturalMap.variation_moyenne trend == 0)%Q.
Proof.
  intros a b.
  apply (trend_single_year [[a; b]] 0 [a; b] "P1" 2021 a [b]).
  - reflexivity.
  - reflexivity.
  - repeat constructor.
  - vm_compute. lia.
Defined.

(** X14: for a history with rows and with the columns [parcelle_id],
    [date] and [rendement_estime], the popup names the parcel of the first
    row, carries the mean yield and the trend it was given and the recent
    crops of [_format_recent_crops], and lists one yield for each date of
    the history, in strictly increasing order of the dates: the yield of
    the first row of the history with that date. *)
Theorem popup_yields (history : AgriculturalMap.DataFrame) (mean_yield : float)
    (trend : AgriculturalMap.TrendResult) (first : AgriculturalMap.feature_row)
    (rest : list AgriculturalMap.feature_row) :
  AgriculturalMap.rows history = first :: rest →
  AgriculturalMap.has "parcelle_id" history = true →
  AgriculturalMap.has "date" history = true →
  AgriculturalMap.has "rendement_estime" history = true →
  ∃ crops yields out,
    AgriculturalMap.create_yield_popup history mean_yield trend
    = (AgriculturalMap.YieldPopup (AgriculturalMap.parcelle_id first) mean_yield trend
         crops yields, out) ∧
    AgriculturalMap.format_recent_crops history = (crops, out) ∧
    StronglySorted Z.lt (List.map fst yields) ∧
    (∀ d, In d (List.map fst yields)
          ↔ In d (List.map AgriculturalMap.date (AgriculturalMap.rows history))) ∧
    (∀ d y, In (d, y) yields →
            ∃ x, List.find (λ x, Z.eqb (AgriculturalMap.date x) d)
                   (AgriculturalMap.rows history) = Some x ∧
                 y = AgriculturalMap.rendement_estime x).
Proof.
  intros Hr Hp Hd Hy.
  destruct (YieldPopupFacts.unique_history_spec (AgriculturalMap.rows history))
    as (Hs & Hin & Hfirst).
  eexists _, _, _.
  split; [exact (PreparationFacts.create_yield_popup_ok history mean_yield trend
                   first rest Hr Hp Hd Hy)|].
  split; [by destruct (AgriculturalMap.format_recent_crops history)|].
  rewrite List.map_map. cbn [fst]. split; [exact Hs|]. split; [exact Hin|].
  intros d y H. apply in_map_iff in H as (x & [= <- <-] & Hx).
  exists x. split; [by apply Hfirst|done].
Qed.

Lemma popup_yields_witness :
  let history :=
    AgriculturalMap.Frame ["parcelle_id"; "date"; "culture"; "rendement_estime"]
      [AgriculturalMap.FeatureRow "P1" 2022 "corn" 0 0 6;
       AgriculturalMap.FeatureRow "P1" 2021 "wheat" 0 0 5;
       AgriculturalMap.FeatureRow "P1" 2022 "rye" 0 0 9] in
  ∃ crops yields out,
    AgriculturalMap.create_yield_popup history 6 AgriculturalMap.zero_trend
    = (AgriculturalMap.YieldPopup "P1" 6 AgriculturalMap.zero_trend crops yields, out) ∧
    StronglySorted Z.lt (List.map fst yields).
Proof.
  intros history.
  destruct (popup_yields history 6 AgriculturalMap.zero_trend
              (AgriculturalMap.FeatureRow "P1" 2022 "corn" 0 0 6)
              [AgriculturalMap.FeatureRow "P1" 2021 "wheat" 0 0 5;
               AgriculturalMap.FeatureRow "P1" 2022 "rye" 0 0 9])
    as (crops & yields & out & H1 & _ & H2 & _); try reflexivity.
  exists crops, yields, out. split; [exact H1|exact H2].
Defined.

(** X15: an empty history gives the placeholder popup and one diagnostic;
    so does a history that lacks one of [parcelle_id], [date] and
    [rendement_estime], after what the formatting of the crops printed.
    A history that lacks only the [culture] column still gets its popup:
    the failure stays inside [_format_recent_crops], which prints its
    diagnostic and hands back no crop. *)
Theorem popup_failures :
  (∀ history mean_yield trend,
     AgriculturalMap.empty history = true →
     AgriculturalMap.create_yield_popup history mean_yield trend
     = (AgriculturalMap.ErrorPopup,
        [Py.Report "Error creating yield popup: "
           (Py.ValueError "The history DataFrame is empty.")]))
  ∧ (∀ history mean_yield trend c,
       AgriculturalMap.empty history = false →
       In c ["parcelle_id"; "date"; "rendement_estime"] →
       AgriculturalMap.has c history = false →
       ∃ c',
         AgriculturalMap.create_yield_popup history mean_yield trend
         = (AgriculturalMap.ErrorPopup,
            (AgriculturalMap.format_recent_crops history).2
              ++ [Py.Report "Error creating yield popup: " (Py.KeyError c')]) ∧
         AgriculturalMap.has c' history = false)
  ∧ (∀ history mean_yield trend first rest,
       AgriculturalMap.rows history = first :: rest →
       AgriculturalMap.has "parcelle_id" history = true →
       AgriculturalMap.has "date" history = true →
       AgriculturalMap.has "rendement_estime" history = true →
       AgriculturalMap.has "culture" history = false →
       ∃ yields,
         AgriculturalMap.create_yield_popup history mean_yield trend
         = (AgriculturalMap.YieldPopup (AgriculturalMap.parcelle_id first) mean_yield trend
              [] yields,
            [Py.Report "Error formatting recent crops: "
               (Py.ValueError
                  "The history DataFrame must include 'culture' and 'date'.")])).
Proof.
  split; [|split].
  - intros history mean_yield trend He. unfold AgriculturalMap.create_yield_popup.
    by rewrite He.
  - intros history mean_yield trend c He Hc Hh.
    unfold AgriculturalMap.create_yield_popup. rewrite He.
    destruct (AgriculturalMap.format_recent_crops history) as [crops out]. cbn [snd].
    destruct (List.find _ ["parcelle_id"; "date"; "rendement_estime"]) as [c'|] eqn:Hf.
    + exists c'. split; [done|]. apply find_some in Hf as [_ Hf].
      by apply negb_true_iff in Hf.
    + pose proof (find_none _ _ Hf c Hc) as H. cbn beta in H. by rewrite Hh in H.
  - intros history mean_yield trend first rest Hr Hp Hd Hy Hc.
    eexists.
    rewrite (PreparationFacts.create_yield_popup_ok history mean_yield trend
               first rest Hr Hp Hd Hy).
    unfold AgriculturalMap.format_recent_crops. rewrite Hc.
    cbn [negb]. rewrite orb_true_r. cbn [orb fst snd]. reflexivity.
Qed.

Lemma popup_failures_witness :
  let history :=
    AgriculturalMap.Frame ["parcelle_id"; "date"; "rendement_estime"]
      [AgriculturalMap.FeatureRow "P1" 2021 "" 0 0 5] in
  ∃ yields,
    AgriculturalMap.create_yield_popup history 5 AgriculturalMap.zero_trend
    = (AgriculturalMap.YieldPopup "P1" 5 AgriculturalMap.zero_trend [] yields,
       [Py.Report "Error formatting recent crops: "
          (Py.ValueError "The history DataFrame must include 'culture' and 'date'.")]).
Proof.
  intros history.
  apply (proj2 (proj2 popup_failures) history 5%float AgriculturalMap.zero_trend
           (AgriculturalMap.FeatureRow "P1" 2021 "" 0 0 5) []); reflexivity.
Defined.

(** X16: the heat map gets one point for each row that [dropna] leaves of
    the merged table, in the order of that table: the latitude moved by
    the draw of the row's rank in the first batch, the longitude by that
    of the second batch, and the risk rescaled between the least and the
    greatest risk of those rows.  The weights do not depend on the
    draws. *)
Theorem heat_map_points (jitter : nat → float) (risk : list AgriculturalMap.risk_metric)
    (features : list AgriculturalMap.feature_row) :
  let data := AgriculturalMap.dropna (AgriculturalMap.merge risk features) in
  let risks := List.map AgriculturalMap.m_avg_risk_index data in
  length (AgriculturalMap.heat_data jitter risk features) = length data ∧
  (∀ i r,
     data !! i = Some r →
     AgriculturalMap.heat_data jitter risk features !! i
     = Some (PrimFloat.add (AgriculturalMap.m_latitude r) (jitter i),
             PrimFloat.add (AgriculturalMap.m_longitude r) (jitter (length data + i)),
             AgriculturalMap.normalized_risk (F64.min_list risks) (F64.max_list risks)
               (AgriculturalMap.m_avg_risk_index r))) ∧
  (∀ jitter',
     List.map snd (AgriculturalMap.heat_data jitter risk features)
     = List.map snd (AgriculturalMap.heat_data jitter' risk features)).
Proof.
  intros data risks. split; [apply HeatFacts.heat_data_length|]. split.
  - intros i r. apply HeatFacts.heat_data_lookup.
  - intros jitter'. apply HeatFacts.heat_data_weights.
Qed.

Lemma heat_map_points_witness :
  let features := [AgriculturalMap.FeatureRow "P1" 2021 "wheat" 33.5 (-7.5) 5;
                   AgriculturalMap.FeatureRow "P2" 2021 "corn" 33.75 (-7.25) 6]%float in
  let risk := [AgriculturalMap.Risk "P1" 0.25; AgriculturalMap.Risk "P2" 0.75]%float in
  let jitter i := PrimFloat.of_uint63 (Uint63.of_Z (Z.of_nat i)) in
  AgriculturalMap.heat_data jitter risk features !! 1
  = Some (34.75, -4.25, 1)%float.
Proof.
  intros features risk jitter.
  rewrite (proj1 (proj2 (heat_map_points jitter risk features)) 1
             (AgriculturalMap.Merged 33.75 (-7.25) 0.75)).
  - reflexivity.
  - reflexivity.
Defined.

(** X17: when the risks are numbers, a risk metric gives one point for
    every feature row of its parcel that has both coordinates, so that a
    parcel with several rows in the feature table weighs as many times,
    and a metric whose parcel has no such row gives no point. *)
Theorem heat_map_counts_feature_rows (jitter : nat → float)
    (risk : list AgriculturalMap.risk_metric)
    (features : list AgriculturalMap.feature_row) :
  Forall (λ r, F64.is_nan (AgriculturalMap.avg_risk_index r) = false) risk →
  length (AgriculturalMap.heat_data jitter risk features)
  = foldr Nat.add 0
      (List.map (λ r,
         length (List.filter
                   (λ f, String.eqb (AgriculturalMap.parcelle_id f)
                           (AgriculturalMap.risk_parcelle_id r)
                         && AgriculturalMap.located f) features)) risk).
Proof.
  intros H. rewrite HeatFacts.heat_data_length, (HeatFacts.dropna_merge risk features H).
  rewrite HeatFacts.length_concat_map. f_equal. apply map_ext. intros r.
  by rewrite length_map.
Qed.

Lemma heat_map_counts_feature_rows_witness :
  let features := [AgriculturalMap.FeatureRow "P1" 2021 "wheat" 33.5 (-7.5) 5;
                   AgriculturalMap.FeatureRow "P1" 2022 "corn" 33.5 (-7.5) 6;
                   AgriculturalMap.FeatureRow "P3" 2022 "corn" PrimFloat.nan (-7.5) 6]%float in
  let risk := [AgriculturalMap.Risk "P1" 0.25; AgriculturalMap.Risk "P2" 0.5;
               AgriculturalMap.Risk "P3" 0.75]%float in
  length (AgriculturalMap.heat_data (λ _, 0%float) risk features) = 2.
Proof.
  intros features risk.
  rewrite (heat_map_counts_feature_rows (λ _, 0%float) risk features).
  - reflexivity.
  - repeat constructor.
Defined.
